(** * VerifiedOnChain: a shallow embedding of the service layer

    The development follows the three service files of the application:

    - [services/chain.ts]   address validation, the price cache, the three
      per-chain statistics fetchers and the history synthesizer
      (modules [Regex] and [Chain]);
    - [services/storage.ts] the profile store (module [Storage]);
    - [services/wallet.ts]  the wallet bridge (modules [Wallet] and
      [Connect]);

    and, of the components, the growth column of [Dashboard.tsx] (module
    [Dashboard]) and the onboarding wizard of [SubmitForm.tsx] (module
    [SubmitForm]); the display helpers of [services/chain.ts] are in
    module [Display].

    Network responses, clock readings, random draws and wallet providers are
    inputs of the embedded functions.  An [async] function is embedded as
    the function from those inputs to its completion: the value its promise
    resolves with, or the value it rejects with. *)

From Stdlib Require Import ZArith QArith List String Ascii Bool Lia.
From stdpp Require Import gmap strings.
Import ListNotations.

Local Open Scope string_scope.
Local Open Scope list_scope.
Local Open Scope Z_scope.

Set Implicit Arguments.

(* ===================================================================== *)
(** * JavaScript values shared by the three services *)
(* ===================================================================== *)

Module Js.

(** How a call ends: [return v] or [throw e]; for an async function, how
    its promise settles. *)
Inductive Completion (A : Type) : Type :=
| Returned (v : A)
| Threw (message : string).
Arguments Returned {A} v.
Arguments Threw {A} message.

(** A string is truthy when it is not empty. *)
Definition str_truthy (s : string) : bool :=
  match s with EmptyString => false | String _ _ => true end.

(** [s || fallback] on strings. *)
Definition str_or (s fallback : string) : string :=
  if str_truthy s then s else fallback.

(** [o || fallback] where [o] is a string or [undefined]. *)
Definition opt_str_or (o : option string) (fallback : string) : string :=
  match o with Some s => str_or s fallback | None => fallback end.

Definition chars (s : string) : list ascii := list_ascii_of_string s.

(** [String.prototype.toLowerCase] on the ASCII letters. *)
Definition lower_char (c : ascii) : ascii :=
  let n := N_of_ascii c in
  if ((65 <=? n) && (n <=? 90))%N then ascii_of_N (n + 32) else c.

Fixpoint toLowerCase (s : string) : string :=
  match s with
  | EmptyString => EmptyString
  | String c s' => String (lower_char c) (toLowerCase s')
  end.

(** [s.substr(start, len)]: at most [len] characters from index [start]. *)
Definition substr (start len : nat) (s : string) : string :=
  substring start len s.

(** The numbers of the program are IEEE doubles.  The functions below are
    written against the operations they use, so every statement proved
    about them holds for whatever arithmetic interprets the operations. *)
Class JsNumber (num : Type) : Type := {
  num_lit : Q -> num;                (* a literal: [0.05], [1e18]         *)
  num_nan : num;                     (* NaN, e.g. [undefined * 1000]      *)
  num_parseFloat : string -> num;    (* parseFloat                        *)
  num_parseInt : string -> num;      (* parseInt                          *)
  num_Number : string -> num;        (* Number(s)                         *)
  num_add : num -> num -> num;
  num_sub : num -> num -> num;
  num_mul : num -> num -> num;
  num_div : num -> num -> num;
  num_max : num -> num -> num;       (* Math.max                          *)
  num_ltb : num -> num -> bool;      (* <                                 *)
  num_truthy : num -> bool;          (* neither 0 nor NaN                 *)
  num_time : num -> option Z         (* the time value of [new Date(x)];
                                        [None] for an invalid date        *)
}.

(** An integer, e.g. a reading of [Date.now()]. *)
Definition num_of_Z {num} `{JsNumber num} (z : Z) : num := num_lit (inject_Z z).

(** [x || 0]. *)
Definition num_or0 {num} `{JsNumber num} (x : num) : num :=
  if num_truthy x then x else num_of_Z 0.

(** [o || 0] where [o] is a number or [undefined]. *)
Definition opt_num_or0 {num} `{JsNumber num} (o : option num) : num :=
  match o with Some x => num_or0 x | None => num_of_Z 0 end.

(** Exact rationals with a NaN, used to run the functions on examples. *)
Inductive qnum : Type := QNaN | QFin (q : Q).

Definition qlift2 (f : Q -> Q -> Q) (a b : qnum) : qnum :=
  match a, b with
  | QFin x, QFin y => QFin (Qred (f x y))
  | _, _ => QNaN
  end.

Definition qdiv (a b : qnum) : qnum :=
  match a, b with
  | QFin x, QFin y => if Qeq_bool y 0 then QNaN else QFin (Qred (x / y))
  | _, _ => QNaN
  end.

Definition qmax (a b : qnum) : qnum :=
  match a, b with
  | QFin x, QFin y => if Qle_bool x y then QFin y else QFin x
  | _, _ => QNaN
  end.

Definition qltb (a b : qnum) : bool :=
  match a, b with
  | QFin x, QFin y => negb (Qle_bool y x)
  | _, _ => false
  end.

Definition qtruthy (a : qnum) : bool :=
  match a with QFin x => negb (Qeq_bool x 0) | QNaN => false end.

Definition qtime (a : qnum) : option Z :=
  match a with
  | QFin x =>
      let t := Z.quot (Qnum x) (Z.pos (Qden x)) in
      if (Z.abs t <=? 8640000000000000)%Z then Some t else None
  | QNaN => None
  end.

(** Strings are parsed in unsigned decimal notation, [123] or [12.5]. *)
Definition digit_value (c : ascii) : option Z :=
  let n := N_of_ascii c in
  if ((48 <=? n) && (n <=? 57))%N then Some (Z.of_N n - 48)%Z else None.

Fixpoint leading_digits (s : string) (acc : Z) (scale : positive)
    : Z * positive * string :=
  match s with
  | EmptyString => (acc, scale, s)
  | String c s' =>
      match digit_value c with
      | Some d => leading_digits s' (10 * acc + d)%Z (10 * scale)%positive
      | None => (acc, scale, s)
      end
  end.

Definition qparseInt (s : string) : qnum :=
  let '(n, scale, _) := leading_digits s 0%Z 1%positive in
  if (scale =? 1)%positive then QNaN else QFin (inject_Z n).

Definition qparseFloat (s : string) : qnum :=
  let '(n, scale, rest) := leading_digits s 0%Z 1%positive in
  if (scale =? 1)%positive then QNaN
  else match rest with
       | String "." frac =>
           let '(f, fscale, _) := leading_digits frac 0%Z 1%positive in
           QFin (Qred (Qplus (inject_Z n) (Qmake f fscale)))
       | _ => QFin (inject_Z n)
       end.

Definition qNumber (s : string) : qnum :=
  match s with
  | EmptyString => QFin 0
  | _ => let '(n, scale, rest) := leading_digits s 0%Z 1%positive in
         match rest with
         | EmptyString => QFin (inject_Z n)
         | String "." frac =>
             let '(f, fscale, rest') := leading_digits frac 0%Z 1%positive in
             match rest' with
             | EmptyString => QFin (Qred (Qplus (inject_Z n) (Qmake f fscale)))
             | _ => QNaN
             end
         | _ => QNaN
         end
  end.

#[export] Instance qnum_number : JsNumber qnum := {|
  num_lit q := QFin (Qred q);
  num_nan := QNaN;
  num_parseFloat := qparseFloat;
  num_parseInt := qparseInt;
  num_Number := qNumber;
  num_add := qlift2 Qplus;
  num_sub := qlift2 Qminus;
  num_mul := qlift2 Qmult;
  num_div := qdiv;
  num_max := qmax;
  num_ltb := qltb;
  num_truthy := qtruthy;
  num_time := qtime
|}.

(** A value of type [any]: the fields of a table row, a signature. *)
#[warnings="-register-all"] Inductive JsValue (num : Type) : Type :=
| JsUndefined
| JsNull
| JsBool (b : bool)
| JsNum (n : num)
| JsStr (s : string)
| JsObject (fields : list (string * JsValue num)).
Arguments JsUndefined {num}.
Arguments JsNull {num}.
Arguments JsBool {num} b.
Arguments JsNum {num} n.
Arguments JsStr {num} s.
Arguments JsObject {num} fields.

(** [!!v] *)
Definition truthy {num} `{JsNumber num} (v : JsValue num) : bool :=
  match v with
  | JsUndefined | JsNull => false
  | JsBool b => b
  | JsNum n => num_truthy n
  | JsStr s => str_truthy s
  | JsObject _ => true
  end.

(** [typeof v] *)
Definition typeof {num} (v : JsValue num) : string :=
  match v with
  | JsUndefined => "undefined"
  | JsNull | JsObject _ => "object"
  | JsBool _ => "boolean"
  | JsNum _ => "number"
  | JsStr _ => "string"
  end.

(** [Number(v)] *)
Definition Number {num} `{JsNumber num} (v : JsValue num) : num :=
  match v with
  | JsUndefined | JsObject _ => num_nan
  | JsNull | JsBool false => num_of_Z 0
  | JsBool true => num_of_Z 1
  | JsNum n => n
  | JsStr s => num_Number s
  end.

Fixpoint field_of {num} (fields : list (string * JsValue num)) (key : string)
    : JsValue num :=
  match fields with
  | [] => JsUndefined
  | (k, v) :: rest => if String.eqb k key then v else field_of rest key
  end.

(** [v.key]: a TypeError ([None]) on [undefined] and [null], [undefined]
    on the other primitives. *)
Definition property {num} (v : JsValue num) (key : string)
    : option (JsValue num) :=
  match v with
  | JsUndefined | JsNull => None
  | JsObject fields => Some (field_of fields key)
  | _ => Some JsUndefined
  end.

End Js.
Import Js.

(* ===================================================================== *)
(** * Regular expressions, as [RegExp.prototype.test] runs them *)
(* ===================================================================== *)

Module Regex.

(** The fragment of the regular expressions of [isValidAddress]. *)
Inductive regex : Type :=
| Lit (p : string)                       (* a literal, [0x] or [bc1]      *)
| Class (ranges : list (ascii * ascii))  (* a class of ranges, [[a-f0-9]] *)
| Seq (r1 r2 : regex)                    (* r1 r2                         *)
| Alt (r1 r2 : regex)                    (* r1|r2                         *)
| Rep (r : regex) (lo hi : nat).         (* r{lo,hi}                      *)

Definition in_range (c : ascii) (range : ascii * ascii) : bool :=
  ((N_of_ascii (fst range) <=? N_of_ascii c)
   && (N_of_ascii c <=? N_of_ascii (snd range)))%N.

Definition in_class (ranges : list (ascii * ascii)) (c : ascii) : bool :=
  existsb (in_range c) ranges.

(** [strip p s]: what is left of [s] after the literal [p]. *)
Fixpoint strip (p s : list ascii) : option (list ascii) :=
  match p, s with
  | [], _ => Some s
  | a :: p', b :: s' => if Ascii.eqb a b then strip p' s' else None
  | _ :: _, [] => None
  end.

(** Greedy bounded repetition with backtracking: one more iteration first,
    then the continuation when the lower bound is met. *)
Fixpoint rep (step : list ascii -> (list ascii -> bool) -> bool)
    (lo hi : nat) (s : list ascii) (k : list ascii -> bool) : bool :=
  match hi with
  | O => match lo with O => k s | S _ => false end
  | S hi' =>
      step s (fun s' => rep step (Nat.pred lo) hi' s' k)
      || match lo with O => k s | S _ => false end
  end.

(** The backtracking matcher: [run r s k] matches [r] at the front of [s]
    and hands the rest to the continuation [k]. *)
Fixpoint run (r : regex) (s : list ascii) (k : list ascii -> bool) : bool :=
  match r with
  | Lit p => match strip (chars p) s with Some s' => k s' | None => false end
  | Class ranges =>
      match s with
      | c :: s' => in_class ranges c && k s'
      | [] => false
      end
  | Seq r1 r2 => run r1 s (fun s' => run r2 s' k)
  | Alt r1 r2 => run r1 s k || run r2 s k
  | Rep r1 lo hi => rep (run r1) lo hi s k
  end.

Definition at_end (s : list ascii) : bool :=
  match s with [] => true | _ :: _ => false end.

(** [/^r$/.test(s)]: without the [m] flag [^] is the start and [$] the end
    of the input. *)
Definition test (r : regex) (s : string) : bool := run r (chars s) at_end.

(** The language of a regular expression. *)
Fixpoint power (L : list ascii -> Prop) (n : nat) (w : list ascii) : Prop :=
  match n with
  | O => w = []
  | S n' => exists u v, w = u ++ v /\ L u /\ power L n' v
  end.

Fixpoint lang (r : regex) (w : list ascii) : Prop :=
  match r with
  | Lit p => w = chars p
  | Class ranges => exists c, w = [c] /\ in_class ranges c = true
  | Seq r1 r2 => exists u v, w = u ++ v /\ lang r1 u /\ lang r2 v
  | Alt r1 r2 => lang r1 w \/ lang r2 w
  | Rep r1 lo hi => exists n, (lo <= n <= hi)%nat /\ power (lang r1) n w
  end.

(** A matching step decides a language [L]: it succeeds exactly when a
    word of [L] at the front of the input leaves a rest the continuation
    accepts. *)
Definition decides (step : list ascii -> (list ascii -> bool) -> bool)
    (L : list ascii -> Prop) : Prop :=
  forall s k, step s k = true <->
              exists u v, s = u ++ v /\ L u /\ k v = true.

End Regex.

(* ===================================================================== *)
(** * services/chain.ts *)
(* ===================================================================== *)

Module Chain.
Import Regex.

(** [enum Blockchain] of types.ts. *)
Inductive Blockchain : Type := BTC | ETH | SOL | BNB.

Definition Blockchain_eqb (a b : Blockchain) : bool :=
  match a, b with
  | BTC, BTC | ETH, ETH | SOL, SOL | BNB, BNB => true
  | _, _ => false
  end.

(** The string value of an enum member. *)
Definition chain_code (chain : Blockchain) : string :=
  match chain with BTC => "BTC" | ETH => "ETH" | SOL => "SOL" | BNB => "BNB" end.

Definition getCoingeckoId (chain : Blockchain) : string :=
  match chain with
  | BTC => "bitcoin"
  | ETH => "ethereum"
  | SOL => "solana"
  | BNB => "binancecoin"
  end.

(** ** isValidAddress *)

(** [/^(1|3|bc1)[a-zA-Z0-9]{25,59}$/] *)
Definition btc_regex : regex :=
  Seq (Alt (Lit "1") (Alt (Lit "3") (Lit "bc1")))
      (Rep (Class [("a", "z"); ("A", "Z"); ("0", "9")]%char) 25 59).

(** [/^0x[a-fA-F0-9]{40}$/] *)
Definition evm_regex : regex :=
  Seq (Lit "0x") (Rep (Class [("a", "f"); ("A", "F"); ("0", "9")]%char) 40 40).

(** [/^[1-9A-HJ-NP-Za-km-z]{32,44}$/] *)
Definition sol_regex : regex :=
  Rep (Class [("1", "9"); ("A", "H"); ("J", "N"); ("P", "Z");
              ("a", "k"); ("m", "z")]%char) 32 44.

Definition isValidAddress (address : string) (chain : Blockchain) : bool :=
  if negb (str_truthy address) then false
  else match chain with
       | BTC => test btc_regex address
       | ETH | BNB => test evm_regex address
       | SOL => test sol_regex address
       end.

(** ** The per-chain patterns, as the specification words them *)

Definition hex_digits : string := "0123456789abcdefABCDEF".
Definition base58_alphabet : string :=
  "123456789ABCDEFGHJKLMNPQRSTUVWXYZabcdefghijkmnopqrstuvwxyz".
Definition alphanumerics : string :=
  "0123456789ABCDEFGHIJKLMNOPQRSTUVWXYZabcdefghijklmnopqrstuvwxyz".

Definition member (alphabet : string) (c : ascii) : bool :=
  existsb (Ascii.eqb c) (chars alphabet).

Definition starts_with (p : string) (s : list ascii) : bool :=
  match strip (chars p) s with Some _ => true | None => false end.

Definition between (lo hi n : nat) : bool := (lo <=? n)%nat && (n <=? hi)%nat.

(** BTC: a legacy ([1]), P2SH ([3]) or bech32 ([bc1]) prefix. EVM: [0x].
    SOL: no prefix. *)
Definition prefix_ok (chain : Blockchain) (s : list ascii) : bool :=
  match chain with
  | BTC => starts_with "1" s || starts_with "3" s || starts_with "bc1" s
  | ETH | BNB => starts_with "0x" s
  | SOL => true
  end.

(** What follows the prefix is over the chain's alphabet. *)
Definition alphabet_ok (chain : Blockchain) (s : list ascii) : bool :=
  match chain with
  | BTC => forallb (member alphanumerics) s
  | ETH | BNB => forallb (member hex_digits) (skipn 2 s)
  | SOL => forallb (member base58_alphabet) s
  end.

(** BTC: 25 to 59 characters after the prefix. EVM: exactly 40 hex digits
    after [0x]. SOL: 32 to 44 characters. *)
Definition length_ok (chain : Blockchain) (s : list ascii) : bool :=
  match chain with
  | BTC => if starts_with "bc1" s then between 28 62 (length s)
           else between 26 60 (length s)
  | ETH | BNB => Nat.eqb (length s) 42
  | SOL => between 32 44 (length s)
  end.

Definition matches_pattern (chain : Blockchain) (address : string) : bool :=
  prefix_ok chain (chars address)
  && alphabet_ok chain (chars address)
  && length_ok chain (chars address).

(** ** Dates: [new Date(ms).toISOString()] *)

Definition ms_per_day : Z := 24 * 60 * 60 * 1000.

(** Year, month and day of a day number counted from 1970-01-01. *)
Definition civil_from_days (day : Z) : Z * Z * Z :=
  let z := day + 719468 in
  let era := z / 146097 in
  let doe := z - era * 146097 in
  let yoe := (doe - doe / 1460 + doe / 36524 - doe / 146096) / 365 in
  let doy := doe - (365 * yoe + yoe / 4 - yoe / 100) in
  let mp := (5 * doy + 2) / 153 in
  let d := doy - (153 * mp + 2) / 5 + 1 in
  let m := if mp <? 10 then mp + 3 else mp - 9 in
  let y := yoe + era * 400 in
  (if m <=? 2 then y + 1 else y, m, d).

Definition digit (n : Z) : ascii := ascii_of_nat (48 + Z.to_nat (n mod 10)).

Definition pad2 (n : Z) : list ascii := [digit (n / 10); digit n].
Definition pad3 (n : Z) : list ascii := digit (n / 100) :: pad2 n.
Definition pad4 (n : Z) : list ascii := digit (n / 1000) :: pad3 n.
Definition pad6 (n : Z) : list ascii :=
  digit (n / 100000) :: digit (n / 10000) :: pad4 n.

(** Four digits for the years 0000 to 9999, a sign and six digits outside. *)
Definition iso_year (y : Z) : list ascii :=
  if (0 <=? y) && (y <=? 9999) then pad4 y
  else (if y <? 0 then "-"%char else "+"%char) :: pad6 (Z.abs y).

(** [YYYY-MM-DD] of a day number. *)
Definition iso_date (day : Z) : list ascii :=
  let '(y, m, d) := civil_from_days day in
  iso_year y ++ "-"%char :: pad2 m ++ "-"%char :: pad2 d.

(** [HH:mm:ss.sssZ] of the milliseconds since midnight. *)
Definition iso_time (ms : Z) : list ascii :=
  pad2 (ms / 3600000) ++ ":"%char :: pad2 (ms / 60000 mod 60)
  ++ ":"%char :: pad2 (ms / 1000 mod 60) ++ "."%char :: pad3 (ms mod 1000)
  ++ ["Z"%char].

Definition toISOString (ms : Z) : string :=
  string_of_list_ascii
    (iso_date (ms / ms_per_day) ++ "T"%char :: iso_time (ms mod ms_per_day)).

(** [s.split('T')[0]]: the part of [s] before its first [T]. *)
Fixpoint before_T (s : string) : string :=
  match s with
  | EmptyString => EmptyString
  | String c s' => if Ascii.eqb c "T" then EmptyString else String c (before_T s')
  end.

(** ** HTTP and the shapes of the upstream responses *)

(** What [await fetch(url)] followed by [await res.json()] can give. *)
Inductive Response (B : Type) : Type :=
| NetworkError               (* [fetch] rejects                          *)
| HttpError                  (* a response whose [ok] is false           *)
| HttpOk (body : option B).  (* [ok]; [None] when [res.json()] rejects, or
                                gives [null] where a property is read    *)
Arguments NetworkError {B}.
Arguments HttpError {B}.
Arguments HttpOk {B} body.

Section WithNumbers.
Context (num : Type) `{JsNumber num}.

(** [undefined] in arithmetic is NaN. *)
Definition num_of_opt (o : option num) : num :=
  match o with Some x => x | None => num_nan end.

(** CoinGecko [simple/price]: [{ id: { usd: price } }]; an entry that is
    [null] is [None], an entry without [usd] is [Some None]. *)
Definition PriceJson : Type := list (string * option (option num)).

(** mempool.space [/api/address/:address]. *)
Record AddressCounters : Type := {
  funded_txo_sum : option num;
  spent_txo_sum : option num;
  tx_count : option num
}.

Record AddressJson : Type := {
  chain_stats : option AddressCounters;
  mempool_stats : option AddressCounters
}.

(** mempool.space [/api/address/:address/txs]. A coinbase input has no
    [prevout]; an output without an address (OP_RETURN) has no
    [scriptpubkey_address]; an unconfirmed transaction has no
    [block_time]. *)
Record TxOut : Type := {
  scriptpubkey_address : option string;
  value : num
}.

Record TxIn : Type := { prevout : option TxOut }.

Record BtcTx : Type := {
  txid : string;
  vin : list TxIn;
  vout : list TxOut;
  fee : option num;
  block_time : option num            (* [status.block_time] *)
}.

Inductive TxsJson : Type :=
| TxsNotArray
| TxsArray (txs : list BtcTx).

(** Etherscan and BscScan [account] module. *)
Record EvmBalanceJson : Type := {
  balance_status : string;
  balance_result : string
}.

Record EvmTx : Type := {
  evm_hash : string;
  nonce : string;
  timeStamp : string;
  evm_from : string;
  evm_to : string;
  evm_value : string;
  gasUsed : string;
  gasPrice : string
}.

Record EvmTxListJson : Type := {
  txlist_status : string;
  txlist_result : list EvmTx
}.

(** Solana JSON-RPC. [sol_balance_value] is [result?.value];
    [sol_signatures] is [result]; [sol_token_accounts] is [result?.value],
    each account read at [account.data.parsed.info]. *)
Record SolBalanceJson : Type := { sol_balance_value : option num }.

Record SolSignature : Type := {
  signature : string;
  blockTime : option num
}.

Record SolSignaturesJson : Type := {
  sol_signatures : option (list SolSignature)
}.

Record SolTokenAccount : Type := {
  mint : string;
  uiAmount : option num;             (* [tokenAmount.uiAmount], or [null] *)
  tokenAmount_decimals : num
}.

Record SolTokensJson : Type := {
  sol_token_accounts : option (list SolTokenAccount)
}.

(** ** The data model of types.ts *)

Record TokenAsset : Type := {
  symbol : string;
  name : string;
  token_balance : num;
  decimals : num;
  contractAddress : string;
  token_chain : Blockchain;
  priceUSD : option num
}.

Inductive TxType : Type := buy | sell | send | receive.

Record LatestTransaction : Type := {
  hash : string;
  timestamp : num;
  type : TxType;
  token : TokenAsset;
  amount : num;
  amountUSD : num;
  from : string;
  to : string;
  tx_fee : num
}.

Record HistoryPoint : Type := { date : string; point_value : num }.

Record WalletStats : Type := {
  balance : num;
  txCount : num;
  firstTxDate : string;
  lastUpdated : Z;
  history : list HistoryPoint;
  tokens : list TokenAsset;
  latestTransaction : option LatestTransaction;
  isSimulatedHistory : option bool
}.

(** ** The world a call runs in *)

Record PriceEntry : Type := { price : option num; price_timestamp : Z }.

(** The module-level state and the counters of the readings taken so far:
    [priceCache], a map from coin ids (none of them a property name of
    [Object.prototype]); the price requests sent upstream, latest first, each the
    list of ids it asks for; the number of [Date.now()] and [new Date()]
    readings; the number of [Math.random()] draws. *)
Record Global : Type := {
  priceCache : gmap string PriceEntry;
  sent : list (list string);
  ticks : nat;
  draws : nat
}.

(** What the outside gives: the n-th clock reading, the n-th random draw,
    the answer of the price API to the n-th request, and the answers of the
    explorer and RPC endpoints. *)
Record Env : Type := {
  clock : nat -> Z;
  random : nat -> num;
  price_api : nat -> list string -> Response PriceJson;
  btc_address : Response AddressJson;
  btc_txs : Response TxsJson;
  evm_balance : Response EvmBalanceJson;
  evm_latest : Response EvmTxListJson;
  evm_first : Response EvmTxListJson;
  sol_balance : Response SolBalanceJson;
  sol_signatures_for_address : Response SolSignaturesJson;
  sol_tokens : Response SolTokensJson
}.

(** ** Clock, randomness and the price cache *)

Definition date_now (env : Env) (g : Global) : Z * Global :=
  (clock env (ticks g),
   {| priceCache := priceCache g; sent := sent g;
      ticks := S (ticks g); draws := draws g |}).

Definition math_random (env : Env) (g : Global) : num * Global :=
  (random env (draws g),
   {| priceCache := priceCache g; sent := sent g;
      ticks := ticks g; draws := S (draws g) |}).

Definition PRICE_CACHE_TTL : Z := 60 * 1000.

(** [!priceCache[id] || (now - priceCache[id].timestamp > PRICE_CACHE_TTL)] *)
Definition is_missing (cache : gmap string PriceEntry) (now : Z) (id : string)
    : bool :=
  match cache !! id with
  | None => true
  | Some e => PRICE_CACHE_TTL <? now - price_timestamp e
  end.

(** [Object.keys(data).forEach(key => priceCache[key] = ...)]; reading
    [usd] of a [null] entry throws, which ends the loop. *)
Fixpoint store_prices (now : Z) (data : PriceJson)
    (cache : gmap string PriceEntry) : gmap string PriceEntry :=
  match data with
  | [] => cache
  | (_, None) :: _ => cache
  | (key, Some usd) :: rest =>
      store_prices now rest
        (<[key := {| price := usd; price_timestamp := now |}]> cache)
  end.

(** [priceCache[id]?.price || 0] *)
Definition cached_price (cache : gmap string PriceEntry) (id : string) : num :=
  opt_num_or0 (cache !! id ≫= price).

Definition fetchTokenPrices (env : Env) (ids : list string) (g : Global)
    : gmap string num * Global :=
  let '(now, g) := date_now env g in
  let missingIds := List.filter (is_missing (priceCache g) now) ids in
  let g :=
    match missingIds with
    | [] => g
    | _ :: _ =>
        let response := price_api env (length (sent g)) missingIds in
        {| priceCache :=
             match response with
             | HttpOk (Some data) => store_prices now data (priceCache g)
             | _ => priceCache g
             end;
           sent := missingIds :: sent g;
           ticks := ticks g; draws := draws g |}
    end in
  (fold_left (fun result id => <[id := cached_price (priceCache g) id]> result)
     ids ∅,
   g).

(** [getExchangeRate] *)
Definition getExchangeRate (g : Global) (chain : Blockchain) : num :=
  cached_price (priceCache g) (getCoingeckoId chain).

(** ** The body of a [try] block

    The fetchers build one [stats] object, mutate it inside a [try] block
    and return it from the block and from the [catch] handler alike.  A
    step of the block runs on the object and the module state and either
    goes on with a value or throws; what it has written stays written. *)

Record Frame : Type := { stats : WalletStats; global : Global }.

Definition Try (A : Type) : Type := Frame -> option A * Frame.

Definition ret {A} (a : A) : Try A := fun f => (Some a, f).

Definition throw {A} : Try A := fun f => (None, f).

Definition bind {A B} (m : Try A) (k : A -> Try B) : Try B :=
  fun f => match m f with
           | (Some a, f') => k a f'
           | (None, f') => (None, f')
           end.

Notation "'let*' x ':=' m 'in' k" := (bind m (fun x => k))
  (at level 10, x name, m at level 200, k at level 200).

Definition update_stats (change : WalletStats -> WalletStats) : Try unit :=
  fun f => (Some tt, {| stats := change (stats f); global := global f |}).

Definition in_global {A} (step : Global -> A * Global) : Try A :=
  fun f => let '(a, g) := step (global f) in
           (Some a, {| stats := stats f; global := g |}).

(** [res = await fetch(..)] and, when [res.ok], [await res.json()]. *)
Definition await_json {B} (response : Response B) : Try (option B) :=
  match response with
  | NetworkError => throw
  | HttpError => ret None
  | HttpOk None => throw
  | HttpOk (Some body) => ret (Some body)
  end.

(** [new Date(x).toISOString()], a RangeError on an invalid date. *)
Definition date_iso (x : num) : Try string :=
  match num_time x with
  | Some ms => ret (toISOString ms)
  | None => throw
  end.

(** [try { body; return stats } catch (e) { ...; return stats }] *)
Definition try_return_stats (body : Try unit) (f : Frame)
    : Completion WalletStats * Global :=
  let '(_, f') := body f in (Returned (stats f'), global f').

(** Assignments to the fields of [stats]. *)
Definition set_balance (v : num) (s : WalletStats) : WalletStats :=
  {| balance := v; txCount := txCount s; firstTxDate := firstTxDate s;
     lastUpdated := lastUpdated s; history := history s; tokens := tokens s;
     latestTransaction := latestTransaction s;
     isSimulatedHistory := isSimulatedHistory s |}.

Definition set_txCount (v : num) (s : WalletStats) : WalletStats :=
  {| balance := balance s; txCount := v; firstTxDate := firstTxDate s;
     lastUpdated := lastUpdated s; history := history s; tokens := tokens s;
     latestTransaction := latestTransaction s;
     isSimulatedHistory := isSimulatedHistory s |}.

Definition set_firstTxDate (v : string) (s : WalletStats) : WalletStats :=
  {| balance := balance s; txCount := txCount s; firstTxDate := v;
     lastUpdated := lastUpdated s; history := history s; tokens := tokens s;
     latestTransaction := latestTransaction s;
     isSimulatedHistory := isSimulatedHistory s |}.

Definition set_tokens (v : list TokenAsset) (s : WalletStats) : WalletStats :=
  {| balance := balance s; txCount := txCount s; firstTxDate := firstTxDate s;
     lastUpdated := lastUpdated s; history := history s; tokens := v;
     latestTransaction := latestTransaction s;
     isSimulatedHistory := isSimulatedHistory s |}.

Definition set_latestTransaction (v : LatestTransaction) (s : WalletStats)
    : WalletStats :=
  {| balance := balance s; txCount := txCount s; firstTxDate := firstTxDate s;
     lastUpdated := lastUpdated s; history := history s; tokens := tokens s;
     latestTransaction := Some v;
     isSimulatedHistory := isSimulatedHistory s |}.

Definition set_history (v : list HistoryPoint) (s : WalletStats) : WalletStats :=
  {| balance := balance s; txCount := txCount s; firstTxDate := firstTxDate s;
     lastUpdated := lastUpdated s; history := v; tokens := tokens s;
     latestTransaction := latestTransaction s;
     isSimulatedHistory := isSimulatedHistory s |}.

Definition set_isSimulatedHistory (v : bool) (s : WalletStats) : WalletStats :=
  {| balance := balance s; txCount := txCount s; firstTxDate := firstTxDate s;
     lastUpdated := lastUpdated s; history := history s; tokens := tokens s;
     latestTransaction := latestTransaction s;
     isSimulatedHistory := Some v |}.

(** The object every fetcher starts from: [firstTxDate] and [lastUpdated]
    are two readings of the clock. *)
Definition new_stats (env : Env) (g : Global) : WalletStats * Global :=
  let '(t0, g) := date_now env g in
  let '(t1, g) := date_now env g in
  ({| balance := num_of_Z 0; txCount := num_of_Z 0;
      firstTxDate := toISOString t0; lastUpdated := t1;
      history := []; tokens := []; latestTransaction := None;
      isSimulatedHistory := None |}, g).

(** ** 1. Bitcoin, via mempool.space *)

(** [out.scriptpubkey_address === address] *)
Definition pays (address : string) (out : TxOut) : bool :=
  match scriptpubkey_address out with
  | Some a => String.eqb a address
  | None => false
  end.

(** [vout.reduce((acc, out) => pays ? acc + out.value : acc, 0)] *)
Definition received (address : string) (outs : list TxOut) : num :=
  fold_left (fun acc out => if pays address out then num_add acc (value out)
                            else acc)
    outs (num_of_Z 0).

(** [vin.reduce((acc, inp) => inp.prevout.scriptpubkey_address === address
    ? acc + inp.prevout.value : acc, 0)]; throws at an input without a
    [prevout]. *)
Fixpoint paid_by (address : string) (ins : list TxIn) (acc : num)
    : option num :=
  match ins with
  | [] => Some acc
  | inp :: rest =>
      match prevout inp with
      | None => None
      | Some p =>
          paid_by address rest
            (if pays address p then num_add acc (value p) else acc)
      end
  end.

Definition satoshi : num := num_of_Z 100000000.

Definition btc_token (btcPrice : option num) : TokenAsset :=
  {| symbol := "BTC"; name := "Bitcoin"; token_balance := num_of_Z 0;
     decimals := num_of_Z 8; contractAddress := "native"; token_chain := BTC;
     priceUSD := btcPrice |}.

Definition btc_latest (env : Env) (address : string) (txData : list BtcTx)
    (lastTx : BtcTx) : Try unit :=
  let isReceive := existsb (pays address) (vout lastTx) in
  let* amount :=
    (if isReceive then ret (received address (vout lastTx))
     else match paid_by address (vin lastTx) (num_of_Z 0) with
          | Some a => ret a
          | None => throw
          end) in
  let fee := match fee lastTx with
             | Some f => if num_truthy f then num_div f satoshi else num_of_Z 0
             | None => num_of_Z 0
             end in
  let from :=
    if isReceive
    then opt_str_or ((head (vin lastTx) ≫= prevout) ≫= scriptpubkey_address)
           "Unknown"
    else address in
  let to :=
    if isReceive then address
    else opt_str_or
           (List.find (fun out => negb (pays address out)) (vout lastTx)
              ≫= scriptpubkey_address)
           "Multiple/Unknown" in
  let* prices := in_global (fetchTokenPrices env ["bitcoin"]) in
  let btcPrice := prices !! "bitcoin" in
  let* _ := update_stats (set_latestTransaction
    {| hash := txid lastTx;
       timestamp := num_mul (num_of_opt (block_time lastTx)) (num_of_Z 1000);
       type := if isReceive then receive else send;
       token := btc_token btcPrice;
       amount := num_div amount satoshi;
       amountUSD := num_mul (num_div amount satoshi) (num_of_opt btcPrice);
       from := from;
       to := to;
       tx_fee := fee |}) in
  let oldestLoaded := List.last txData lastTx in
  let* first := date_iso (num_mul (num_of_opt (block_time oldestLoaded))
                            (num_of_Z 1000)) in
  update_stats (set_firstTxDate first).

(** [(data.chain_stats?.funded_txo_sum || 0)
     + (data.mempool_stats?.funded_txo_sum || 0)], and the same for
    [spent_txo_sum] and [tx_count]. *)
Definition funded (data : AddressJson) : num :=
  num_add (opt_num_or0 (chain_stats data ≫= funded_txo_sum))
          (opt_num_or0 (mempool_stats data ≫= funded_txo_sum)).

Definition spent (data : AddressJson) : num :=
  num_add (opt_num_or0 (chain_stats data ≫= spent_txo_sum))
          (opt_num_or0 (mempool_stats data ≫= spent_txo_sum)).

Definition counted (data : AddressJson) : num :=
  num_add (opt_num_or0 (chain_stats data ≫= tx_count))
          (opt_num_or0 (mempool_stats data ≫= tx_count)).

Definition btc_body (env : Env) (address : string) : Try unit :=
  let* res := await_json (btc_address env) in
  match res with
  | None => ret tt
  | Some data =>
      let* _ := update_stats
                  (set_balance
                     (num_div (num_sub (funded data) (spent data)) satoshi)) in
      let* _ := update_stats (set_txCount (counted data)) in
      let* txRes := await_json (btc_txs env) in
      match txRes with
      | Some (TxsArray (lastTx :: rest)) =>
          btc_latest env address (lastTx :: rest) lastTx
      | _ => ret tt
      end
  end.

Definition fetchBTCStats (env : Env) (address : string) (g : Global)
    : Completion WalletStats * Global :=
  let '(stats, g) := new_stats env g in
  if negb (isValidAddress address BTC) then (Returned stats, g)
  else try_return_stats (btc_body env address)
         {| stats := stats; global := g |}.

(** ** 2. EVM (ETH and BNB), via Etherscan and BscScan *)

Definition wei : num := num_lit 1e18.

Definition evm_token (chain : Blockchain) (nativePrice : option num)
    : TokenAsset :=
  {| symbol := chain_code chain;
     name := if Blockchain_eqb chain ETH then "Ethereum" else "BNB Chain";
     token_balance := num_of_Z 0; decimals := num_of_Z 18;
     contractAddress := "native"; token_chain := chain;
     priceUSD := nativePrice |}.

Definition evm_body (env : Env) (address : string) (chain : Blockchain)
    : Try unit :=
  let cgId := getCoingeckoId chain in
  let* balRes := await_json (evm_balance env) in
  let* _ :=
    match balRes with
    | Some balData =>
        if String.eqb (balance_status balData) "1"
        then update_stats
               (set_balance
                  (num_div (num_parseFloat (balance_result balData)) wei))
        else ret tt
    | None => ret tt
    end in
  let* prices := in_global (fetchTokenPrices env [cgId]) in
  let nativePrice := prices !! cgId in
  let* txRes := await_json (evm_latest env) in
  let* _ :=
    match txRes with
    | Some txData =>
        match String.eqb (txlist_status txData) "1", txlist_result txData with
        | true, tx :: _ =>
            let* _ := update_stats
                        (set_txCount
                           (num_add (num_parseInt (nonce tx)) (num_of_Z 1))) in
            let fee :=
              num_div (num_mul (num_parseFloat (gasUsed tx))
                               (num_parseFloat (gasPrice tx))) wei in
            update_stats (set_latestTransaction
              {| hash := evm_hash tx;
                 timestamp := num_mul (num_parseInt (timeStamp tx))
                                      (num_of_Z 1000);
                 type := if String.eqb (toLowerCase (evm_to tx))
                                       (toLowerCase address)
                         then receive else send;
                 token := evm_token chain nativePrice;
                 amount := num_div (num_parseFloat (evm_value tx)) wei;
                 amountUSD := num_mul (num_div (num_parseFloat (evm_value tx))
                                               wei)
                                      (num_of_opt nativePrice);
                 from := evm_from tx;
                 to := evm_to tx;
                 tx_fee := fee |})
        | _, _ => ret tt
        end
    | None => ret tt
    end in
  let* firstTxRes := await_json (evm_first env) in
  match firstTxRes with
  | Some firstTxData =>
      match String.eqb (txlist_status firstTxData) "1",
            txlist_result firstTxData with
      | true, firstTx :: _ =>
          let* first := date_iso (num_mul (num_parseInt (timeStamp firstTx))
                                          (num_of_Z 1000)) in
          update_stats (set_firstTxDate first)
      | _, _ => ret tt
      end
  | None => ret tt
  end.

Definition fetchEVMStats (env : Env) (address : string) (chain : Blockchain)
    (g : Global) : Completion WalletStats * Global :=
  let '(stats, g) := new_stats env g in
  if negb (isValidAddress address chain) then (Returned stats, g)
  else try_return_stats (evm_body env address chain)
         {| stats := stats; global := g |}.

(** ** 3. Solana, via JSON-RPC *)

Definition lamports : num := num_lit 1e9.

Definition sol_token (solPrice : option num) : TokenAsset :=
  {| symbol := "SOL"; name := "Solana"; token_balance := num_of_Z 0;
     decimals := num_of_Z 9; contractAddress := "native"; token_chain := SOL;
     priceUSD := solPrice |}.

(** The callback of [value.map]: [null] for an amount below 0.01, and for
    the amount [null], which [<] reads as 0. *)
Definition spl_token (t : SolTokenAccount) : option TokenAsset :=
  match uiAmount t with
  | None => None
  | Some amount =>
      if num_ltb amount (num_lit 0.01) then None
      else Some {| symbol := "SPL"; name := "Solana Token";
                   token_balance := amount;
                   decimals := tokenAmount_decimals t;
                   contractAddress := mint t; token_chain := SOL;
                   priceUSD := None |}
  end.

(** [value.map(..).filter(t => t !== null).slice(0, 10)] *)
Definition spl_tokens (accounts : list SolTokenAccount) : list TokenAsset :=
  firstn 10 (omap spl_token accounts).

Definition sol_body (env : Env) (address : string) : Try unit :=
  let* balRes := await_json (sol_balance env) in
  let* _ :=
    match balRes with
    | Some balData =>
        update_stats
          (set_balance
             (num_div (opt_num_or0 (sol_balance_value balData)) lamports))
    | None => ret tt
    end in
  let* prices := in_global (fetchTokenPrices env ["solana"]) in
  let solPrice := prices !! "solana" in
  let* sigRes := await_json (sol_signatures_for_address env) in
  let* _ :=
    match sigRes with
    | Some sigData =>
        match sol_signatures sigData with
        | Some (tx :: _) =>
            let* _ := update_stats (set_txCount (num_of_Z 100)) in
            let* time :=
              match blockTime tx with
              | Some t =>
                  if num_truthy t then ret (num_mul t (num_of_Z 1000))
                  else let* now := in_global (date_now env) in
                       ret (num_of_Z now)
              | None => let* now := in_global (date_now env) in
                        ret (num_of_Z now)
              end in
            update_stats (set_latestTransaction
              {| hash := signature tx;
                 timestamp := time;
                 type := send;
                 token := sol_token solPrice;
                 amount := num_of_Z 0;
                 amountUSD := num_of_Z 0;
                 from := address;
                 to := "Solana Program/Wallet";
                 tx_fee := num_lit 0.000005 |})
        | _ => ret tt
        end
    | None => ret tt
    end in
  let* tokenRes := await_json (sol_tokens env) in
  match tokenRes with
  | Some tokenData =>
      match sol_token_accounts tokenData with
      | Some accounts => update_stats (set_tokens (spl_tokens accounts))
      | None => ret tt
      end
  | None => ret tt
  end.

Definition fetchSolanaStats (env : Env) (address : string) (g : Global)
    : Completion WalletStats * Global :=
  let '(stats, g) := new_stats env g in
  if negb (isValidAddress address SOL) then (Returned stats, g)
  else try_return_stats (sol_body env address)
         {| stats := stats; global := g |}.

(** ** fetchWalletStats: the router and the simulated history *)

Definition days : nat := 365.

(** The loop [for (let i = 0; i < days; i++)], [remaining] iterations
    from iteration [i] on; [unshift] puts the new point in front. *)
Fixpoint simulate (env : Env) (remaining i : nat) (simulatedVal : num)
    (history : list HistoryPoint) (g : Global) : list HistoryPoint * Global :=
  match remaining with
  | O => (history, g)
  | S remaining' =>
      let '(now, g) := date_now env g in
      let point :=
        {| date := before_T (toISOString (now - Z.of_nat i * ms_per_day));
           point_value := num_max (num_of_Z 0) simulatedVal |} in
      let '(r, g) := math_random env g in
      let change :=
        num_add (num_of_Z 1)
                (num_sub (num_mul r (num_lit 0.1)) (num_lit 0.05)) in
      simulate env remaining' (S i) (num_div simulatedVal change)
        (point :: history) g
  end.

(** [history[history.length - 1].value = v], a TypeError on an empty
    array. *)
Definition set_last_value (history : list HistoryPoint) (v : num)
    : option (list HistoryPoint) :=
  let last := (length history - 1)%nat in
  match history !! last with
  | Some p => Some (<[last := {| date := date p; point_value := v |}]> history)
  | None => None
  end.

Definition fetchWalletStats (env : Env) (address : string) (chain : Blockchain)
    (g : Global) : Completion WalletStats * Global :=
  let '(fetched, g) :=
    match chain with
    | BTC => fetchBTCStats env address g
    | SOL => fetchSolanaStats env address g
    | ETH | BNB => fetchEVMStats env address chain g
    end in
  match fetched with
  | Threw e => (Threw e, g)
  | Returned stats =>
      let currentTotalValueUSD :=
        num_mul (balance stats)
                (cached_price (priceCache g) (getCoingeckoId chain)) in
      let '(history, g) := simulate env days 0 currentTotalValueUSD [] g in
      match set_last_value history currentTotalValueUSD with
      | Some history =>
          (Returned (set_isSimulatedHistory true (set_history history stats)),
           g)
      | None => (Threw "TypeError", g)
      end
  end.

(** ** Notions used to state the properties *)

(** The price requests sent between two states, latest first. *)
Definition requests_since (before after : Global) : list (list string) :=
  firstn (length (sent after) - length (sent before)) (sent after).

(** How many of the requests ask for [id]. *)
Definition asking_for (id : string) (requests : list (list string)) : nat :=
  length (List.filter (existsb (String.eqb id)) requests).

(** The response carries a price entry for [id] that the cache stores:
    an ok response whose body has the key [id] before any [null] entry. *)
Fixpoint delivers (data : PriceJson) (id : string) : bool :=
  match data with
  | [] => false
  | (_, None) :: _ => false
  | (key, Some _) :: rest => String.eqb key id || delivers rest id
  end.

Definition answers (response : Response PriceJson) (id : string) : bool :=
  match response with
  | HttpOk (Some data) => delivers data id
  | _ => false
  end.

(** A request that got no answer to read: the network failed or the
    response is not [ok]. *)
Definition failed {B} (response : Response B) : bool :=
  match response with
  | NetworkError | HttpError => true
  | HttpOk _ => false
  end.

(** The transaction count [fetchSolanaStats] reports: a fixed 100 once a
    latest signature was found, else the initial 0. *)
Definition placeholder_count (s : WalletStats) : num :=
  match latestTransaction s with
  | Some _ => num_of_Z 100
  | None => num_of_Z 0
  end.

(** The sum of a list of numbers, from 0. *)
Definition total (values : list num) : num :=
  fold_left num_add values (num_of_Z 0).

(** The request a call of [fetchTokenPrices] sends upstream, if any. *)
Definition upstream (env : Env) (ids : list string) (g : Global)
    : list (list string) :=
  match List.filter (is_missing (priceCache g) (clock env (ticks g))) ids with
  | [] => []
  | missingIds => [missingIds]
  end.

(** The cache holds an entry for [id] stamped [now]. *)
Definition stamped (cache : gmap string PriceEntry) (id : string) (now : Z)
    : Prop :=
  exists e, cache !! id = Some e /\ price_timestamp e = now.

(** A step of a [try] block keeps a property of [stats], whether it goes
    on or throws. *)
Definition keeps (P : WalletStats -> Prop) {A} (m : Try A) : Prop :=
  forall f, P (stats f) -> P (stats (snd (m f))).

(** A step of a [try] block that always goes on and leaves [stats] as
    they are. *)
Definition quiet {A} (m : Try A) : Prop :=
  forall f, exists a f', m f = (Some a, f') /\ stats f' = stats f.

(** No [T] among the characters. *)
Definition T_free (l : list ascii) : bool :=
  forallb (fun c => negb (Ascii.eqb c "T")) l.

(** The dates of the history a call has returned, oldest first. *)
Definition dates_of (result : Completion WalletStats) : list string :=
  match result with
  | Returned s => map date (history s)
  | Threw _ => []
  end.

(** A later moment: the cache and the requests sent are as they were left,
    the clock and the random source have moved on. *)
Definition later (g : Global) (ticks' draws' : nat) : Global :=
  {| priceCache := priceCache g; sent := sent g;
     ticks := ticks'; draws := draws' |}.

(** The dates of a history, as day numbers: the entry at position [k] of a
    history of [n] days ending on day [today] is dated [today - (n-1) + k]. *)
Definition consecutive_days (today : Z) (history : list HistoryPoint) : Prop :=
  forall k p, history !! k = Some p ->
    date p = string_of_list_ascii
               (iso_date (today - Z.of_nat (length history - 1) + Z.of_nat k)).

End WithNumbers.

Arguments satoshi {num H}.
Arguments wei {num H}.
Arguments lamports {num H}.

End Chain.

(* ===================================================================== *)
(** * services/storage.ts *)
(* ===================================================================== *)

Module Storage.
Import Chain.

Record PostgrestError : Type := {
  message : string;
  details : string;
  code : string
}.

(** What awaiting a query gives: the promise rejects, or it resolves with
    [{ data, error }]. *)
Inductive QueryResult (A : Type) : Type :=
| Rejects (reason : string)
| Resolves (data : option A) (error : option PostgrestError).
Arguments Rejects {A} reason.
Arguments Resolves {A} data error.

Section WithNumbers.
Context (num : Type) `{JsNumber num}.

(** A row of the table [profiles], as the client returns it ([any]). *)
Record Row : Type := {
  row_id : JsValue num;
  row_username : JsValue num;
  row_address : JsValue num;
  row_chain : JsValue num;
  row_created_at : JsValue num;
  row_logo_url : JsValue num;
  row_socials : JsValue num
}.

(** The three queries the store sends to the client. *)
Record Supabase : Type := {
  select_all : QueryResult (list Row);
  select_by_username : string -> QueryResult Row;
  insert : Row -> QueryResult Row
}.

Record UserProfile : Type := {
  id : JsValue num;
  username : JsValue num;
  address : JsValue num;
  chain : JsValue num;
  createdAt : JsValue num;
  logoUrl : JsValue num;
  socials : JsValue num;
  cachedStats : JsValue num
}.

(** The fields [createProfile] takes,
    [Omit<UserProfile, 'id' | 'createdAt'>]. *)
Record ProfileFields : Type := {
  new_username : string;
  new_address : string;
  new_chain : Blockchain;
  new_logoUrl : option string;
  new_socials : option (JsValue num)
}.

(** A line written by [console.error]: its arguments. *)
Definition LogLine : Type := list string.

(** The mapping from the columns of a row to the profile shape. *)
Definition profile_of_row (row : Row) : UserProfile :=
  {| id := row_id row;
     username := row_username row;
     address := row_address row;
     chain := row_chain row;
     createdAt := JsNum (Number (row_created_at row));
     logoUrl := row_logo_url row;
     socials := row_socials row;
     cachedStats := JsUndefined |}.

Definition getAllProfiles (db : Supabase)
    : Completion (list UserProfile) * list LogLine :=
  match select_all db with
  | Resolves _ (Some error) =>
      (Returned [],
       [["Supabase Error (getAllProfiles):"; message error;
         str_or (details error) ""]])
  | Resolves data None =>
      (Returned (map profile_of_row (default [] data)), [])
  | Rejects reason =>
      (Returned [], [["Supabase connection exception:"; reason]])
  end.

Definition getProfileByUsername (db : Supabase) (name : string)
    : Completion (option UserProfile) * list LogLine :=
  match select_by_username db name with
  | Resolves _ (Some error) =>
      (Returned None,
       if negb (String.eqb (code error) "PGRST116")
       then [["Supabase Error (getProfile):"; message error]] else [])
  | Resolves None None => (Returned None, [])
  | Resolves (Some data) None => (Returned (Some (profile_of_row data)), [])
  | Rejects reason => (Returned None, [[reason]])
  end.

(** The row [createProfile] inserts. [random36] is the string
    [Math.random().toString(36)], such as [0.4fzyo82mvyr]; for the draw 0
    it is [0]. [now] is the reading of [Date.now()]. *)
Definition newProfile (random36 : string) (now : Z) (profile : ProfileFields)
    : Row :=
  {| row_id := JsStr (substr 2 9 random36);
     row_username := JsStr (new_username profile);
     row_address := JsStr (new_address profile);
     row_chain := JsStr (chain_code (new_chain profile));
     row_created_at := JsNum (num_of_Z now);
     row_logo_url := match new_logoUrl profile with
                     | Some url => if str_truthy url then JsStr url else JsNull
                     | None => JsNull
                     end;
     row_socials := match new_socials profile with
                    | Some links => if truthy links then links else JsObject []
                    | None => JsObject []
                    end |}.

(** No [try] here: a rejection goes to the caller as it is, a storage
    error is thrown as a new [Error], and reading [data.id] of a [null]
    row is a TypeError. *)
Definition createProfile (db : Supabase) (random36 : string) (now : Z)
    (profile : ProfileFields) : Completion UserProfile * list LogLine :=
  match insert db (newProfile random36 now profile) with
  | Resolves _ (Some error) =>
      (Threw (str_or (message error) "Failed to create profile"),
       [["Supabase Create Error:"; message error]])
  | Resolves (Some data) None => (Returned (profile_of_row data), [])
  | Resolves None None =>
      (Threw "Cannot read properties of null (reading 'id')", [])
  | Rejects reason => (Threw reason, [])
  end.

(** A store that returns the row it was given, as [insert(..).select()
    .single()] does when the insertion succeeds. *)
Definition echoes (db : Supabase) : Prop :=
  forall row, insert db row = Resolves (Some row) None.

(** A storage error of a query: an [error] in what it resolves with, or a
    rejection. *)
Definition storage_error {A} (result : QueryResult A) : bool :=
  match result with
  | Resolves _ (Some _) | Rejects _ => true
  | Resolves _ None => false
  end.

End WithNumbers.

End Storage.

(* ===================================================================== *)
(** * services/wallet.ts *)
(* ===================================================================== *)

Module Wallet.

Inductive Promise (A : Type) : Type :=
| Resolved (v : A)
| Rejected (reason : string).
Arguments Resolved {A} v.
Arguments Rejected {A} reason.

(** The signer of [new ethers.BrowserProvider(window.ethereum)]. *)
Record Signer : Type := {
  getAddress : Promise string;
  signer_signMessage : string -> Promise string
}.

Record Ethereum : Type := { getSigner : Promise Signer }.

(** What the wallet did: it signed [message] and gave [signature]. *)
Inductive Event : Type := Signed (message signature : string).

Section WithNumbers.
Context (num : Type) `{JsNumber num}.

(** A Solana wallet: [signMessage(encodedMessage, "utf8")] resolves with a
    value of type [any]. *)
Record SolanaProvider : Type := {
  signMessage : list ascii -> string -> Promise (JsValue num)
}.

(** The injection points: [window.ethereum], [window.solana] and
    [window.phantom?.solana]. *)
Record Window : Type := {
  ethereum : option Ethereum;
  solana : option SolanaProvider;
  phantom_solana : option SolanaProvider
}.

(** [ethers.verifyMessage(message, signature)]: the address recovered from
    the signature, or [None] when it throws on a malformed signature. *)
Variable verifyMessage : string -> string -> option string.

(** The [try] block of [signEVM]; [None] when it throws. *)
Definition signEVM_try (eth : Ethereum) (address message : string)
    : option bool * list Event :=
  match getSigner eth with
  | Rejected _ => (None, [])
  | Resolved signer =>
      match getAddress signer with
      | Rejected _ => (None, [])
      | Resolved signerAddress =>
          if negb (String.eqb (toLowerCase signerAddress) (toLowerCase address))
          then (None, [])
          else
            match signer_signMessage signer message with
            | Rejected _ => (None, [])
            | Resolved signature =>
                (match verifyMessage message signature with
                 | Some recoveredAddress =>
                     Some (String.eqb (toLowerCase recoveredAddress)
                                      (toLowerCase address))
                 | None => None
                 end,
                 [Signed message signature])
            end
      end
  end.

Definition signEVM (window : Window) (address message : string)
    : Completion bool * list Event :=
  match ethereum window with
  | None => (Threw "Wallet disconnected.", [])
  | Some eth =>
      match signEVM_try eth address message with
      | (Some verified, events) => (Returned verified, events)
      | (None, events) => (Threw "Signature rejected or failed.", events)
      end
  end.

(** [window.solana || window.phantom?.solana] *)
Definition solana_provider (window : Window) : option SolanaProvider :=
  match solana window with
  | Some provider => Some provider
  | None => phantom_solana window
  end.

(** [new TextEncoder().encode(message)] on an ASCII message. *)
Definition encode (message : string) : list ascii := chars message.

Definition signSolana (window : Window) (address message : string)
    : Completion bool :=
  match solana_provider window with
  | None => Threw "Wallet disconnected."
  | Some provider =>
      match signMessage provider (encode message) "utf8" with
      | Resolved signedMessage =>
          match property signedMessage "signature" with
          | Some signature => Returned (truthy signature)
          | None => Threw "Signature rejected."
          end
      | Rejected _ => Threw "Signature rejected."
      end
  end.

End WithNumbers.

End Wallet.

(* ===================================================================== *)
(** * Concrete worlds, run on exact rationals *)
(* ===================================================================== *)

Module Examples.
Import Chain.

Definition start : Global qnum :=
  {| priceCache := ∅; sent := []; ticks := 0; draws := 0 |}.

(** Every request fails at the network; the clock advances by one second
    per reading. *)
Definition offline : Env qnum :=
  {| clock := fun n => 1000 * Z.of_nat n;
     random := fun _ => num_lit 0.5;
     price_api := fun _ _ => NetworkError;
     btc_address := NetworkError; btc_txs := NetworkError;
     evm_balance := NetworkError; evm_latest := NetworkError;
     evm_first := NetworkError;
     sol_balance := NetworkError; sol_signatures_for_address := NetworkError;
     sol_tokens := NetworkError |}.

(** The price API answers every request with a bitcoin price. *)
Definition priced : Env qnum :=
  {| clock := clock offline; random := random offline;
     price_api := fun _ _ => HttpOk (Some [("bitcoin", Some (Some (num_of_Z 50000)))]);
     btc_address := NetworkError; btc_txs := NetworkError;
     evm_balance := NetworkError; evm_latest := NetworkError;
     evm_first := NetworkError;
     sol_balance := NetworkError; sol_signatures_for_address := NetworkError;
     sol_tokens := NetworkError |}.

(** Midnight UTC passes between the first and the second iteration of the
    history loop: the readings 0 and 1 are the two of [new_stats], reading
    2 is the one of iteration 0. *)
Definition midnight : Env qnum :=
  {| clock := fun n => if (n <? 3)%nat then 86399999 else 86400000;
     random := random offline;
     price_api := price_api offline;
     btc_address := NetworkError; btc_txs := NetworkError;
     evm_balance := NetworkError; evm_latest := NetworkError;
     evm_first := NetworkError;
     sol_balance := NetworkError; sol_signatures_for_address := NetworkError;
     sol_tokens := NetworkError |}.

Definition btc_wallet : string := "1A1zP1eP5QGefi2DMPTfTL5SLmv7DivfNa".
Definition other_wallet : string := "3J98t1WpEZ73CNmQviecrnyiWrnqRhWNLy".
Definition sol_wallet : string := "4Nd1mBQtrMJVYVfKf2PJy9NZUZdTAsp7D4xWLs4gDB4T".

(** One bitcoin funded and confirmed. *)
Definition one_bitcoin : AddressJson qnum :=
  {| chain_stats := Some {| funded_txo_sum := Some (num_of_Z 100000000);
                            spent_txo_sum := Some (num_of_Z 0);
                            tx_count := Some (num_of_Z 1) |};
     mempool_stats := None |}.

(** The address summary arrives, the transaction list fails at the
    network. *)
Definition txs_unreachable : Env qnum :=
  {| clock := clock offline; random := random offline;
     price_api := price_api offline;
     btc_address := HttpOk (Some one_bitcoin); btc_txs := NetworkError;
     evm_balance := NetworkError; evm_latest := NetworkError;
     evm_first := NetworkError;
     sol_balance := NetworkError; sol_signatures_for_address := NetworkError;
     sol_tokens := NetworkError |}.

(** A spend of 5000 satoshi by [btc_wallet]: 1000 to [other_wallet], 3000
    of change back to [btc_wallet], 1000 of fee. *)
Definition spend_with_change : BtcTx qnum :=
  {| txid := "f4184fc596403b9d638783cf57adfe4c75c605f6356fbc91338530e9831e9e16";
     vin := [{| prevout := Some {| scriptpubkey_address := Some btc_wallet;
                                   value := num_of_Z 5000 |} |}];
     vout := [{| scriptpubkey_address := Some other_wallet;
                 value := num_of_Z 1000 |};
              {| scriptpubkey_address := Some btc_wallet;
                 value := num_of_Z 3000 |}];
     fee := Some (num_of_Z 1000);
     block_time := Some (num_of_Z 1700000000) |}.

Definition spending : Env qnum :=
  {| clock := clock offline; random := random offline;
     price_api := price_api priced;
     btc_address := HttpOk (Some one_bitcoin);
     btc_txs := HttpOk (Some (TxsArray [spend_with_change]));
     evm_balance := NetworkError; evm_latest := NetworkError;
     evm_first := NetworkError;
     sol_balance := NetworkError; sol_signatures_for_address := NetworkError;
     sol_tokens := NetworkError |}.

(** A Solana wallet with one signature on record. *)
Definition sol_active : Env qnum :=
  {| clock := clock offline; random := random offline;
     price_api := price_api offline;
     btc_address := NetworkError; btc_txs := NetworkError;
     evm_balance := NetworkError; evm_latest := NetworkError;
     evm_first := NetworkError;
     sol_balance :=
       HttpOk (Some {| sol_balance_value := Some (num_of_Z 2000000000) |});
     sol_signatures_for_address :=
       HttpOk (Some {| sol_signatures :=
                         Some [{| signature := "5VERv8NMvzbJMEkV8xnrLkEaWRtSz9CosKDYjCJjBRnb";
                                  blockTime := Some (num_of_Z 1700000000) |}] |});
     sol_tokens := HttpError |}.

(** The profile of the specification's example. *)
Definition alice : Storage.ProfileFields qnum :=
  {| Storage.new_username := "alice_1";
     Storage.new_address := "0xABCDEF0123456789abcdef0123456789ABCDEF01";
     Storage.new_chain := ETH;
     Storage.new_logoUrl := None;
     Storage.new_socials := None |}.

Definition no_rows : Storage.PostgrestError :=
  {| Storage.message := "JSON object requested, multiple (or no) rows returned";
     Storage.details := "The result contains 0 rows";
     Storage.code := "PGRST116" |}.

(** A store that accepts every row and returns it. *)
Definition accepting : Storage.Supabase qnum :=
  {| Storage.select_all := Storage.Resolves (Some []) None;
     Storage.select_by_username := fun _ => Storage.Resolves None (Some no_rows);
     Storage.insert := fun row => Storage.Resolves (Some row) None |}.

(** A store that answers every query with an error whose message is
    empty, as the client reports a failed response with an empty body. *)
Definition empty_error : Storage.PostgrestError :=
  {| Storage.message := ""; Storage.details := ""; Storage.code := "" |}.

Definition failing : Storage.Supabase qnum :=
  {| Storage.select_all := Storage.Resolves None (Some empty_error);
     Storage.select_by_username := fun _ => Storage.Resolves None (Some empty_error);
     Storage.insert := fun _ => Storage.Resolves None (Some empty_error) |}.

(** A store whose insertion is refused with a message. *)
Definition duplicate_key : Storage.PostgrestError :=
  {| Storage.message := "duplicate key value violates unique constraint";
     Storage.details := ""; Storage.code := "23505" |}.

Definition refusing : Storage.Supabase qnum :=
  {| Storage.select_all := Storage.Rejects "Failed to fetch";
     Storage.select_by_username := fun _ => Storage.Rejects "Failed to fetch";
     Storage.insert := fun _ => Storage.Resolves None (Some duplicate_key) |}.

(** A Solana wallet that answers every request with the same bytes, which
    are no signature of the message. *)
Definition careless : Wallet.SolanaProvider qnum :=
  {| Wallet.signMessage := fun _ _ =>
       Wallet.Resolved (JsObject [("signature", JsStr "not-a-signature")]) |}.

Definition careless_window : Wallet.Window qnum :=
  {| Wallet.ethereum := None;
     Wallet.solana := Some careless;
     Wallet.phantom_solana := None |}.

Definition claimed : string := "0xABCDEF0123456789abcdef0123456789ABCDEF01".
Definition another : string := "0x00000000219ab540356cBB839Cbe05303d7705Fa".

(** An EVM wallet on the claimed account whose signatures recover to
    another address. *)
Definition mismatching_signer : Wallet.Signer :=
  {| Wallet.getAddress := Wallet.Resolved claimed;
     Wallet.signer_signMessage := fun _ => Wallet.Resolved "0x1b" |}.

Definition mismatching_window : Wallet.Window qnum :=
  {| Wallet.ethereum :=
       Some {| Wallet.getSigner := Wallet.Resolved mismatching_signer |};
     Wallet.solana := None;
     Wallet.phantom_solana := None |}.

Definition recovers_another (message signature : string) : option string :=
  Some another.

End Examples.

(* ===================================================================== *)
(** * services/chain.ts: the display helpers *)
(* ===================================================================== *)

Module Display.
Import Chain.

(** [s.substring(n)]: from index [n] to the end. *)
Definition substring_from (n : nat) (s : string) : string :=
  substring n (String.length s - n) s.

Definition maskAddress (address : string) : string :=
  if (String.length address <? 10)%nat then address
  else String.append (substring 0 6 address)
         (String.append "..."
            (substring_from (String.length address - 4) address)).

Definition getExplorerLink (address : string) (chain : Blockchain) : string :=
  match chain with
  | BTC => String.append "https://mempool.space/address/" address
  | ETH => String.append "https://etherscan.io/address/" address
  | SOL => String.append "https://solscan.io/account/" address
  | BNB => String.append "https://bscscan.com/address/" address
  end.

End Display.

(* ===================================================================== *)
(** * services/wallet.ts: detection and connection *)
(* ===================================================================== *)

Module Connect.
Import Chain Wallet.

Inductive ProviderKind : Type := metamask | phantom | walletconnect | manual.

(** [type ConnectedWallet] *)
Record ConnectedWallet : Type := {
  wallet_address : string;
  wallet_chain : Blockchain;
  wallet_provider : ProviderKind
}.

(** What the EVM provider answers while connecting:
    [provider.send("eth_requestAccounts", [])], [None] for [null] or
    [undefined], and [Number((await provider.getNetwork()).chainId)]. *)
Record EvmAnswers : Type := {
  eth_requestAccounts : Promise (option (list string));
  network_chainId : Promise Z
}.

(** The decimal digits of a non-negative integer below 10^20. *)
Fixpoint decimal_digits (fuel : nat) (n : Z) (acc : list ascii) : list ascii :=
  match fuel with
  | O => acc
  | S fuel' =>
      if n <? 10 then digit n :: acc
      else decimal_digits fuel' (n / 10) (digit n :: acc)
  end.

Definition decimal (n : Z) : string :=
  string_of_list_ascii (decimal_digits 20 n []).

Definition newline : string := String "010" EmptyString.

(** [now] is the reading of the clock behind [new Date()], [nonce] the
    integer [Math.floor(Math.random() * 1000000)]. *)
Definition createVerificationMessage (now nonce : Z) (address : string)
    : string :=
  String.concat ""
    ["Sign this message to verify ownership of wallet "; address;
     " for VerifiedOnChain."; newline; newline;
     "Timestamp: "; toISOString now; newline;
     "Nonce: "; decimal nonce].

Section WithNumbers.
Context (num : Type) `{JsNumber num}.

Record Installed : Type := { evm : bool; solana_installed : bool }.

Definition present {A} (o : option A) : bool :=
  match o with Some _ => true | None => false end.

Definition checkInstalled (window : Window num) : Installed :=
  {| evm := present (ethereum window);
     solana_installed :=
       present (solana window) || present (phantom_solana window) |}.

(** No [try] here: what the provider rejects with reaches the caller. *)
Definition connectEVM (window : Window num) (answers : EvmAnswers)
    : Completion ConnectedWallet :=
  match ethereum window with
  | None =>
      Threw "No EVM wallet detected. Please install MetaMask, Rabby, or Trust Wallet."
  | Some _ =>
      match eth_requestAccounts answers with
      | Rejected reason => Threw reason
      | Resolved None | Resolved (Some []) => Threw "User rejected connection."
      | Resolved (Some (account :: _)) =>
          match network_chainId answers with
          | Rejected reason => Threw reason
          | Resolved chainId =>
              Returned {| wallet_address := account;
                          wallet_chain := if chainId =? 56 then BNB else ETH;
                          wallet_provider := metamask |}
          end
      end
  end.

(** [connected] is what [provider.connect()] gives, read at
    [resp.publicKey.toString()]; [None] when that read throws. *)
Definition connectSolana (window : Window num)
    (connected : Promise (option string)) : Completion ConnectedWallet :=
  match solana_provider window with
  | None =>
      Threw "Solana wallet not detected. Please install Phantom or Backpack."
  | Some _ =>
      match connected with
      | Resolved (Some address) =>
          Returned {| wallet_address := address;
                      wallet_chain := SOL;
                      wallet_provider := phantom |}
      | Resolved None | Rejected _ => Threw "User rejected Solana connection."
      end
  end.

End WithNumbers.

End Connect.

(* ===================================================================== *)
(** * components/Dashboard.tsx: the growth column *)
(* ===================================================================== *)

Module Dashboard.
Import Chain.

(** [type TimeRange] of types.ts. *)
Inductive TimeRange : Type :=
| Range1D | Range7D | Range30D | Range90D | Range1Y | RangeALL.

Section WithNumbers.
Context (num : Type) `{JsNumber num}.

(** The fields of a row the computations read. *)
Record DashboardRow : Type := {
  row_username : string;
  row_address : string;
  row_stats : option (WalletStats num)
}.

Definition range_days (range : TimeRange) (history : list (HistoryPoint num))
    : Z :=
  match range with
  | Range1D => 1
  | Range7D => 7
  | Range30D => 30
  | Range90D => 90
  | Range1Y => 365
  | RangeALL => Z.of_nat (length history)
  end.

(** The growth of a row over [performanceRange], in percent; reading
    [.value] of an index outside the history is a TypeError. *)
Definition growth (row : DashboardRow) (performanceRange : TimeRange)
    : Completion num :=
  match row_stats row with
  | None => Returned (num_of_Z 0)
  | Some stats =>
      let history := history stats in
      if (0 <? length history)%nat then
        let days := range_days performanceRange history in
        let startIndex := Z.max 0 (Z.of_nat (length history) - 1 - days) in
        match history !! Z.to_nat startIndex,
              history !! (length history - 1)%nat with
        | Some start, Some last =>
            let startVal := point_value start in
            let endVal := point_value last in
            Returned
              (if num_ltb (num_of_Z 0) startVal
               then num_mul (num_div (num_sub endVal startVal) startVal)
                            (num_of_Z 100)
               else num_of_Z 0)
        | _, _ => Threw "TypeError"
        end
      else Returned (num_of_Z 0)
  end.

End WithNumbers.

End Dashboard.

(* ===================================================================== *)
(** * components/SubmitForm.tsx: the onboarding wizard *)
(* ===================================================================== *)

Module SubmitForm.
Import Regex Chain Wallet Connect.

Inductive OnboardingStep : Type := connect | verify | profile.
Inductive ConnectionMode : Type := wallet_mode | manual_mode.
Inductive Social : Type := Twitter | Instagram | Threads | Reddit.

Record FormData : Type := {
  username : string;
  address : string;
  chain : Blockchain;
  logoUrl : string;
  twitter : string;
  instagram : string;
  threads : string;
  reddit : string
}.

(** [/^[a-zA-Z0-9_]{3,20}$/] *)
Definition username_regex : regex :=
  Rep (Class [("a", "z"); ("A", "Z"); ("0", "9"); ("_", "_")]%char) 3 20.

Definition username_alphabet : string :=
  "0123456789ABCDEFGHIJKLMNOPQRSTUVWXYZ_abcdefghijklmnopqrstuvwxyz".

(** The state of the component. *)
Record Wizard : Type := {
  step : OnboardingStep;
  mode : ConnectionMode;
  isLoading : bool;
  error : option string;
  formData : FormData;
  connectedWallet : option ConnectedWallet
}.

Definition initial : Wizard :=
  {| step := connect; mode := wallet_mode; isLoading := false; error := None;
     formData := {| username := ""; address := ""; chain := ETH; logoUrl := "";
                    twitter := ""; instagram := ""; threads := "";
                    reddit := "" |};
     connectedWallet := None |}.

(** Updates of the state. *)
Definition with_step (v : OnboardingStep) (w : Wizard) : Wizard :=
  {| step := v; mode := mode w; isLoading := isLoading w; error := error w;
     formData := formData w; connectedWallet := connectedWallet w |}.

Definition with_mode (v : ConnectionMode) (w : Wizard) : Wizard :=
  {| step := step w; mode := v; isLoading := isLoading w; error := error w;
     formData := formData w; connectedWallet := connectedWallet w |}.

Definition with_isLoading (v : bool) (w : Wizard) : Wizard :=
  {| step := step w; mode := mode w; isLoading := v; error := error w;
     formData := formData w; connectedWallet := connectedWallet w |}.

Definition with_error (v : option string) (w : Wizard) : Wizard :=
  {| step := step w; mode := mode w; isLoading := isLoading w; error := v;
     formData := formData w; connectedWallet := connectedWallet w |}.

Definition with_formData (v : FormData) (w : Wizard) : Wizard :=
  {| step := step w; mode := mode w; isLoading := isLoading w;
     error := error w; formData := v; connectedWallet := connectedWallet w |}.

Definition with_connectedWallet (v : option ConnectedWallet) (w : Wizard)
    : Wizard :=
  {| step := step w; mode := mode w; isLoading := isLoading w;
     error := error w; formData := formData w; connectedWallet := v |}.

Definition with_address (a : string) (c : Blockchain) (f : FormData)
    : FormData :=
  {| username := username f; address := a; chain := c; logoUrl := logoUrl f;
     twitter := twitter f; instagram := instagram f; threads := threads f;
     reddit := reddit f |}.

Definition with_username (v : string) (f : FormData) : FormData :=
  {| username := v; address := address f; chain := chain f;
     logoUrl := logoUrl f; twitter := twitter f; instagram := instagram f;
     threads := threads f; reddit := reddit f |}.

Definition with_logoUrl (v : string) (f : FormData) : FormData :=
  {| username := username f; address := address f; chain := chain f;
     logoUrl := v; twitter := twitter f; instagram := instagram f;
     threads := threads f; reddit := reddit f |}.

Definition with_social (social : Social) (v : string) (f : FormData)
    : FormData :=
  {| username := username f; address := address f; chain := chain f;
     logoUrl := logoUrl f;
     twitter := match social with Twitter => v | _ => twitter f end;
     instagram := match social with Instagram => v | _ => instagram f end;
     threads := match social with Threads => v | _ => threads f end;
     reddit := match social with Reddit => v | _ => reddit f end |}.

(** [e.message || fallback] of a caught error. *)
Definition message_or (e fallback : string) : string := str_or e fallback.

(** ** The handlers, each run to its end *)

(** [handleManualNext] *)
Definition handleManualNext (w : Wizard) : Wizard :=
  let w := with_error None w in
  if negb (isValidAddress (address (formData w)) (chain (formData w)))
  then with_error
         (Some (String.concat ""
                  ["Invalid "; chain_code (chain (formData w)); " address."]))
         w
  else with_step profile (with_connectedWallet None w).

(** [handleConnect], on what [connectEVM] or [connectSolana] has given. *)
Definition handleConnect (connected : Completion ConnectedWallet) (w : Wizard)
    : Wizard :=
  let w := with_isLoading true (with_error None w) in
  with_isLoading false
    match connected with
    | Returned wallet =>
        with_step verify
          (with_formData
             (with_address (wallet_address wallet) (wallet_chain wallet)
                (formData w))
             (with_connectedWallet (Some wallet) w))
    | Threw e => with_error (Some (message_or e "Connection failed.")) w
    end.

(** [handleImageUpload]: the file chosen, if any, with its size and the
    data URL the reader gives. *)
Definition handleImageUpload (file : option (Z * string)) (w : Wizard)
    : Wizard :=
  match file with
  | None => w
  | Some (size, dataUrl) =>
      if 200 * 1024 <? size
      then with_error (Some "Image too large. Max 200KB.") w
      else with_error None (with_formData (with_logoUrl dataUrl (formData w)) w)
  end.

Section WithNumbers.
Context (num : Type) `{JsNumber num}.
Variable verifyMessage : string -> string -> option string.

(** [handleVerifyOwnership]: [now] and [nonce] are the readings behind the
    verification message. *)
Definition handleVerifyOwnership (window : Window num) (now nonce : Z)
    (w : Wizard) : Wizard :=
  match connectedWallet w with
  | None => w
  | Some wallet =>
      let w := with_isLoading true (with_error None w) in
      let message :=
        createVerificationMessage now nonce (wallet_address wallet) in
      let signed :=
        if Blockchain_eqb (wallet_chain wallet) SOL
        then signSolana window (wallet_address wallet) message
        else fst (signEVM verifyMessage window (wallet_address wallet) message)
      in
      with_isLoading false
        match signed with
        | Returned true => with_step profile w
        | Returned false =>
            with_error (Some "Signature verification failed.") w
        | Threw e => with_error (Some (message_or e "Verification failed.")) w
        end
  end.

(** [x || undefined] of a form field. *)
Definition or_undefined (s : string) : JsValue num :=
  if str_truthy s then JsStr s else JsUndefined.

(** The argument [handleSubmit] gives to [createProfile]. *)
Definition profile_fields (f : FormData) : Storage.ProfileFields num :=
  {| Storage.new_username := username f;
     Storage.new_address := address f;
     Storage.new_chain := chain f;
     Storage.new_logoUrl := if str_truthy (logoUrl f) then Some (logoUrl f)
                            else None;
     Storage.new_socials :=
       Some (JsObject [("twitter", or_undefined (twitter f));
                       ("instagram", or_undefined (instagram f));
                       ("threads", or_undefined (threads f));
                       ("reddit", or_undefined (reddit f))]) |}.

(** [handleSubmit]: the state it leaves and the route it navigates to. *)
Definition handleSubmit (db : Storage.Supabase num) (random36 : string)
    (now : Z) (w : Wizard) : Wizard * option string :=
  let w := with_isLoading true (with_error None w) in
  if negb (test username_regex (username (formData w)))
  then (with_isLoading false
          (with_error
             (Some (message_or
                      "Username must be 3-20 alphanumeric characters."
                      "An error occurred")) w),
        None)
  else
    match fst (Storage.createProfile db random36 now
                 (profile_fields (formData w))) with
    | Returned _ =>
        (w, Some (String.append "/u/" (username (formData w))))
    | Threw e =>
        (with_isLoading false
           (with_error (Some (message_or e "An error occurred")) w),
         None)
    end.

(** ** The events of the page

    Each event carries what the outside gives to the handler it runs. *)
Inductive PageEvent : Type :=
| ClickMode (m : ConnectionMode)
| ClickConnectEvm (window : Window num) (answers : EvmAnswers)
| ClickConnectSolana (window : Window num)
    (connected : Promise (option string))
| ClickChain (c : Blockchain)
| TypeAddress (a : string)
| ClickContinueManually
| ClickSign (window : Window num) (now nonce : Z)
| ClickCancel
| TypeUsername (v : string)
| TypeSocial (social : Social) (v : string)
| ChooseImage (file : option (Z * string))
| Submit (db : Storage.Supabase num) (random36 : string) (now : Z).

Definition is_step (s : OnboardingStep) (w : Wizard) : bool :=
  match s, step w with
  | connect, connect | verify, verify | profile, profile => true
  | _, _ => false
  end.

Definition is_mode (m : ConnectionMode) (w : Wizard) : bool :=
  match m, mode w with
  | wallet_mode, wallet_mode | manual_mode, manual_mode => true
  | _, _ => false
  end.

(** The control of the event is on the page and not disabled. *)
Definition offered (e : PageEvent) (w : Wizard) : bool :=
  match e with
  | ClickMode _ => is_step connect w
  | ClickConnectEvm _ _ | ClickConnectSolana _ _ =>
      is_step connect w && is_mode wallet_mode w && negb (isLoading w)
  | ClickChain _ | TypeAddress _ | ClickContinueManually =>
      is_step connect w && is_mode manual_mode w
  | ClickSign _ _ _ =>
      is_step verify w && present (connectedWallet w) && negb (isLoading w)
  | ClickCancel => is_step verify w && present (connectedWallet w)
  | TypeUsername _ | TypeSocial _ _ | ChooseImage _ => is_step profile w
  | Submit _ _ _ => is_step profile w && negb (isLoading w)
  end.

Definition handle (e : PageEvent) (w : Wizard) : Wizard :=
  match e with
  | ClickMode m => with_mode m w
  | ClickConnectEvm window answers =>
      handleConnect (connectEVM window answers) w
  | ClickConnectSolana window connected =>
      handleConnect (connectSolana window connected) w
  | ClickChain c =>
      with_formData (with_address (address (formData w)) c (formData w)) w
  | TypeAddress a =>
      with_formData (with_address a (chain (formData w)) (formData w)) w
  | ClickContinueManually => handleManualNext w
  | ClickSign window now nonce => handleVerifyOwnership window now nonce w
  | ClickCancel => with_step connect w
  | TypeUsername v => with_formData (with_username v (formData w)) w
  | TypeSocial social v => with_formData (with_social social v (formData w)) w
  | ChooseImage file => handleImageUpload file w
  | Submit db random36 now => fst (handleSubmit db random36 now w)
  end.

(** The page after a sequence of events, each handled to its end before
    the next; an event whose control is not offered changes nothing. *)
Definition after (events : list PageEvent) : Wizard :=
  fold_left (fun w e => if offered e w then handle e w else w) events initial.

(** A signature of a verification message for [address] recovers to
    [address], up to the case of the letters. *)
Definition recoverable (address : string) : Prop :=
  exists now nonce signature recovered,
    verifyMessage (createVerificationMessage now nonce address) signature
      = Some recovered
    /\ toLowerCase recovered = toLowerCase address.

(** What the profile step stands on: with a connected wallet, the linked
    address and chain are the wallet's, and for an EVM wallet a signature
    recovers to the address; without one, the address has the format of
    the chain.  The verify step shows the wallet that was connected. *)
Definition grounded (w : Wizard) : Prop :=
  match step w with
  | connect => True
  | verify =>
      match connectedWallet w with
      | Some wallet =>
          address (formData w) = wallet_address wallet
          /\ chain (formData w) = wallet_chain wallet
      | None => True
      end
  | profile =>
      match connectedWallet w with
      | Some wallet =>
          address (formData w) = wallet_address wallet
          /\ chain (formData w) = wallet_chain wallet
          /\ (wallet_chain wallet <> SOL ->
              recoverable (wallet_address wallet))
      | None =>
          isValidAddress (address (formData w)) (chain (formData w)) = true
      end
  end.

End WithNumbers.

End SubmitForm.

(* ===================================================================== *)
(** * Further notions used to state properties *)
(* ===================================================================== *)

Module Notions.
Import Chain.


(** [await fetch(..)] or [await res.json()] throws: the network failed
    or the body does not parse. *)
Definition rejects {B} (response : Response B) : bool :=
  match response with
  | NetworkError | HttpOk None => true
  | _ => false
  end.

Section WithNumbers.
Context (num : Type) `{JsNumber num}.

(** The transaction list shows no latest transaction: the request
    failed, the body is no array, or the array is empty. *)
Definition no_transactions (response : Response (TxsJson num)) : bool :=
  match response with
  | HttpOk (Some (TxsArray (_ :: _))) => false
  | _ => true
  end.

(** A step of a [try] block never sets the count of clock readings
    back. *)
Definition advances {A} (m : Try num A) : Prop :=
  forall f, (ticks (global f) <= ticks (global (snd (m f))))%nat.

(** The fetcher [fetchWalletStats] routes a chain to. *)
Definition fetcher (env : Env num) (address : string) (chain : Blockchain)
    (g : Global num) : Completion (WalletStats num) * Global num :=
  match chain with
  | BTC => fetchBTCStats env address g
  | SOL => fetchSolanaStats env address g
  | ETH | BNB => fetchEVMStats env address chain g
  end.

End WithNumbers.

End Notions.
Import Notions.

(* ===================================================================== *)
(** * More concrete worlds *)
(* ===================================================================== *)

Module MoreExamples.
Import Chain Examples.

(** The clock stands still at 2025-11-02T00:00:00.123Z. *)
Definition frozen : Env qnum :=
  {| clock := fun _ => 1762041600123;
     random := random offline;
     price_api := price_api priced;
     btc_address := HttpOk (Some one_bitcoin);
     btc_txs := HttpOk (Some (TxsArray []));
     evm_balance := NetworkError; evm_latest := NetworkError;
     evm_first := NetworkError;
     sol_balance := NetworkError; sol_signatures_for_address := NetworkError;
     sol_tokens := NetworkError |}.

(** A spend of 5000 satoshi by [btc_wallet] with no change: 4000 to
    [other_wallet], 1000 of fee. *)
Definition plain_spend : BtcTx qnum :=
  {| txid := "0e3e2357e806b6cdb1f70b54c3a3a17b6714ee1f0e68bebb44a74b1efd512098";
     vin := [{| prevout := Some {| scriptpubkey_address := Some btc_wallet;
                                   value := num_of_Z 5000 |} |}];
     vout := [{| scriptpubkey_address := Some other_wallet;
                 value := num_of_Z 4000 |}];
     fee := Some (num_of_Z 1000);
     block_time := Some (num_of_Z 1700000000) |}.

Definition sending : Env qnum :=
  {| clock := clock offline; random := random offline;
     price_api := price_api priced;
     btc_address := HttpOk (Some one_bitcoin);
     btc_txs := HttpOk (Some (TxsArray [plain_spend]));
     evm_balance := NetworkError; evm_latest := NetworkError;
     evm_first := NetworkError;
     sol_balance := NetworkError; sol_signatures_for_address := NetworkError;
     sol_tokens := NetworkError |}.

(** A newly mined block paying [other_wallet]: the input has no
    [prevout]. *)
Definition mined : BtcTx qnum :=
  {| txid := "4a5e1e4baab89f3a32518a88c31bc87f618f76673e2cc77ab2127b7afdeda33b";
     vin := [{| prevout := None |}];
     vout := [{| scriptpubkey_address := Some other_wallet;
                 value := num_of_Z 5000000000 |}];
     fee := None;
     block_time := Some (num_of_Z 1231006505) |}.

Definition mining : Env qnum :=
  {| clock := clock offline; random := random offline;
     price_api := price_api priced;
     btc_address := HttpOk (Some one_bitcoin);
     btc_txs := HttpOk (Some (TxsArray [mined]));
     evm_balance := NetworkError; evm_latest := NetworkError;
     evm_first := NetworkError;
     sol_balance := NetworkError; sol_signatures_for_address := NetworkError;
     sol_tokens := NetworkError |}.

(** An EVM account whose latest transaction pays it, the address written
    in lower case by the explorer; the balance request is refused and the
    request for the first transaction fails at the network. *)
Definition incoming : EvmTx :=
  {| evm_hash := "0x5c504ed432cb51138bcf09aa5e8a410dd4a1e204ef84bfed1be16dfba1b22060";
     nonce := "41";
     timeStamp := "1700000000";
     evm_from := "0x00000000219ab540356cbb839cbe05303d7705fa";
     evm_to := "0xabcdef0123456789abcdef0123456789abcdef01";
     evm_value := "1000000000000000000";
     gasUsed := "21000";
     gasPrice := "1000000000" |}.

Definition evm_active : Env qnum :=
  {| clock := clock offline; random := random offline;
     price_api := price_api offline;
     btc_address := NetworkError; btc_txs := NetworkError;
     evm_balance := HttpError;
     evm_latest := HttpOk (Some {| txlist_status := "1";
                                   txlist_result := [incoming] |});
     evm_first := NetworkError;
     sol_balance := NetworkError; sol_signatures_for_address := NetworkError;
     sol_tokens := NetworkError |}.

(** A Solana wallet holding dust of one token and 25 of another. *)
Definition sol_holding : Env qnum :=
  {| clock := clock offline; random := random offline;
     price_api := price_api offline;
     btc_address := NetworkError; btc_txs := NetworkError;
     evm_balance := NetworkError; evm_latest := NetworkError;
     evm_first := NetworkError;
     sol_balance := HttpError;
     sol_signatures_for_address := HttpError;
     sol_tokens :=
       HttpOk (Some {| sol_token_accounts :=
         Some [{| mint := "EPjFWdd5AufqSSqeM2qN1xzybapC8G4wEGGkZwyTDt1v";
                  uiAmount := Some (num_lit 0.001);
                  tokenAmount_decimals := num_of_Z 6 |};
               {| mint := "Es9vMFrzaCERmJfrF4H2FYD4KCoNkY11McCe8BenwNYB";
                  uiAmount := Some (num_of_Z 25);
                  tokenAmount_decimals := num_of_Z 6 |}] |}) |}.

(** A table of two profiles, the second created at a time the client
    returns as text. *)
Definition stocked : Storage.Supabase qnum :=
  {| Storage.select_all :=
       Storage.Resolves
         (Some [{| Storage.row_id := JsStr "4fzyo82mv";
                   Storage.row_username := JsStr "alice_1";
                   Storage.row_address := JsStr claimed;
                   Storage.row_chain := JsStr "ETH";
                   Storage.row_created_at := JsNum (num_of_Z 1700000000000);
                   Storage.row_logo_url := JsNull;
                   Storage.row_socials := JsObject [] |};
                {| Storage.row_id := JsStr "k3x9q0a1b";
                   Storage.row_username := JsStr "satoshi";
                   Storage.row_address := JsStr btc_wallet;
                   Storage.row_chain := JsStr "BTC";
                   Storage.row_created_at := JsStr "1700000000001";
                   Storage.row_logo_url := JsNull;
                   Storage.row_socials := JsObject [] |}])
         None;
     Storage.select_by_username :=
       fun _ => Storage.Resolves None (Some no_rows);
     Storage.insert := fun row => Storage.Resolves (Some row) None |}.

(** An EVM wallet on the claimed account whose signatures recover to that
    account, written in lower case. *)
Definition honest_window : Wallet.Window qnum :=
  {| Wallet.ethereum :=
       Some {| Wallet.getSigner := Wallet.Resolved mismatching_signer |};
     Wallet.solana := None;
     Wallet.phantom_solana := None |}.

Definition recovers_claimed (message signature : string) : option string :=
  Some "0xabcdef0123456789abcdef0123456789abcdef01".

(** A wallet on another account. *)
Definition other_account_window : Wallet.Window qnum :=
  {| Wallet.ethereum :=
       Some {| Wallet.getSigner :=
                 Wallet.Resolved
                   {| Wallet.getAddress := Wallet.Resolved another;
                      Wallet.signer_signMessage :=
                        fun _ => Wallet.Resolved "0x1b" |} |};
     Wallet.solana := None;
     Wallet.phantom_solana := None |}.

(** No wallet is injected. *)
Definition bare_window : Wallet.Window qnum :=
  {| Wallet.ethereum := None;
     Wallet.solana := None;
     Wallet.phantom_solana := None |}.

(** The wallet shares one account and is on BNB Chain. *)
Definition on_bnb : Connect.EvmAnswers :=
  {| Connect.eth_requestAccounts := Wallet.Resolved (Some [claimed]);
     Connect.network_chainId := Wallet.Resolved 56 |}.


(** The price API answers every request with a body whose first entry is
    [null]. *)
Definition null_first : Env qnum :=
  {| clock := clock offline; random := random offline;
     price_api := fun _ _ =>
       HttpOk (Some [("aaa", None);
                     ("bitcoin", Some (Some (num_of_Z 50000)))]);
     btc_address := NetworkError; btc_txs := NetworkError;
     evm_balance := NetworkError; evm_latest := NetworkError;
     evm_first := NetworkError;
     sol_balance := NetworkError; sol_signatures_for_address := NetworkError;
     sol_tokens := NetworkError |}.

(** Every request fails at the network. The first two readings of the
    clock, those of the fetcher, fall on 1 November 2025, one millisecond
    before midnight; the later ones on 2 November. *)
Definition turning : Env qnum :=
  {| clock := fun n => if (n <? 2)%nat then 1762041599999 else 1762041600123;
     random := random offline;
     price_api := price_api offline;
     btc_address := NetworkError; btc_txs := NetworkError;
     evm_balance := NetworkError; evm_latest := NetworkError;
     evm_first := NetworkError;
     sol_balance := NetworkError; sol_signatures_for_address := NetworkError;
     sol_tokens := NetworkError |}.

(** Wallets on the claimed account whose owner declines to sign, each
    rejecting with a reason of its own. *)
Definition denying_window : Wallet.Window qnum :=
  {| Wallet.ethereum :=
       Some {| Wallet.getSigner :=
                 Wallet.Resolved
                   {| Wallet.getAddress := Wallet.Resolved claimed;
                      Wallet.signer_signMessage :=
                        fun _ => Wallet.Rejected
                                   "user rejected action" |} |};
     Wallet.solana :=
       Some {| Wallet.signMessage :=
                 fun _ _ => Wallet.Rejected "User rejected the request." |};
     Wallet.phantom_solana := None |}.

End MoreExamples.

Unset Implicit Arguments.

(* ===================================================================== *)
(** * The embedding on examples *)
(* ===================================================================== *)

Section Sanity.
Import Chain Examples.

Example toISOString_epoch : toISOString 0 = "1970-01-01T00:00:00.000Z".
Proof. reflexivity. Qed.

Example toISOString_leap_day :
  toISOString 951868799999 = "2000-02-29T23:59:59.999Z".
Proof. reflexivity. Qed.

Example toISOString_before_epoch :
  toISOString (-1) = "1969-12-31T23:59:59.999Z".
Proof. reflexivity. Qed.

Example date_of_instant : before_T (toISOString 1762041600123) = "2025-11-02".
Proof. reflexivity. Qed.

Example isValidAddress_examples :
  isValidAddress btc_wallet BTC = true
  /\ isValidAddress "bc1qar0srrr7xfkvy5l643lydnw9re59gtzzwf5mdq" BTC = true
  /\ isValidAddress claimed ETH = true
  /\ isValidAddress claimed BNB = true
  /\ isValidAddress sol_wallet SOL = true
  /\ isValidAddress "not-an-address" BTC = false
  /\ isValidAddress "" ETH = false.
Proof. repeat split. Qed.

Example substr_of_draw : substr 2 9 "0.4fzyo82mvyr" = "4fzyo82mv".
Proof. reflexivity. Qed.

Example toLowerCase_address : toLowerCase "0xABCdef01" = "0xabcdef01".
Proof. reflexivity. Qed.

(** A fresh price is served from the cache: no second request. *)
Example fetchTokenPrices_twice :
  let '(prices1, g1) := fetchTokenPrices priced ["bitcoin"] start in
  let '(prices2, g2) := fetchTokenPrices priced ["bitcoin"] g1 in
  prices1 !! "bitcoin" = Some (QFin 50000)
  /\ prices2 !! "bitcoin" = Some (QFin 50000)
  /\ sent g2 = [["bitcoin"]].
Proof. repeat split. Qed.

End Sanity.

(* ===================================================================== *)
(** * The matcher decides the language *)
(* ===================================================================== *)

Section RegexFacts.
Import Regex.

Lemma strip_spec (p s rest : list ascii) :
  strip p s = Some rest <-> s = p ++ rest.
Proof.
  revert s. induction p as [|a p IH]; intros s; simpl.
  - split; congruence.
  - destruct s as [|b s]; [split; discriminate|].
    destruct (Ascii.eqb a b) eqn:E.
    + apply Ascii.eqb_eq in E. subst b. rewrite IH. split; congruence.
    + apply Ascii.eqb_neq in E. split; [discriminate | congruence].
Qed.

Lemma rep_spec step L (Hstep : decides step L) hi :
  forall lo s k,
    rep step lo hi s k = true <->
    exists n u v, (lo <= n <= hi)%nat /\ s = u ++ v
                  /\ power L n u /\ k v = true.
Proof.
  induction hi as [|hi IH]; intros lo s k; simpl.
  - destruct lo.
    + split.
      * intros Hk. exists O, [], s. simpl. auto with lia.
      * intros (n & u & v & Hn & -> & Hp & Hk).
        assert (n = O) by lia. subst n. simpl in Hp. subst u. exact Hk.
    + split; [discriminate|]. intros (n & _ & _ & Hn & _). lia.
  - rewrite orb_true_iff, (Hstep s). split.
    + intros [(u & v & -> & Hu & Hrest) | Hk].
      * apply IH in Hrest as (n & u' & v' & Hn & -> & Hp & Hk).
        exists (S n), (u ++ u'), v'. repeat split; try lia.
        -- now rewrite app_assoc.
        -- simpl. now exists u, u'.
        -- exact Hk.
      * destruct lo; [|discriminate].
        exists O, [], s. simpl. auto with lia.
    + intros (n & u & v & Hn & -> & Hp & Hk). destruct n as [|n].
      * simpl in Hp. subst u. right.
        assert (lo = O) by lia. subst lo. exact Hk.
      * simpl in Hp. destruct Hp as (u1 & u2 & -> & Hu1 & Hp).
        left. exists u1, (u2 ++ v). rewrite <- app_assoc.
        repeat split; [exact Hu1|].
        apply IH. exists n, u2, v. repeat split; try lia; assumption.
Qed.

Lemma run_spec r : decides (run r) (lang r).
Proof.
  induction r as [p | ranges | r1 IH1 r2 IH2 | r1 IH1 r2 IH2 | r IH lo hi];
    intros s k; simpl.
  - destruct (strip (chars p) s) as [rest|] eqn:E.
    + apply strip_spec in E. subst s. split.
      * intros Hk. now exists (chars p), rest.
      * intros (u & v & Heq & -> & Hk).
        apply app_inv_head in Heq. now subst v.
    + split; [discriminate|]. intros (u & v & -> & -> & _).
      assert (E' : strip (chars p) (chars p ++ v) = Some v)
        by now apply strip_spec.
      congruence.
  - destruct s as [|c s].
    + split; [discriminate|].
      intros (u & v & Heq & (c & -> & _) & _). discriminate.
    + rewrite andb_true_iff. split.
      * intros [Hc Hk]. exists [c], s. repeat split; [|exact Hk].
        now exists c.
      * intros (u & v & Heq & (c' & -> & Hc) & Hk).
        simpl in Heq. injection Heq as -> ->. now split.
  - rewrite (IH1 s). split.
    + intros (u & v & -> & Hu & Hrest).
      apply IH2 in Hrest as (u' & v' & -> & Hu' & Hk).
      exists (u ++ u'), v'. rewrite <- app_assoc.
      repeat split; [|exact Hk]. now exists u, u'.
    + intros (w & v & -> & (u & u' & -> & Hu & Hu') & Hk).
      exists u, (u' ++ v). rewrite <- app_assoc. repeat split; [exact Hu|].
      apply IH2. now exists u', v.
  - rewrite orb_true_iff, (IH1 s), (IH2 s). split.
    + intros [(u & v & -> & Hu & Hk) | (u & v & -> & Hu & Hk)];
        exists u, v; auto.
    + intros (u & v & -> & [Hu | Hu] & Hk); [left | right]; now exists u, v.
  - rewrite (@rep_spec (run r) (lang r) IH hi lo s k). split.
    + intros (n & u & v & Hn & -> & Hp & Hk). exists u, v.
      repeat split; [|exact Hk]. now exists n.
    + intros (u & v & -> & (n & Hn & Hp) & Hk). now exists n, u, v.
Qed.

(** [test] accepts exactly the words of the language. *)
Lemma test_spec r s : test r s = true <-> lang r (chars s).
Proof.
  unfold test. rewrite (run_spec r (chars s) at_end). split.
  - intros (u & v & Heq & Hu & Hend). destruct v; [|discriminate].
    rewrite app_nil_r in Heq. now rewrite Heq.
  - intros Hl. exists (chars s), []. now rewrite app_nil_r.
Qed.

Lemma power_class ranges n w :
  power (lang (Class ranges)) n w <->
  length w = n /\ forallb (in_class ranges) w = true.
Proof.
  revert w. induction n as [|n IH]; intros w; simpl.
  - split.
    + now intros ->.
    + intros [Hl _]. now destruct w.
  - split.
    + intros (u & v & -> & (c & -> & Hc) & Hp).
      apply IH in Hp as [Hl Hall]. simpl. rewrite Hc, Hall. auto.
    + intros [Hl Hall]. destruct w as [|c w]; [discriminate|].
      simpl in Hall. apply andb_true_iff in Hall as [Hc Hall].
      exists [c], w. repeat split; [now exists c|].
      apply IH. split; [simpl in Hl; lia | exact Hall].
Qed.

(** A bounded repetition of a class up to the end of the input checks the
    length and the characters. *)
Lemma rep_class_at_end ranges lo hi s :
  rep (run (Class ranges)) lo hi s at_end
  = Chain.between lo hi (length s) && forallb (in_class ranges) s.
Proof.
  apply eq_true_iff_eq.
  rewrite (@rep_spec _ _ (run_spec (Class ranges)) hi lo s at_end), andb_true_iff.
  unfold Chain.between. rewrite andb_true_iff, !Nat.leb_le. split.
  - intros (n & u & v & Hn & -> & Hp & Hend). destruct v; [|discriminate].
    rewrite app_nil_r. apply power_class in Hp as [<- Hall]. auto.
  - intros [Hn Hall]. exists (length s), s, []. rewrite app_nil_r.
    repeat split; try lia. now apply power_class.
Qed.

End RegexFacts.

(* ===================================================================== *)
(** * isValidAddress *)
(* ===================================================================== *)

Section AddressFacts.
Import Regex Chain.

Ltac each_char c := destruct c as [[] [] [] [] [] [] [] []]; reflexivity.

Lemma alnum_class c :
  in_class [("a", "z"); ("A", "Z"); ("0", "9")]%char c = member alphanumerics c.
Proof. each_char c. Qed.

Lemma hex_class c :
  in_class [("a", "f"); ("A", "F"); ("0", "9")]%char c = member hex_digits c.
Proof. each_char c. Qed.

Lemma base58_class c :
  in_class [("1", "9"); ("A", "H"); ("J", "N"); ("P", "Z");
            ("a", "k"); ("m", "z")]%char c = member base58_alphabet c.
Proof. each_char c. Qed.

Lemma forallb_same {A} (f g : A -> bool) (l : list A) :
  (forall x, f x = g x) -> forallb f l = forallb g l.
Proof. intros E. induction l as [|x l IH]; simpl; [|rewrite E, IH]; reflexivity. Qed.

Lemma between_shift n lo hi m :
  between (n + lo) (n + hi) (n + m) = between lo hi m.
Proof.
  unfold between. apply eq_true_iff_eq.
  rewrite !andb_true_iff, !Nat.leb_le. lia.
Qed.

(** A literal followed by a bounded repetition of a class, up to the end
    of the input. *)
Lemma lit_rep_at_end p ranges lo hi s :
  run (Lit p) s (fun s' => rep (run (Class ranges)) lo hi s' at_end)
  = starts_with p s
    && between (length (chars p) + lo) (length (chars p) + hi) (length s)
    && forallb (in_class ranges) (skipn (length (chars p)) s).
Proof.
  unfold starts_with.
  change (run (Lit p) s (fun s' => rep (run (Class ranges)) lo hi s' at_end))
    with (match strip (chars p) s with
          | Some s' => rep (run (Class ranges)) lo hi s' at_end
          | None => false
          end).
  destruct (strip (chars p) s) as [rest|] eqn:E; [|reflexivity].
  apply strip_spec in E. subst s.
  rewrite rep_class_at_end, length_app, between_shift.
  rewrite skipn_app, Nat.sub_diag, skipn_all. reflexivity.
Qed.

Lemma starts_with_forallb (f : ascii -> bool) p s :
  starts_with p s = true -> forallb f (chars p) = true ->
  forallb f (skipn (length (chars p)) s) = forallb f s.
Proof.
  unfold starts_with. intros Hp Hf.
  destruct (strip (chars p) s) as [rest|] eqn:E; [|discriminate].
  apply strip_spec in E. subst s.
  rewrite skipn_app, Nat.sub_diag, skipn_all. simpl.
  rewrite forallb_app, Hf. reflexivity.
Qed.

Lemma starts_with_inv p s :
  starts_with p s = true -> exists rest, s = chars p ++ rest.
Proof.
  unfold starts_with. destruct (strip (chars p) s) as [rest|] eqn:E;
    [|discriminate].
  intros _. exists rest. now apply strip_spec.
Qed.

Lemma starts_with_1_not_bc1 s :
  starts_with "1" s = true -> starts_with "bc1" s = false.
Proof. intros Hs. apply starts_with_inv in Hs as [rest ->]. reflexivity. Qed.

Lemma starts_with_3_not_bc1 s :
  starts_with "3" s = true -> starts_with "bc1" s = false.
Proof. intros Hs. apply starts_with_inv in Hs as [rest ->]. reflexivity. Qed.

Lemma btc_regex_pattern s :
  run btc_regex s at_end
  = prefix_ok BTC s && alphabet_ok BTC s && length_ok BTC s.
Proof.
  unfold btc_regex.
  change (run (Seq (Alt (Lit "1") (Alt (Lit "3") (Lit "bc1"))) ?r) s at_end)
    with (run (Lit "1") s (fun s' => run r s' at_end)
          || (run (Lit "3") s (fun s' => run r s' at_end)
              || run (Lit "bc1") s (fun s' => run r s' at_end))).
  change (fun s' => run (Rep ?c ?lo ?hi) s' at_end)
    with (fun s' => rep (run c) lo hi s' at_end).
  rewrite !lit_rep_at_end.
  rewrite !(forallb_same _ _ _ alnum_class).
  unfold prefix_ok, alphabet_ok, length_ok.
  change (length (chars "1")) with 1%nat. change (length (chars "3")) with 1%nat.
  change (length (chars "bc1")) with 3%nat.
  change (1 + 25)%nat with 26%nat. change (1 + 59)%nat with 60%nat.
  change (3 + 25)%nat with 28%nat. change (3 + 59)%nat with 62%nat.
  destruct (starts_with "1" s) eqn:E1.
  - rewrite (starts_with_1_not_bc1 _ E1).
    pose proof (starts_with_forallb (member alphanumerics) "1" s E1 eq_refl)
      as R.
    change (length (chars "1")) with 1%nat in R. rewrite R.
    destruct (starts_with "3" s), (between 26 60 (length s)),
      (forallb (member alphanumerics) s); reflexivity.
  - destruct (starts_with "3" s) eqn:E3.
    + rewrite (starts_with_3_not_bc1 _ E3).
      pose proof (starts_with_forallb (member alphanumerics) "3" s E3 eq_refl)
        as R.
      change (length (chars "3")) with 1%nat in R. rewrite R.
      destruct (between 26 60 (length s)),
        (forallb (member alphanumerics) s); reflexivity.
    + destruct (starts_with "bc1" s) eqn:Eb; [|reflexivity].
      pose proof (starts_with_forallb (member alphanumerics) "bc1" s Eb eq_refl)
        as R.
      change (length (chars "bc1")) with 3%nat in R. rewrite R.
      destruct (between 28 62 (length s)),
        (forallb (member alphanumerics) s); reflexivity.
Qed.

Lemma between_exact n m : between n n m = Nat.eqb m n.
Proof.
  unfold between. apply eq_true_iff_eq.
  rewrite andb_true_iff, !Nat.leb_le, Nat.eqb_eq. lia.
Qed.

Lemma evm_regex_pattern s :
  run evm_regex s at_end
  = prefix_ok ETH s && alphabet_ok ETH s && length_ok ETH s.
Proof.
  unfold evm_regex.
  change (run (Seq (Lit "0x") (Rep ?c ?lo ?hi)) s at_end)
    with (run (Lit "0x") s (fun s' => rep (run c) lo hi s' at_end)).
  rewrite lit_rep_at_end, (forallb_same _ _ _ hex_class).
  unfold prefix_ok, alphabet_ok, length_ok.
  change (length (chars "0x")) with 2%nat.
  change (2 + 40)%nat with 42%nat. rewrite between_exact.
  destruct (starts_with "0x" s), (Nat.eqb (length s) 42),
    (forallb (member hex_digits) (skipn 2 s)); reflexivity.
Qed.

Lemma sol_regex_pattern s :
  run sol_regex s at_end
  = prefix_ok SOL s && alphabet_ok SOL s && length_ok SOL s.
Proof.
  unfold sol_regex.
  change (run (Rep ?c ?lo ?hi) s at_end) with (rep (run c) lo hi s at_end).
  rewrite rep_class_at_end, (forallb_same _ _ _ base58_class).
  unfold prefix_ok, alphabet_ok, length_ok.
  destruct (between 32 44 (length s)),
    (forallb (member base58_alphabet) s); reflexivity.
Qed.

(** C5. [isValidAddress] returns true exactly on the addresses of the
    chain's pattern: the BTC prefixes [1], [3] or [bc1] followed by 25 to
    59 alphanumerics, [0x] followed by exactly 40 hex digits for ETH and
    BNB, 32 to 44 base58 characters for SOL.  In particular an address
    whose prefix is wrong, or which has a character outside the chain's
    alphabet, is rejected whatever its length. *)
Theorem isValidAddress_pattern (address : string) (chain : Blockchain) :
  isValidAddress address chain = matches_pattern chain address
  /\ (prefix_ok chain (chars address) = false ->
      isValidAddress address chain = false)
  /\ (alphabet_ok chain (chars address) = false ->
      isValidAddress address chain = false).
Proof.
  assert (E : isValidAddress address chain = matches_pattern chain address).
  { unfold isValidAddress, matches_pattern, test.
    destruct address as [|c address]; [destruct chain; reflexivity|].
    cbv [str_truthy negb].
    destruct chain.
    - apply btc_regex_pattern.
    - apply evm_regex_pattern.
    - apply sol_regex_pattern.
    - apply evm_regex_pattern. }
  split; [exact E|]. rewrite E. unfold matches_pattern.
  split; intros ->; [reflexivity | now rewrite andb_false_r].
Qed.

(** The specification's example address is accepted; with a wrong prefix
    or a letter that is no hex digit, at the same length, it is rejected. *)
Lemma isValidAddress_pattern_witness :
  isValidAddress "0xABCDEF0123456789abcdef0123456789ABCDEF01" ETH = true
  /\ isValidAddress "0yABCDEF0123456789abcdef0123456789ABCDEF01" ETH = false
  /\ isValidAddress "0xGBCDEF0123456789abcdef0123456789ABCDEF01" ETH = false.
Proof.
  split; [reflexivity|]. split.
  - exact (proj1 (proj2 (isValidAddress_pattern
             "0yABCDEF0123456789abcdef0123456789ABCDEF01" ETH)) eq_refl).
  - exact (proj2 (proj2 (isValidAddress_pattern
             "0xGBCDEF0123456789abcdef0123456789ABCDEF01" ETH)) eq_refl).
Defined.

End AddressFacts.

(* ===================================================================== *)
(** * The price cache *)
(* ===================================================================== *)

Section PriceCacheFacts.
Import Chain.
Context {num : Type} `{JsNumber num}.
Implicit Types (env : Env num) (g : Global num).

Lemma fetchTokenPrices_sent env ids (g : Global num) :
  sent (snd (fetchTokenPrices env ids g)) = upstream env ids g ++ sent g.
Proof.
  unfold fetchTokenPrices, upstream, date_now. simpl.
  destruct (List.filter _ ids); reflexivity.
Qed.

Lemma fetchTokenPrices_cache env ids (g : Global num) :
  priceCache (snd (fetchTokenPrices env ids g))
  = match List.filter (is_missing (priceCache g) (clock env (ticks g))) ids with
    | [] => priceCache g
    | missingIds =>
        match price_api env (length (sent g)) missingIds with
        | HttpOk (Some data) =>
            store_prices (clock env (ticks g)) data (priceCache g)
        | _ => priceCache g
        end
    end.
Proof.
  unfold fetchTokenPrices, date_now. simpl.
  destruct (List.filter _ ids); reflexivity.
Qed.

Lemma store_prices_keeps now data :
  forall (cache : gmap string (PriceEntry num)) id,
  stamped cache id now -> stamped (store_prices now data cache) id now.
Proof.
  induction data as [|[key [usd|]] data IH]; intros cache id Hs; simpl; auto.
  apply IH. destruct (decide (key = id)) as [->|Hne].
  - eexists. rewrite lookup_insert_eq. split; reflexivity.
  - destruct Hs as (e & He & Ht). exists e.
    rewrite lookup_insert_ne by exact Hne. auto.
Qed.

Lemma store_prices_delivers now data :
  forall (cache : gmap string (PriceEntry num)) id,
  delivers data id = true -> stamped (store_prices now data cache) id now.
Proof.
  induction data as [|[key [usd|]] data IH]; intros cache id Hd; simpl in *;
    try discriminate.
  apply orb_true_iff in Hd as [Hk | Hd]; [|now apply IH].
  apply String.eqb_eq in Hk. subst key. apply store_prices_keeps.
  eexists. rewrite lookup_insert_eq. split; reflexivity.
Qed.

Lemma asking_for_app id (r1 r2 : list (list string)) :
  asking_for id (r1 ++ r2) = (asking_for id r1 + asking_for id r2)%nat.
Proof. unfold asking_for. now rewrite List.filter_app, length_app. Qed.

Lemma asked_iff id (ids : list string) :
  existsb (String.eqb id) ids = true <-> In id ids.
Proof.
  rewrite existsb_exists. split.
  - intros (x & Hx & E). apply String.eqb_eq in E. now subst x.
  - intros Hin. exists id. split; [exact Hin | apply String.eqb_refl].
Qed.

Lemma upstream_at_most_one env ids g id :
  (asking_for id (upstream env ids g) <= 1)%nat.
Proof.
  unfold upstream, asking_for.
  destruct (List.filter _ ids) as [|m ms]; simpl; [lia|].
  destruct (_ || _); simpl; lia.
Qed.

Lemma upstream_not_missing env ids (g : Global num) id :
  is_missing (priceCache g) (clock env (ticks g)) id = false ->
  asking_for id (upstream env ids g) = O.
Proof.
  intros Hfresh. unfold upstream, asking_for.
  destruct (List.filter _ ids) as [|m ms] eqn:E; [reflexivity|].
  change (List.filter (existsb (String.eqb id)) [m :: ms])
    with (if existsb (String.eqb id) (m :: ms) then [m :: ms] else []).
  destruct (existsb (String.eqb id) (m :: ms)) eqn:Hask; [|reflexivity].
  apply asked_iff in Hask. rewrite <- E in Hask.
  apply List.filter_In in Hask as [_ Hmiss]. congruence.
Qed.

Lemma requests_since_app (g g' : Global num) new :
  sent g' = new ++ sent g -> requests_since g g' = new.
Proof.
  intros E. unfold requests_since. rewrite E, length_app.
  replace (length new + length (sent g) - length (sent g))%nat
    with (length new) by lia.
  rewrite firstn_app, Nat.sub_diag, firstn_all. simpl. apply app_nil_r.
Qed.

Lemma fold_insert_lookup (f : string -> num) (ids : list string) :
  forall (acc : gmap string num) (id : string),
    (In id ids ->
     fold_left (fun result i => <[i := f i]> result) ids acc !! id
     = Some (f id))
    /\ (~ In id ids ->
        fold_left (fun result i => <[i := f i]> result) ids acc !! id
        = acc !! id).
Proof.
  induction ids as [|i ids IH]; intros acc id; simpl.
  - split; [intros [] | reflexivity].
  - destruct (IH (<[i := f i]> acc) id) as [Hin Hout].
    destruct (in_dec string_dec id ids) as [Hid | Hid].
    + split; [intros _; now apply Hin | intros Hn; tauto].
    + split.
      * intros [-> | Hin']; [|tauto].
        rewrite Hout by exact Hid. apply lookup_insert_eq.
      * intros Hn. rewrite Hout by exact Hid.
        apply lookup_insert_ne. tauto.
Qed.

Lemma fetchTokenPrices_prices env ids g :
  fst (fetchTokenPrices env ids g)
  = fold_left
      (fun result id =>
         <[id := cached_price
                   (priceCache (snd (fetchTokenPrices env ids g))) id]> result)
      ids ∅.
Proof.
  unfold fetchTokenPrices, date_now. simpl.
  destruct (List.filter _ ids); reflexivity.
Qed.

Lemma store_prices_without now data :
  forall (cache : gmap string (PriceEntry num)) id,
  delivers data id = false -> store_prices now data cache !! id = cache !! id.
Proof.
  induction data as [|[key [usd|]] data IH]; intros cache id Hd; simpl in *;
    try reflexivity.
  apply orb_false_iff in Hd as [Hk Hd]. rewrite IH by exact Hd.
  apply lookup_insert_ne. intros ->. now rewrite String.eqb_refl in Hk.
Qed.

Lemma fetchTokenPrices_unanswered env ids (g : Global num) id :
  answers (price_api env (length (sent g))
             (List.filter (is_missing (priceCache g) (clock env (ticks g)))
                ids)) id = false ->
  priceCache (snd (fetchTokenPrices env ids g)) !! id = priceCache g !! id.
Proof.
  intros Hno. rewrite fetchTokenPrices_cache.
  destruct (List.filter _ ids); [reflexivity|].
  destruct (price_api env _ _) as [| |[data|]]; try reflexivity.
  now apply store_prices_without.
Qed.

Lemma fetchTokenPrices_unasked env ids (g : Global num) :
  upstream env ids g = [] ->
  priceCache (snd (fetchTokenPrices env ids g)) = priceCache g.
Proof.
  unfold upstream. rewrite fetchTokenPrices_cache.
  destruct (List.filter _ ids); [reflexivity | discriminate].
Qed.

Lemma fetchTokenPrices_price env ids (g : Global num) id :
  In id ids ->
  fst (fetchTokenPrices env ids g) !! id
  = Some (cached_price (priceCache (snd (fetchTokenPrices env ids g))) id).
Proof.
  intros Hin. rewrite fetchTokenPrices_prices at 1.
  now apply fold_insert_lookup.
Qed.

(** C3, amended. Take two calls of [fetchTokenPrices] that both ask for
    [id], the second running after the first has completed and with
    readings of the clock at most 60 seconds apart, and let the request
    of the first call, when it asks for [id], be answered with a body
    that carries an entry for [id] that is not [null], with no [null]
    entry before it. Then at most one upstream request asks for [id].
    When the first call asked for [id], it has stored the entry under its
    own clock reading and the second call sends no request that asks for
    [id]; the second call returns the price the first call left in the
    cache when it sends no request at all or the answer to its request
    carries no entry for [id] that is stored. And an answer that carries
    no such entry (the request failed, the body is not read, [id] is
    absent from it, [null] or behind a [null] entry) leaves the cache
    entry of [id] as it was. *)
Theorem fetchTokenPrices_reuses_price env (ids1 ids2 : list string)
    (id : string) (g : Global num) (ticks2 draws2 : nat) :
  In id ids1 -> In id ids2 ->
  let now1 := clock env (ticks g) in
  let now2 := clock env ticks2 in
  let first := price_api env (length (sent g))
                 (List.filter (is_missing (priceCache g) now1) ids1) in
  let g1 := snd (fetchTokenPrices env ids1 g) in
  let second := price_api env (length (sent g1))
                  (List.filter (is_missing (priceCache g1) now2) ids2) in
  let g2 := snd (fetchTokenPrices env ids2 (later g1 ticks2 draws2)) in
  (Z.abs (now2 - now1) <= 60 * 1000 ->
   (is_missing (priceCache g) now1 id = true -> answers first id = true) ->
   (asking_for id (requests_since g g2) <= 1)%nat
   /\ (is_missing (priceCache g) now1 id = true ->
       stamped (priceCache g1) id now1
       /\ asking_for id (requests_since g1 g2) = O
       /\ (requests_since g1 g2 = [] \/ answers second id = false ->
           fst (fetchTokenPrices env ids2 (later g1 ticks2 draws2)) !! id
           = Some (cached_price (priceCache g1) id))))
  /\ (answers first id = false -> priceCache g1 !! id = priceCache g !! id).
Proof.
  intros Hin1 Hin2 now1 now2 first g1 second g2.
  split; [|apply fetchTokenPrices_unanswered].
  intros Hclose Hanswer.
  assert (Hsent2 : sent g2 = upstream env ids2 (later g1 ticks2 draws2)
                             ++ sent g1).
  { unfold g2. now rewrite fetchTokenPrices_sent. }
  assert (Hsent : sent g2
                  = (upstream env ids2 (later g1 ticks2 draws2)
                     ++ upstream env ids1 g) ++ sent g).
  { rewrite Hsent2. unfold g1. rewrite fetchTokenPrices_sent.
    apply app_assoc. }
  rewrite (requests_since_app _ _ _ Hsent), asking_for_app.
  rewrite (requests_since_app _ _ _ Hsent2).
  destruct (is_missing (priceCache g) now1 id) eqn:Hmiss.
  - (* the first call asks for [id] and stores the answer *)
    assert (Hstamp : stamped (priceCache g1) id now1).
    { unfold g1. rewrite fetchTokenPrices_cache. fold now1.
      specialize (Hanswer eq_refl). unfold first in Hanswer.
      destruct (List.filter _ ids1) as [|m ms] eqn:E.
      - exfalso.
        assert (Hm : In id (List.filter (is_missing (priceCache g) now1)
                              ids1))
          by (apply List.filter_In; auto).
        rewrite E in Hm. exact Hm.
      - unfold answers in Hanswer.
        destruct (price_api env _ _) as [| |[data|]]; try discriminate.
        now apply store_prices_delivers. }
    assert (Hfresh : asking_for id (upstream env ids2
                                      (later g1 ticks2 draws2)) = O).
    { apply upstream_not_missing. simpl. unfold is_missing.
      destruct Hstamp as (e & -> & ->).
      fold now2. apply Z.ltb_ge. unfold PRICE_CACHE_TTL. lia. }
    rewrite Hfresh. split; [apply upstream_at_most_one|]. intros _.
    split; [exact Hstamp|]. split; [reflexivity|].
    intros Hkept. rewrite (fetchTokenPrices_price _ _ _ _ Hin2).
    fold g2. f_equal. unfold cached_price. f_equal.
    destruct Hkept as [Hnone | Hno].
    + unfold g2.
      now rewrite (fetchTokenPrices_unasked env ids2
                     (later g1 ticks2 draws2) Hnone).
    + unfold g2.
      now rewrite (fetchTokenPrices_unanswered env ids2
                     (later g1 ticks2 draws2) id Hno).
  - rewrite (upstream_not_missing env ids1 g id Hmiss), Nat.add_0_r.
    split; [apply upstream_at_most_one | discriminate].
Qed.

End PriceCacheFacts.

(* ===================================================================== *)
(** * The per-chain fetchers *)
(* ===================================================================== *)

Section FetcherFacts.
Import Chain.
Context {num : Type} `{JsNumber num}.
Implicit Types (env : Env num) (g : Global num) (P : WalletStats num -> Prop).

(** Each fetcher returns the object it has built, from the [try] block or
    from the handler. *)
Lemma try_return_stats_returns (body : Try num unit) f :
  fst (try_return_stats body f) = Returned (stats (snd (body f))).
Proof. unfold try_return_stats. now destruct (body f). Qed.

Lemma fetchBTCStats_returns env address (g : Global num) :
  exists s, fst (fetchBTCStats env address g) = Returned s.
Proof.
  unfold fetchBTCStats. destruct (new_stats env g) as [s0 g0].
  destruct (isValidAddress address BTC); simpl; [|now exists s0].
  rewrite try_return_stats_returns. now eexists.
Qed.

Lemma fetchEVMStats_returns env address chain (g : Global num) :
  exists s, fst (fetchEVMStats env address chain g) = Returned s.
Proof.
  unfold fetchEVMStats. destruct (new_stats env g) as [s0 g0].
  destruct (isValidAddress address chain); simpl; [|now exists s0].
  rewrite try_return_stats_returns. now eexists.
Qed.

Lemma fetchSolanaStats_returns env address (g : Global num) :
  exists s, fst (fetchSolanaStats env address g) = Returned s.
Proof.
  unfold fetchSolanaStats. destruct (new_stats env g) as [s0 g0].
  destruct (isValidAddress address SOL); simpl; [|now exists s0].
  rewrite try_return_stats_returns. now eexists.
Qed.

Lemma keeps_ret P {A} (a : A) : keeps P (ret a).
Proof. intros f Hf. exact Hf. Qed.

Lemma keeps_throw P {A} : keeps P (@throw num A).
Proof. intros f Hf. exact Hf. Qed.

Lemma keeps_bind P {A B} (m : Try num A) (k : A -> Try num B) :
  keeps P m -> (forall a, keeps P (k a)) -> keeps P (bind m k).
Proof.
  intros Hm Hk f Hf. unfold bind. specialize (Hm f Hf).
  destruct (m f) as [[a|] f']; simpl in *; [now apply Hk | exact Hm].
Qed.

Lemma keeps_in_global P {A} (step : Global num -> A * Global num) :
  keeps P (in_global step).
Proof.
  intros f Hf. unfold in_global. now destruct (step (global f)).
Qed.

Lemma keeps_await_json P {B} (r : Response B) : keeps P (await_json (num:=num) r).
Proof. destruct r as [| |[b|]]; intros f Hf; exact Hf. Qed.

Lemma keeps_date_iso P x : keeps P (date_iso x).
Proof. unfold date_iso. destruct (num_time x); intros f Hf; exact Hf. Qed.

Lemma keeps_update_stats (P : WalletStats num -> Prop) change :
  (forall s, P s -> P (change s)) -> keeps P (update_stats change).
Proof. intros Hc f Hf. now apply Hc. Qed.


Lemma keeps_failed P {A B} (r : Response B) (k : option B -> Try num A) :
  failed r = true -> keeps P (k None) -> keeps P (bind (await_json r) k).
Proof.
  intros Hr Hk. destruct r as [| |b]; try discriminate.
  - intros f Hf. exact Hf.
  - exact Hk.
Qed.

Lemma quiet_ret {A} (a : A) : quiet (ret (num:=num) a).
Proof. intros f. now exists a, f. Qed.

Lemma quiet_in_global {A} (step : Global num -> A * Global num) :
  quiet (in_global step).
Proof.
  intros f. unfold in_global. destruct (step (global f)) as [a g'].
  now eexists _, _.
Qed.

Lemma quiet_bind {A B} (m : Try num A) (k : A -> Try num B) :
  quiet m -> (forall a, quiet (k a)) -> quiet (bind m k).
Proof.
  intros Hm Hk f. destruct (Hm f) as (a & f' & E & Hs).
  destruct (Hk a f') as (b & f'' & E' & Hs').
  exists b, f''. unfold bind. rewrite E, E'. split; congruence.
Qed.

Lemma bind_some {A B} (m : Try num A) (k : A -> Try num B) f a f' :
  m f = (Some a, f') -> bind m k f = k a f'.
Proof. intros E. unfold bind. now rewrite E. Qed.

Lemma bind_ret {A B} (a : A) (k : A -> Try num B) f : bind (ret a) k f = k a f.
Proof. reflexivity. Qed.

Lemma bind_update_stats {B} change (k : unit -> Try num B) f :
  bind (update_stats change) k f
  = k tt {| stats := change (stats f); global := global f |}.
Proof. reflexivity. Qed.

Lemma bind_await_ok {A B} (body : A) (k : option A -> Try num B) f :
  bind (await_json (HttpOk (Some body))) k f = k (Some body) f.
Proof. reflexivity. Qed.

(** The block that records the latest signature writes the placeholder
    count and the transaction together. *)
Lemma count_with_latest (d : string) (time : Try num num)
    (tx : num -> LatestTransaction num) :
  quiet time ->
  keeps (fun s => firstTxDate s = d /\ txCount s = placeholder_count s)
    (bind (update_stats (set_txCount (num_of_Z 100)))
       (fun _ => bind time
          (fun t => update_stats (set_latestTransaction (tx t))))).
Proof.
  intros Htime f [Hd _].
  set (f1 := {| stats := set_txCount (num_of_Z 100) (stats f);
                global := global f |}).
  destruct (Htime f1) as (t & f2 & E & Hs).
  rewrite bind_update_stats. fold f1.
  rewrite (bind_some time _ f1 t f2 E).
  unfold update_stats. simpl. rewrite Hs. now split.
Qed.

Lemma sol_body_defaults env address (d : string) :
  keeps (fun s => firstTxDate s = d /\ txCount s = placeholder_count s)
        (sol_body env address).
Proof.
  unfold sol_body.
  apply keeps_bind; [apply keeps_await_json | intros balRes].
  apply keeps_bind; [|intros _].
  { destruct balRes; [|apply keeps_ret].
    apply keeps_update_stats. intros st Hst. exact Hst. }
  apply keeps_bind; [apply keeps_in_global | intros prices].
  apply keeps_bind; [apply keeps_await_json | intros sigRes].
  apply keeps_bind; [|intros _].
  { destruct sigRes as [sigData|]; [|apply keeps_ret].
    destruct (sol_signatures sigData) as [[|tx rest]|]; try apply keeps_ret.
    apply count_with_latest.
    destruct (blockTime tx) as [t|]; [destruct (num_truthy t)|].
    - apply quiet_ret.
    - apply quiet_bind; [apply quiet_in_global | intros a; apply quiet_ret].
    - apply quiet_bind; [apply quiet_in_global | intros a; apply quiet_ret]. }
  apply keeps_bind; [apply keeps_await_json | intros tokenRes].
  destruct tokenRes as [tokenData|]; [|apply keeps_ret].
  destruct (sol_token_accounts tokenData); [|apply keeps_ret].
  apply keeps_update_stats. intros st Hst. exact Hst.
Qed.

(** C4, amended. [fetchSolanaStats] leaves the first-transaction date at
    its default, the reading of the clock taken when the object is built.
    The transaction count is not computed from the responses either: it is
    the fixed 100 when a latest signature was found and stays 0 otherwise. *)
Theorem fetchSolanaStats_defaults env (address : string) (g : Global num)
    (s : WalletStats num) :
  fst (fetchSolanaStats env address g) = Returned s ->
  firstTxDate s = firstTxDate (fst (new_stats env g))
  /\ txCount s = placeholder_count s.
Proof.
  unfold fetchSolanaStats. destruct (new_stats env g) as [s0 g0] eqn:E.
  assert (H0 : firstTxDate s0 = firstTxDate s0
               /\ txCount s0 = placeholder_count s0).
  { unfold new_stats in E. simpl in E. injection E as <- _.
    split; reflexivity. }
  simpl fst.
  destruct (isValidAddress address SOL); simpl.
  - rewrite try_return_stats_returns. intros [= <-].
    now apply (sol_body_defaults env address (firstTxDate s0)).
  - intros [= <-]. exact H0.
Qed.


(** ** Failed requests *)

Lemma btc_body_failed env address (s0 : WalletStats num) :
  failed (btc_address env) = true ->
  keeps (fun s => s = s0) (btc_body env address).
Proof.
  intros Hr. unfold btc_body. apply keeps_failed; [exact Hr | apply keeps_ret].
Qed.

Lemma evm_body_failed env address chain (s0 : WalletStats num) :
  failed (evm_balance env) && failed (evm_latest env)
    && failed (evm_first env) = true ->
  keeps (fun s => s = s0) (evm_body env address chain).
Proof.
  intros Hr. apply andb_true_iff in Hr as [Hr Hfirst].
  apply andb_true_iff in Hr as [Hbal Hlatest]. unfold evm_body.
  apply keeps_failed; [exact Hbal|].
  apply keeps_bind; [apply keeps_ret | intros _].
  apply keeps_bind; [apply keeps_in_global | intros prices].
  apply keeps_failed; [exact Hlatest|].
  apply keeps_bind; [apply keeps_ret | intros _].
  apply keeps_failed; [exact Hfirst | apply keeps_ret].
Qed.

Lemma sol_body_failed env address (s0 : WalletStats num) :
  failed (sol_balance env) && failed (sol_signatures_for_address env)
    && failed (sol_tokens env) = true ->
  keeps (fun s => s = s0) (sol_body env address).
Proof.
  intros Hr. apply andb_true_iff in Hr as [Hr Htokens].
  apply andb_true_iff in Hr as [Hbal Hsigs]. unfold sol_body.
  apply keeps_failed; [exact Hbal|].
  apply keeps_bind; [apply keeps_ret | intros _].
  apply keeps_bind; [apply keeps_in_global | intros prices].
  apply keeps_failed; [exact Hsigs|].
  apply keeps_bind; [apply keeps_ret | intros _].
  apply keeps_failed; [exact Htokens | apply keeps_ret].
Qed.

(** C2, amended. Each per-chain fetcher returns a stats object and never
    throws.  It returns the initial object (balance 0, count 0, no tokens,
    no latest transaction) when the address fails validation, and when
    none of its requests is answered with an ok response; for
    [fetchBTCStats] the failure of the first request is enough.  A request
    that fails after another was answered leaves what was written: when
    the transaction list of [fetchBTCStats] fails, the balance and the
    count of the address summary are returned. *)
Theorem fetchers_return_stats env (address : string) (chain : Blockchain)
    (g : Global num) :
  let initial := fst (new_stats env g) in
  ((exists s, fst (fetchBTCStats env address g) = Returned s)
   /\ (isValidAddress address BTC = false \/ failed (btc_address env) = true ->
       fst (fetchBTCStats env address g) = Returned initial)
   /\ (forall data,
         isValidAddress address BTC = true ->
         btc_address env = HttpOk (Some data) ->
         failed (btc_txs env) = true ->
         fst (fetchBTCStats env address g)
         = Returned
             (set_txCount (counted data)
                (set_balance
                   (num_div (num_sub (funded data) (spent data)) satoshi)
                   initial))))
  /\ ((exists s, fst (fetchEVMStats env address chain g) = Returned s)
      /\ (isValidAddress address chain = false
          \/ failed (evm_balance env) && failed (evm_latest env)
               && failed (evm_first env) = true ->
          fst (fetchEVMStats env address chain g) = Returned initial))
  /\ ((exists s, fst (fetchSolanaStats env address g) = Returned s)
      /\ (isValidAddress address SOL = false
          \/ failed (sol_balance env)
               && failed (sol_signatures_for_address env)
               && failed (sol_tokens env) = true ->
          fst (fetchSolanaStats env address g) = Returned initial)).
Proof.
  intros initial.
  split; [split; [apply fetchBTCStats_returns|split]
         |split; split; [apply fetchEVMStats_returns| |
                         apply fetchSolanaStats_returns|]].
  - unfold fetchBTCStats, initial. destruct (new_stats env g) as [s0 g0].
    destruct (isValidAddress address BTC); simpl; [|reflexivity].
    intros [Hv | Hr]; [discriminate|].
    rewrite try_return_stats_returns. f_equal.
    now apply (btc_body_failed env address s0 Hr).
  - intros data Hvalid Haddr Htxs.
    unfold fetchBTCStats, initial. destruct (new_stats env g) as [s0 g0].
    rewrite Hvalid. simpl negb. cbv iota.
    rewrite try_return_stats_returns. unfold btc_body. rewrite Haddr.
    rewrite bind_await_ok, !bind_update_stats.
    destruct (btc_txs env) as [| |body]; [reflexivity | reflexivity|].
    discriminate Htxs.
  - unfold fetchEVMStats, initial. destruct (new_stats env g) as [s0 g0].
    destruct (isValidAddress address chain); simpl; [|reflexivity].
    intros [Hv | Hr]; [discriminate|].
    rewrite try_return_stats_returns. f_equal.
    now apply (evm_body_failed env address chain s0 Hr).
  - unfold fetchSolanaStats, initial. destruct (new_stats env g) as [s0 g0].
    destruct (isValidAddress address SOL); simpl; [|reflexivity].
    intros [Hv | Hr]; [discriminate|].
    rewrite try_return_stats_returns. f_equal.
    now apply (sol_body_failed env address s0 Hr).
Qed.

(** ** The latest Bitcoin transaction *)

Lemma received_total address (outs : list (TxOut num)) :
  received address outs = total (map (@value num) (List.filter (pays address) outs)).
Proof.
  unfold received, total. generalize (num_of_Z (num:=num) 0).
  induction outs as [|out outs IH]; intros acc; simpl; [reflexivity|].
  destruct (pays address out); simpl; apply IH.
Qed.

Lemma btc_latest_receive env address txData (lastTx : BtcTx num) f :
  existsb (pays address) (vout lastTx) = true ->
  exists t,
    latestTransaction (stats (snd (btc_latest env address txData lastTx f)))
      = Some t
    /\ type t = receive
    /\ amount t = num_div (received address (vout lastTx)) satoshi
    /\ to t = address.
Proof.
  intros Hrec. unfold btc_latest. cbv zeta. rewrite Hrec.
  rewrite bind_ret.
  destruct (fetchTokenPrices env ["bitcoin"] (global f)) as [prices g'] eqn:E.
  rewrite (bind_some (in_global _) _ f prices
             {| stats := stats f; global := g' |})
    by (unfold in_global; now rewrite E).
  set (t := {| hash := txid lastTx; type := receive |}).
  rewrite bind_update_stats.
  apply (keeps_bind (fun s => exists t, latestTransaction s = Some t
                        /\ type t = receive
                        /\ amount t = num_div (received address (vout lastTx))
                                               satoshi
                        /\ to t = address)).
  - apply keeps_date_iso.
  - intros first. apply keeps_update_stats. intros st Hst. exact Hst.
  - exists t. repeat split.
Qed.

(** C10. When the latest transaction fetched for a Bitcoin address has an
    output that pays the address, [fetchBTCStats] reports it as a
    [receive] to the address whose amount is the sum of the outputs that
    pay the address, in bitcoin; whether the address is among the inputs
    is not looked at, so a spend with change back to the address and a
    transfer to oneself are reported as receives too. *)
Theorem fetchBTCStats_receive env (address : string) (g : Global num)
    (data : AddressJson num) (lastTx : BtcTx num) (older : list (BtcTx num)) :
  isValidAddress address BTC = true ->
  btc_address env = HttpOk (Some data) ->
  btc_txs env = HttpOk (Some (TxsArray (lastTx :: older))) ->
  existsb (pays address) (vout lastTx) = true ->
  exists s t,
    fst (fetchBTCStats env address g) = Returned s
    /\ latestTransaction s = Some t
    /\ type t = receive
    /\ amount t
       = num_div (total (map (@value num)
                          (List.filter (pays address) (vout lastTx))))
                 satoshi
    /\ to t = address.
Proof.
  intros Hvalid Haddr Htxs Hrec.
  unfold fetchBTCStats. destruct (new_stats env g) as [s0 g0].
  rewrite Hvalid. simpl negb. cbv iota.
  rewrite try_return_stats_returns. unfold btc_body. rewrite Haddr, Htxs.
  rewrite bind_await_ok, !bind_update_stats, bind_await_ok.
  match goal with
  | |- context [btc_latest ?e ?a ?l ?x ?f] =>
      destruct (btc_latest_receive e a l x f Hrec)
        as (t & Ht & Htype & Hamount & Hto)
  end.
  eexists _, t. split; [reflexivity|].
  rewrite <- received_total. auto.
Qed.

End FetcherFacts.

(* ===================================================================== *)
(** * The simulated history *)
(* ===================================================================== *)

Section DateFacts.
Import Chain.

Lemma digit_not_T n : Ascii.eqb (digit n) "T" = false.
Proof.
  unfold digit.
  assert (Hk : (Z.to_nat (n mod 10) < 10)%nat).
  { pose proof (Z.mod_pos_bound n 10 ltac:(lia)). lia. }
  destruct (Z.to_nat (n mod 10)) as [|k]; [reflexivity|].
  do 9 (destruct k as [|k]; [reflexivity|]). lia.
Qed.

Lemma iso_date_T_free day : T_free (iso_date day) = true.
Proof.
  unfold iso_date. destruct (civil_from_days day) as [[y m] d].
  unfold T_free, iso_year.
  destruct ((0 <=? y) && (y <=? 9999)); [|destruct (y <? 0)];
    cbn [pad6 pad4 pad3 pad2 app forallb]; rewrite ?forallb_app;
    cbn [pad6 pad4 pad3 pad2 app forallb]; rewrite !digit_not_T; reflexivity.
Qed.

Lemma before_T_prefix (l rest : list ascii) :
  T_free l = true ->
  before_T (string_of_list_ascii (l ++ "T"%char :: rest))
  = string_of_list_ascii l.
Proof.
  induction l as [|c l IH]; intros Hl; simpl in *; [reflexivity|].
  apply andb_true_iff in Hl as [Hc Hl].
  destruct (Ascii.eqb c "T"); [discriminate|]. now rewrite IH.
Qed.

(** The date part of an instant is the date of its day. *)
Lemma before_T_toISOString ms :
  before_T (toISOString ms) = string_of_list_ascii (iso_date (ms / ms_per_day)).
Proof. unfold toISOString. apply before_T_prefix, iso_date_T_free. Qed.

Lemma day_of_days_ago now (i : nat) :
  (now - Z.of_nat i * ms_per_day) / ms_per_day = now / ms_per_day - Z.of_nat i.
Proof.
  replace (now - Z.of_nat i * ms_per_day)
    with (now + (- Z.of_nat i) * ms_per_day) by lia.
  rewrite Z.div_add by (unfold ms_per_day; lia). lia.
Qed.

End DateFacts.

Section HistoryFacts.
Import Chain.
Context {num : Type} `{JsNumber num}.
Implicit Types (env : Env num) (g : Global num) (h : list (HistoryPoint num)).

Lemma simulate_length env n : forall i v h g,
  length (fst (simulate env n i v h g)) = (n + length h)%nat.
Proof.
  induction n as [|n IH]; intros i v h g; simpl; [reflexivity|].
  rewrite IH. simpl. lia.
Qed.

Lemma simulate_priceCache env n : forall i v h g,
  priceCache (snd (simulate env n i v h g)) = priceCache g.
Proof.
  induction n as [|n IH]; intros i v h g; simpl; [reflexivity|].
  now rewrite IH.
Qed.

(** While the clock stays within one day, each iteration dates its point
    one day before the previous one. *)
Lemma simulate_consecutive env today n : forall i v h g,
  i = length h -> consecutive_days today h ->
  (forall k, (k < n)%nat -> clock env (ticks g + k) / ms_per_day = today) ->
  consecutive_days today (fst (simulate env n i v h g)).
Proof.
  induction n as [|n IH]; intros i v h g Hi Hh Hclock; simpl; [exact Hh|].
  apply IH.
  - simpl. now rewrite Hi.
  - intros k p Hk. destruct k as [|k]; simpl in Hk.
    + injection Hk as <-. simpl.
      rewrite before_T_toISOString, day_of_days_ago.
      rewrite <- (Hclock O) by lia. rewrite Nat.add_0_r.
      subst i. now rewrite Nat.sub_0_r, Z.add_0_r.
    + rewrite (Hh k p Hk). simpl. apply lookup_lt_Some in Hk.
      do 2 f_equal. lia.
  - intros k Hk. simpl. rewrite <- (Hclock (S k)) by lia. do 2 f_equal. lia.
Qed.

Lemma set_last_value_some h v :
  h <> [] ->
  exists p, h !! (length h - 1)%nat = Some p
    /\ set_last_value h v
       = Some (<[(length h - 1)%nat :=
                   {| date := date p; point_value := v |}]> h).
Proof.
  intros Hne. unfold set_last_value.
  destruct (h !! (length h - 1)%nat) as [p|] eqn:E; [now exists p|].
  apply lookup_ge_None in E. destruct h; [congruence | simpl in E; lia].
Qed.

Lemma set_last_value_consecutive today h h' v :
  set_last_value h v = Some h' ->
  consecutive_days today h -> consecutive_days today h'.
Proof.
  unfold set_last_value.
  destruct (h !! (length h - 1)%nat) as [p|] eqn:E; [|discriminate].
  intros [= <-] Hh k q Hk. rewrite length_insert.
  destruct (decide (k = length h - 1)%nat) as [->|Hne].
  - rewrite list_lookup_insert_eq in Hk by (apply lookup_lt_Some in E; lia).
    injection Hk as <-. simpl. exact (Hh _ _ E).
  - rewrite list_lookup_insert_ne in Hk by congruence. exact (Hh _ _ Hk).
Qed.

(** What [fetchWalletStats] returns, for every address, chain and world:
    a history of 365 points flagged as simulated, whose last point carries
    the balance times the cached price of the chain's coin; and, when all
    the readings of the clock fall on the same day [today], dated day by
    day up to [today]. *)
Lemma fetchWalletStats_history env (address : string) (chain : Blockchain) g :
  exists s,
    fst (fetchWalletStats env address chain g) = Returned s
    /\ length (history s) = 365%nat
    /\ isSimulatedHistory s = Some true
    /\ (exists p, history s !! 364%nat = Some p
          /\ point_value p
             = num_mul (balance s)
                 (getExchangeRate
                    (snd (fetchWalletStats env address chain g)) chain))
    /\ (forall today, (forall n, clock env n / ms_per_day = today) ->
          consecutive_days today (history s)).
Proof.
  unfold fetchWalletStats.
  assert (Hfetched : exists s0 g0,
    match chain with
    | BTC => fetchBTCStats env address g
    | SOL => fetchSolanaStats env address g
    | _ => fetchEVMStats env address chain g
    end = (Returned s0, g0)).
  { destruct chain;
      [destruct (fetchBTCStats_returns env address g) as [s0 E];
       destruct (fetchBTCStats env address g) as [c g0]
      |destruct (fetchEVMStats_returns env address ETH g) as [s0 E];
       destruct (fetchEVMStats env address ETH g) as [c g0]
      |destruct (fetchSolanaStats_returns env address g) as [s0 E];
       destruct (fetchSolanaStats env address g) as [c g0]
      |destruct (fetchEVMStats_returns env address BNB g) as [s0 E];
       destruct (fetchEVMStats env address BNB g) as [c g0]];
      simpl in E; subst c; now exists s0, g0. }
  destruct Hfetched as (s0 & g0 & ->).
  set (current := num_mul (balance s0)
                    (cached_price (priceCache g0) (getCoingeckoId chain))).
  pose proof (simulate_length env days 0 current [] g0) as Hlen.
  pose proof (simulate_priceCache env days 0 current [] g0) as Hcache.
  pose proof (fun today => simulate_consecutive env today days 0 current [] g0
                eq_refl) as Hdates.
  destruct (simulate env days 0 current [] g0) as [h g1].
  simpl in Hlen, Hcache, Hdates.
  destruct (set_last_value_some h current) as (p & Hp & E).
  { intros ->. discriminate. }
  pose proof (set_last_value_consecutive) as Hset.
  rewrite E. rewrite Hlen in *. simpl.
  eexists. split; [reflexivity|]. simpl.
  split; [now rewrite length_insert|]. split; [reflexivity|]. split.
  - eexists. split.
    + apply list_lookup_insert_eq. lia.
    + simpl. unfold getExchangeRate. now rewrite Hcache.
  - intros today Hclock. apply (Hset today h _ current).
    + exact E.
    + apply Hdates; [|intros k _; apply Hclock].
      intros k q Hk. destruct k; discriminate.
Qed.

End HistoryFacts.

(* ===================================================================== *)
(** * The profile store *)
(* ===================================================================== *)

Section StorageFacts.
Import Storage.
Context {num : Type} `{JsNumber num}.
Implicit Types (db : Supabase num) (profile : ProfileFields num).

Lemma getAllProfiles_returns db :
  exists l, fst (getAllProfiles db) = Returned l.
Proof.
  unfold getAllProfiles.
  destruct (select_all db) as [reason | data [error|]]; now eexists.
Qed.

Lemma getProfileByUsername_returns db name :
  exists o, fst (getProfileByUsername db name) = Returned o.
Proof.
  unfold getProfileByUsername.
  destruct (select_by_username db name) as [reason | [data|] [error|]];
    now eexists.
Qed.

(** C6, amended. On a storage error [getAllProfiles] logs and returns the
    empty list, and neither it nor [getProfileByUsername] ever throws.
    [createProfile] is the operation whose failure reaches the caller: on
    a storage error it throws an [Error] that carries the message of the
    storage error when that message is not empty and [Failed to create
    profile] when it is, and a rejection of the insertion is passed on. *)
Theorem profile_store_failures db (name random36 : string) (now : Z) profile :
  (storage_error (select_all db) = true ->
   fst (getAllProfiles db) = Returned [] /\ snd (getAllProfiles db) <> [])
  /\ (exists l, fst (getAllProfiles db) = Returned l)
  /\ (exists o, fst (getProfileByUsername db name) = Returned o)
  /\ (forall data error,
        insert db (newProfile random36 now profile)
          = Resolves data (Some error) ->
        fst (createProfile db random36 now profile)
          = Threw (if str_truthy (message error) then message error
                   else "Failed to create profile"))
  /\ (forall reason,
        insert db (newProfile random36 now profile) = Rejects reason ->
        fst (createProfile db random36 now profile) = Threw reason).
Proof.
  split; [|split; [|split; [|split]]].
  - unfold getAllProfiles.
    destruct (select_all db) as [reason | data [error|]]; simpl;
      intros Herror; try discriminate Herror; split;
      (reflexivity || discriminate).
  - apply getAllProfiles_returns.
  - apply getProfileByUsername_returns.
  - intros data error E. unfold createProfile. rewrite E.
    destruct data; reflexivity.
  - intros reason E. unfold createProfile. rewrite E. reflexivity.
Qed.





End StorageFacts.

(* ===================================================================== *)
(** * The wallet bridge *)
(* ===================================================================== *)

Section WalletFacts.
Import Wallet.
Context {num : Type} `{JsNumber num}.

(** C7. [signSolana] checks no signature against the address: whenever
    the wallet's [signMessage] resolves with a value whose [signature]
    field is truthy it returns true, and the address it is given plays no
    part in the result. *)
Theorem signSolana_accepts_any_signature (window : Window num)
    (provider : SolanaProvider num) (address message : string)
    (signedMessage signature : JsValue num) :
  solana_provider window = Some provider ->
  signMessage provider (encode message) "utf8" = Resolved signedMessage ->
  property signedMessage "signature" = Some signature ->
  truthy signature = true ->
  signSolana window address message = Returned true
  /\ forall address', signSolana window address' message = Returned true.
Proof.
  intros Hprovider Hsigned Hfield Htruthy.
  assert (E : forall a, signSolana window a message = Returned true).
  { intros a. unfold signSolana.
    now rewrite Hprovider, Hsigned, Hfield, Htruthy. }
  split; [apply E | exact E].
Qed.

(** C8. When the signer's [signMessage] call succeeds and the address
    recovered from the signature is not the expected address, up to the
    case of the letters, [signEVM] returns false and does not throw. *)
Theorem signEVM_mismatch_returns_false
    (verifyMessage : string -> string -> option string) (window : Window num)
    (address message signature recoveredAddress : string) :
  In (Signed message signature)
     (snd (signEVM verifyMessage window address message)) ->
  verifyMessage message signature = Some recoveredAddress ->
  toLowerCase recoveredAddress <> toLowerCase address ->
  fst (signEVM verifyMessage window address message) = Returned false.
Proof.
  intros Hsigned Hrecovered Hdiffer. unfold signEVM, signEVM_try in *.
  destruct (ethereum window) as [eth|]; [|now destruct Hsigned].
  destruct (getSigner eth) as [signer|]; [|now destruct Hsigned].
  destruct (getAddress signer) as [signerAddress|]; [|now destruct Hsigned].
  destruct (negb _); [now destruct Hsigned|].
  destruct (signer_signMessage signer message) as [signature'|];
    [|now destruct Hsigned].
  assert (signature' = signature) as ->.
  { destruct (verifyMessage message signature');
      simpl in Hsigned; destruct Hsigned as [[= <-]|[]]; reflexivity. }
  rewrite Hrecovered. simpl. f_equal.
  apply String.eqb_neq. exact Hdiffer.
Qed.

End WalletFacts.

(* ===================================================================== *)
(** * The statements on concrete worlds *)
(* ===================================================================== *)

Section Instances.
Import Chain Examples.

(** C1. The dates of the history are not always one day apart.
    [fetchWalletStats] reads the clock in every iteration of the loop, not
    once: in the world [midnight], where midnight UTC passes after the
    first iteration, the call returns 365 points of which the two most
    recent carry the same date. *)
Theorem fetchWalletStats_repeats_date_at_midnight :
  let result := fst (fetchWalletStats midnight btc_wallet BTC start) in
  (exists s, result = Returned s)
  /\ length (dates_of result) = 365%nat
  /\ skipn 363 (dates_of result) = ["1970-01-01"; "1970-01-01"].
Proof.
  split; [|split].
  - destruct (fetchWalletStats_history midnight btc_wallet BTC start)
      as (s & E & _).
    now exists s.
  - vm_compute. reflexivity.
  - vm_compute. reflexivity.
Qed.

(** With every request failing at the network the three fetchers return
    the initial object. *)
Lemma fetchers_return_stats_witness :
  fst (fetchBTCStats offline btc_wallet start)
    = Returned (fst (new_stats offline start))
  /\ fst (fetchEVMStats offline btc_wallet ETH start)
     = Returned (fst (new_stats offline start))
  /\ fst (fetchSolanaStats offline btc_wallet start)
     = Returned (fst (new_stats offline start)).
Proof.
  destruct (fetchers_return_stats offline btc_wallet ETH start)
    as ((_ & Hbtc & _) & (_ & Hevm) & (_ & Hsol)).
  split; [|split].
  - apply Hbtc. right. reflexivity.
  - apply Hevm. left. reflexivity.
  - apply Hsol. right. reflexivity.
Defined.

(** C2 as stated fails: the transaction list fails at the network after
    the address summary was read, and the stats returned carry the
    balance of one bitcoin. *)
Lemma fetchBTCStats_keeps_balance_on_failure :
  btc_txs txs_unreachable = NetworkError
  /\ fst (fetchBTCStats txs_unreachable btc_wallet start)
     <> Returned (fst (new_stats txs_unreachable start)).
Proof.
  split; [reflexivity|]. intros E.
  apply (f_equal (fun c => match c with
                           | Returned s => balance s
                           | Threw _ => QNaN
                           end)) in E.
  vm_compute in E. discriminate E.
Qed.

(** Two calls thirty seconds apart, the first one answered: one request,
    and the second call returns the price the first one stored. With a
    body whose first entry is [null], nothing is cached for bitcoin. *)
Lemma fetchTokenPrices_reuses_price_witness :
  (asking_for "bitcoin"
     (requests_since start
        (snd (fetchTokenPrices priced ["bitcoin"]
                (later (snd (fetchTokenPrices priced ["bitcoin"] start))
                       30 0)))) <= 1)%nat
  /\ fst (fetchTokenPrices priced ["bitcoin"]
            (later (snd (fetchTokenPrices priced ["bitcoin"] start)) 30 0))
       !! "bitcoin" = Some (num_of_Z 50000)
  /\ priceCache (snd (fetchTokenPrices MoreExamples.null_first ["bitcoin"]
                        start)) !! "bitcoin" = None.
Proof.
  destruct (fetchTokenPrices_reuses_price priced ["bitcoin"] ["bitcoin"]
              "bitcoin" start 30 0) as [Hreuse _];
    [now left | now left |].
  destruct Hreuse as [Hcount Hsecond];
    [vm_compute; discriminate | intros _; reflexivity |].
  destruct (Hsecond eq_refl) as (_ & _ & Hprice).
  destruct (fetchTokenPrices_reuses_price MoreExamples.null_first
              ["bitcoin"] ["bitcoin"] "bitcoin" start 30 0)
    as [_ Hkept]; [now left | now left |].
  split; [exact Hcount|]. split.
  - rewrite Hprice by (left; reflexivity). reflexivity.
  - rewrite Hkept by reflexivity. reflexivity.
Defined.

(** C3 as stated fails. The first request fails at the network, nothing
    is cached, and the second call, one second later, sends the same
    request again. And when the first request is answered, a second call
    that also asks for another coin sends a second request, for that
    other coin alone. *)
Lemma fetchTokenPrices_refetches_after_failure :
  (let g1 := snd (fetchTokenPrices offline ["bitcoin"] start) in
   let g2 := snd (fetchTokenPrices offline ["bitcoin"] (later g1 1 0)) in
   Z.abs (clock offline 1 - clock offline 0) <= 60 * 1000
   /\ requests_since start g2 = [["bitcoin"]; ["bitcoin"]]
   /\ ~ (length (requests_since start g2) <= 1)%nat)
  /\ (let g1 := snd (fetchTokenPrices priced ["bitcoin"] start) in
      let g2 := snd (fetchTokenPrices priced ["bitcoin"; "ethereum"]
                       (later g1 1 0)) in
      requests_since start g2 = [["ethereum"]; ["bitcoin"]]
      /\ ~ (length (requests_since start g2) <= 1)%nat).
Proof.
  split.
  - split; [vm_compute; discriminate|]. split; [reflexivity|].
    vm_compute. lia.
  - split; [reflexivity|]. vm_compute. lia.
Qed.

(** A wallet with one signature on record. *)
Lemma fetchSolanaStats_defaults_witness :
  exists s,
    fst (fetchSolanaStats sol_active sol_wallet start) = Returned s
    /\ firstTxDate s = firstTxDate (fst (new_stats sol_active start))
    /\ txCount s = placeholder_count s.
Proof.
  destruct (fst (fetchSolanaStats sol_active sol_wallet start)) as [s|] eqn:E;
    [|vm_compute in E; discriminate E].
  exists s. split; [reflexivity|].
  exact (fetchSolanaStats_defaults sol_active sol_wallet start s E).
Defined.

(** C4 as stated fails: with one signature on record the transaction
    count returned is 100, not the initial 0. *)
Lemma fetchSolanaStats_counts_100 :
  exists s,
    fst (fetchSolanaStats sol_active sol_wallet start) = Returned s
    /\ txCount s = num_of_Z 100
    /\ txCount s <> txCount (fst (new_stats sol_active start)).
Proof.
  eexists. split; [vm_compute; reflexivity|].
  split; [reflexivity | discriminate].
Qed.

(** A spend with change back to the wallet is reported as a receive of
    the change. *)
Lemma fetchBTCStats_receive_witness :
  exists s t,
    fst (fetchBTCStats spending btc_wallet start) = Returned s
    /\ latestTransaction s = Some t
    /\ type t = receive
    /\ amount t
       = num_div (total (map (@value qnum)
                          (List.filter (pays btc_wallet)
                                       (vout spend_with_change))))
                 satoshi
    /\ to t = btc_wallet.
Proof.
  apply (fetchBTCStats_receive spending btc_wallet start one_bitcoin
           spend_with_change []); reflexivity.
Defined.

End Instances.

Section StoreInstances.
Import Storage Examples.

(** A store out of reach for reading, refusing the insertion with a
    message. *)
Lemma profile_store_failures_witness :
  (fst (getAllProfiles refusing) = Returned []
   /\ snd (getAllProfiles refusing) <> [])
  /\ fst (createProfile refusing "0.4fzyo82mvyr" 1700000000000 alice)
     = Threw "duplicate key value violates unique constraint".
Proof.
  destruct (profile_store_failures refusing "alice_1" "0.4fzyo82mvyr"
              1700000000000 alice) as (Hall & _ & _ & Hcreate & _).
  split.
  - apply Hall. reflexivity.
  - apply (Hcreate None duplicate_key). reflexivity.
Defined.

(** C6 as stated fails: the storage error has an empty message, and the
    error thrown carries [Failed to create profile] instead. *)
Lemma createProfile_replaces_empty_message :
  insert failing (newProfile "0.4fzyo82mvyr" 1700000000000 alice)
    = Resolves None (Some empty_error)
  /\ fst (createProfile failing "0.4fzyo82mvyr" 1700000000000 alice)
     = Threw "Failed to create profile"
  /\ fst (createProfile failing "0.4fzyo82mvyr" 1700000000000 alice)
     <> Threw (message empty_error).
Proof. split; [reflexivity|]. split; [reflexivity | discriminate]. Qed.



End StoreInstances.

Section WalletInstances.
Import Wallet Examples.

(** A wallet answering with bytes that are no signature is accepted. *)
Lemma signSolana_accepts_any_signature_witness :
  signSolana careless_window sol_wallet "Sign this message" = Returned true
  /\ forall address',
       signSolana careless_window address' "Sign this message" = Returned true.
Proof.
  apply (signSolana_accepts_any_signature careless_window careless sol_wallet
           "Sign this message"
           (JsObject [("signature", JsStr "not-a-signature")])
           (JsStr "not-a-signature")); reflexivity.
Defined.

(** A signature that recovers to another address. *)
Lemma signEVM_mismatch_returns_false_witness :
  fst (signEVM recovers_another mismatching_window claimed "Sign this message")
  = Returned false.
Proof.
  apply (signEVM_mismatch_returns_false recovers_another mismatching_window
           claimed "Sign this message" "0x1b" another).
  - left. reflexivity.
  - reflexivity.
  - vm_compute. discriminate.
Defined.

End WalletInstances.

(* ===================================================================== *)
(** * The display helpers *)
(* ===================================================================== *)

Section DisplayFacts.
Import Chain Display.

Lemma chars_length s : length (chars s) = String.length s.
Proof. induction s as [|c s IH]; simpl; [reflexivity | now rewrite IH]. Qed.

Lemma chars_append s1 s2 :
  chars (String.append s1 s2) = chars s1 ++ chars s2.
Proof. induction s1 as [|c s1 IH]; simpl; [reflexivity | now rewrite IH]. Qed.

Lemma chars_substring n m s :
  chars (substring n m s) = firstn m (skipn n (chars s)).
Proof.
  revert n m. induction s as [|c s IH]; intros n m.
  - destruct n, m; reflexivity.
  - destruct n as [|n].
    + destruct m as [|m]; [reflexivity|]. simpl. f_equal. apply (IH O m).
    + simpl. apply IH.
Qed.

Lemma chars_inj s1 s2 : chars s1 = chars s2 -> s1 = s2.
Proof.
  intros E. rewrite <- (string_of_list_ascii_of_string s1),
              <- (string_of_list_ascii_of_string s2).
  unfold chars in E. now rewrite E.
Qed.

Lemma chars_substring_from n s : chars (substring_from n s) = skipn n (chars s).
Proof.
  unfold substring_from. rewrite chars_substring, <- chars_length.
  apply firstn_all2. rewrite length_skipn. lia.
Qed.

(** The characters of a masked address of 10 characters or more. *)
Lemma chars_masked address :
  (10 <= String.length address)%nat ->
  chars (maskAddress address)
  = firstn 6 (chars address) ++ chars "..."
    ++ skipn (String.length address - 4) (chars address).
Proof.
  intros Hlen. unfold maskAddress.
  destruct (String.length address <? 10)%nat eqn:E;
    [apply Nat.ltb_lt in E; lia|].
  now rewrite !chars_append, chars_substring, chars_substring_from.
Qed.

(** X1. An address of fewer than 10 characters is shown as it is; a longer
    one is shown in 13 characters: its first six, three dots, its last
    four. *)
Theorem maskAddress_shape (address : string) :
  ((String.length address < 10)%nat -> maskAddress address = address)
  /\ ((10 <= String.length address)%nat ->
      String.length (maskAddress address) = 13%nat
      /\ substring 0 6 (maskAddress address) = substring 0 6 address
      /\ substring 6 3 (maskAddress address) = "..."
      /\ substring 9 4 (maskAddress address)
         = substring (String.length address - 4) 4 address).
Proof.
  split.
  - intros Hlen. unfold maskAddress.
    now apply Nat.ltb_lt in Hlen as ->.
  - intros Hlen. pose proof (chars_masked address Hlen) as E.
    pose proof (chars_length address) as Hl.
    assert (H6 : length (firstn 6 (chars address)) = 6%nat)
      by (rewrite length_firstn; lia).
    assert (H4 : length (skipn (String.length address - 4) (chars address))
                 = 4%nat) by (rewrite length_skipn; lia).
    repeat split.
    + rewrite <- chars_length, E, !length_app, H6, H4. reflexivity.
    + apply chars_inj. rewrite !chars_substring, E, !skipn_O.
      rewrite firstn_app, H6, Nat.sub_diag, firstn_O, app_nil_r.
      apply firstn_all2. lia.
    + apply chars_inj. rewrite chars_substring, E.
      rewrite skipn_app, H6, Nat.sub_diag.
      rewrite (skipn_all2 (firstn 6 (chars address))) by lia. reflexivity.
    + apply chars_inj. rewrite !chars_substring, E.
      rewrite skipn_app, H6.
      rewrite (skipn_all2 (firstn 6 (chars address))) by lia. simpl.
      now rewrite skipn_O.
Qed.

(** A 16-character name is shown by its ends. *)
Lemma maskAddress_shape_witness :
  String.length (maskAddress "0123456789abcdef") = 13%nat
  /\ substring 0 6 (maskAddress "0123456789abcdef") = "012345"
  /\ substring 6 3 (maskAddress "0123456789abcdef") = "..."
  /\ substring 9 4 (maskAddress "0123456789abcdef") = "cdef".
Proof.
  apply (proj2 (maskAddress_shape "0123456789abcdef")). simpl. lia.
Defined.

(** X2. Masking what is already masked changes nothing. *)
Theorem maskAddress_idempotent (address : string) :
  maskAddress (maskAddress address) = maskAddress address.
Proof.
  destruct (Nat.lt_ge_cases (String.length address) 10) as [Hshort | Hlong].
  - unfold maskAddress. apply Nat.ltb_lt in Hshort as E. now rewrite E, E.
  - pose proof (chars_masked address Hlong) as E.
    pose proof (chars_length address) as Hl.
    set (head := firstn 6 (chars address)) in *.
    set (tail := skipn (String.length address - 4) (chars address)) in *.
    assert (H6 : length head = 6%nat)
      by (unfold head; rewrite length_firstn; lia).
    assert (H4 : length tail = 4%nat)
      by (unfold tail; rewrite length_skipn; lia).
    assert (Hlen : String.length (maskAddress address) = 13%nat)
      by (rewrite <- chars_length, E, !length_app, H6, H4; reflexivity).
    apply chars_inj. rewrite (chars_masked (maskAddress address)) by lia.
    rewrite Hlen, E. simpl Nat.sub. f_equal.
    + rewrite firstn_app, H6, Nat.sub_diag, firstn_O, app_nil_r.
      apply firstn_all2. lia.
    + f_equal. rewrite skipn_app, H6.
      rewrite (skipn_all2 head) by lia. reflexivity.
Qed.

(** X3. The explorer link tells the address and the chain. *)
Theorem getExplorerLink_injective (address address' : string)
    (chain chain' : Blockchain) :
  getExplorerLink address chain = getExplorerLink address' chain' ->
  address = address' /\ chain = chain'.
Proof.
  intros E. apply (f_equal chars) in E.
  destruct chain, chain'; unfold getExplorerLink in E;
    rewrite !chars_append in E; simpl in E;
    first [discriminate E
          | injection E as E; apply chars_inj in E; now subst].
Qed.

Lemma getExplorerLink_injective_witness :
  Examples.btc_wallet = Examples.btc_wallet /\ BTC = BTC.
Proof.
  apply (getExplorerLink_injective Examples.btc_wallet Examples.btc_wallet
           BTC BTC).
  reflexivity.
Defined.

End DisplayFacts.

(* ===================================================================== *)
(** * More on the price cache *)
(* ===================================================================== *)

Section PriceCacheMore.
Import Chain.
Context {num : Type} `{JsNumber num}.
Implicit Types (env : Env num) (g : Global num).

(** X4. The result of [fetchTokenPrices] has an entry for each requested
    id and for no other: the price the cache holds after the call, and 0
    when it holds none. *)
Theorem fetchTokenPrices_answers_requested env (ids : list string) g
    (id : string) :
  let prices := fst (fetchTokenPrices env ids g) in
  let cache := priceCache (snd (fetchTokenPrices env ids g)) in
  (In id ids -> prices !! id = Some (cached_price cache id))
  /\ (~ In id ids -> prices !! id = None)
  /\ (cache !! id = None -> cached_price cache id = num_of_Z 0).
Proof.
  intros prices cache. unfold prices. rewrite fetchTokenPrices_prices.
  fold cache.
  destruct (fold_insert_lookup (cached_price cache) ids ∅ id) as [Hin Hout].
  split; [exact Hin|]. split.
  - intros Hn. rewrite Hout by exact Hn. apply lookup_empty.
  - intros E. unfold cached_price. now rewrite E.
Qed.

(** X5. A call sends at most one request upstream, and the request asks
    only for requested ids that the cache lacks or holds for more than 60
    seconds: nothing is sent when every requested id is fresh. *)
Theorem fetchTokenPrices_requests_missing env (ids : list string) g :
  exists new,
    sent (snd (fetchTokenPrices env ids g)) = new ++ sent g
    /\ (length new <= 1)%nat
    /\ (forall request id, In request new -> In id request ->
          In id ids
          /\ is_missing (priceCache g) (clock env (ticks g)) id = true)
    /\ ((forall id, In id ids ->
           is_missing (priceCache g) (clock env (ticks g)) id = false) ->
        new = []).
Proof.
  exists (upstream env ids g). split; [apply fetchTokenPrices_sent|].
  unfold upstream.
  destruct (List.filter _ ids) as [|m ms] eqn:E.
  - split; [simpl; lia|]. split; [intros ? ? []|reflexivity].
  - split; [simpl; lia|]. split.
    + intros request id [<- | []] Hid. rewrite <- E in Hid.
      now apply List.filter_In in Hid.
    + intros Hfresh. exfalso.
      assert (Hm : In m (List.filter
                           (is_missing (priceCache g) (clock env (ticks g)))
                           ids)) by (rewrite E; now left).
      apply List.filter_In in Hm as [Hin Hmiss].
      rewrite (Hfresh m Hin) in Hmiss. discriminate.
Qed.


Lemma store_prices_keeps_ids now data :
  forall (cache : gmap string (PriceEntry num)) id,
    is_Some (cache !! id) -> is_Some (store_prices now data cache !! id).
Proof.
  induction data as [|[key [usd|]] data IH]; intros cache id Hs; simpl; auto.
  apply IH. destruct (decide (key = id)) as [->|Hne].
  - rewrite lookup_insert_eq. eauto.
  - now rewrite lookup_insert_ne.
Qed.

(** X7. The cache never forgets: an id that has an entry before a call
    has one after it. *)
Theorem fetchTokenPrices_never_evicts env (ids : list string) g (id : string) :
  is_Some (priceCache g !! id) ->
  is_Some (priceCache (snd (fetchTokenPrices env ids g)) !! id).
Proof.
  intros Hs. rewrite fetchTokenPrices_cache.
  destruct (List.filter _ ids); [exact Hs|].
  destruct (price_api env _ _) as [| |[data|]]; try exact Hs.
  now apply store_prices_keeps_ids.
Qed.

End PriceCacheMore.

Section PriceCacheMoreInstances.
Import Chain Examples.

(** The cache after one request failed: an unknown coin is priced 0. *)
Lemma fetchTokenPrices_answers_requested_witness :
  fst (fetchTokenPrices offline ["bitcoin"] start)
    !! "bitcoin" = Some (num_of_Z 0)
  /\ fst (fetchTokenPrices offline ["bitcoin"] start)
       !! "ethereum" = None.
Proof.
  destruct (fetchTokenPrices_answers_requested offline ["bitcoin"]
              start "bitcoin") as (Hin & _ & Hzero).
  destruct (fetchTokenPrices_answers_requested offline ["bitcoin"]
              start "ethereum") as (_ & Hout & _).
  split.
  - rewrite Hin by (left; reflexivity).
    rewrite Hzero by reflexivity. reflexivity.
  - apply Hout. intros [E | []]. discriminate E.
Defined.

Lemma fetchTokenPrices_requests_missing_witness :
  sent (snd (fetchTokenPrices priced ["bitcoin"]
               (snd (fetchTokenPrices priced ["bitcoin"]
                       start))))
  = [["bitcoin"]].
Proof.
  destruct (fetchTokenPrices_requests_missing priced ["bitcoin"]
              (snd (fetchTokenPrices priced ["bitcoin"]
                      start)))
    as (new & -> & _ & _ & Hnone).
  rewrite Hnone; [reflexivity|].
  intros id [<- | []]. reflexivity.
Defined.


Lemma fetchTokenPrices_never_evicts_witness :
  is_Some (priceCache
             (snd (fetchTokenPrices offline ["ethereum"]
                     (snd (fetchTokenPrices priced ["bitcoin"]
                             start))))
           !! "bitcoin").
Proof.
  apply (fetchTokenPrices_never_evicts offline ["ethereum"]).
  vm_compute. eauto.
Defined.

End PriceCacheMoreInstances.

(* ===================================================================== *)
(** * More on the fetchers *)
(* ===================================================================== *)

Section FetcherMore.
Import Chain.
Context {num : Type} `{JsNumber num}.
Implicit Types (env : Env num) (g : Global num) (P : WalletStats num -> Prop).

(** Steps of a [try] block that keep a property of [stats]. *)
Ltac keep :=
  repeat first
    [ apply keeps_ret | apply keeps_throw | apply keeps_await_json
    | apply keeps_in_global | apply keeps_date_iso
    | apply keeps_update_stats; intros ? ?; simpl; assumption
    | apply keeps_bind; [|intros ?]
    | match goal with
      | |- keeps _ (match ?x with _ => _ end) => destruct x
      end ].

Lemma keeps_after P {A B} (m : Try num A) (k : A -> Try num B) f :
  P (stats (snd (m f))) -> (forall a, keeps P (k a)) ->
  P (stats (snd (bind m k f))).
Proof.
  intros Hm Hk. unfold bind.
  destruct (m f) as [[a|] f']; simpl in *; [now apply Hk | exact Hm].
Qed.

Lemma keeps_bind_ret P {A B} (a : A) (k : A -> Try num B) :
  keeps P (k a) -> keeps P (bind (ret a) k).
Proof. intros Hk f Hf. exact (Hk f Hf). Qed.

Lemma bind_in_global {A B} (step : Global num -> A * Global num)
    (k : A -> Try num B) f :
  bind (in_global step) k f
  = k (fst (step (global f)))
      {| stats := stats f; global := snd (step (global f)) |}.
Proof. unfold bind, in_global. now destruct (step (global f)). Qed.

Lemma new_stats_fresh env g :
  new_stats env g
  = ({| balance := num_of_Z 0; txCount := num_of_Z 0;
        firstTxDate := toISOString (clock env (ticks g));
        lastUpdated := clock env (S (ticks g));
        history := []; tokens := []; latestTransaction := None;
        isSimulatedHistory := None |},
     later g (S (S (ticks g))) (draws g)).
Proof. reflexivity. Qed.

Lemma fetchBTCStats_keeps P env address g :
  P (fst (new_stats env g)) -> keeps P (btc_body env address) ->
  exists s, fst (fetchBTCStats env address g) = Returned s /\ P s.
Proof.
  intros H0 Hk. unfold fetchBTCStats.
  destruct (new_stats env g) as [s0 g0].
  destruct (isValidAddress address BTC); simpl; [|now exists s0].
  rewrite try_return_stats_returns. eexists. split; [reflexivity|].
  now apply Hk.
Qed.

Lemma fetchEVMStats_keeps P env address chain g :
  P (fst (new_stats env g)) -> keeps P (evm_body env address chain) ->
  exists s, fst (fetchEVMStats env address chain g) = Returned s /\ P s.
Proof.
  intros H0 Hk. unfold fetchEVMStats.
  destruct (new_stats env g) as [s0 g0].
  destruct (isValidAddress address chain); simpl; [|now exists s0].
  rewrite try_return_stats_returns. eexists. split; [reflexivity|].
  now apply Hk.
Qed.

Lemma fetchSolanaStats_keeps P env address g :
  P (fst (new_stats env g)) -> keeps P (sol_body env address) ->
  exists s, fst (fetchSolanaStats env address g) = Returned s /\ P s.
Proof.
  intros H0 Hk. unfold fetchSolanaStats.
  destruct (new_stats env g) as [s0 g0].
  destruct (isValidAddress address SOL); simpl; [|now exists s0].
  rewrite try_return_stats_returns. eexists. split; [reflexivity|].
  now apply Hk.
Qed.

(** ** Token lists *)

Lemma btc_body_no_tokens env address :
  keeps (fun s => tokens s = []) (btc_body env address).
Proof. unfold btc_body, btc_latest. cbv zeta. keep. Qed.

Lemma evm_body_no_tokens env address chain :
  keeps (fun s => tokens s = []) (evm_body env address chain).
Proof. unfold evm_body. cbv zeta. keep. Qed.

(** X8. The Bitcoin and the EVM fetcher never list a token: whatever the
    explorers answer, the [tokens] of the stats they return are empty;
    the native coin appears only inside [latestTransaction]. *)
Theorem native_fetchers_list_no_tokens env (address : string)
    (chain : Blockchain) g :
  (exists s, fst (fetchBTCStats env address g) = Returned s
             /\ tokens s = [])
  /\ (exists s, fst (fetchEVMStats env address chain g) = Returned s
                /\ tokens s = []).
Proof.
  split.
  - apply fetchBTCStats_keeps; [reflexivity | apply btc_body_no_tokens].
  - apply fetchEVMStats_keeps; [reflexivity | apply evm_body_no_tokens].
Qed.

Lemma spl_token_listed (account : SolTokenAccount num) (t : TokenAsset num) :
  spl_token account = Some t ->
  symbol t = "SPL" /\ token_chain t = SOL /\ priceUSD t = None
  /\ contractAddress t = mint account
  /\ uiAmount account = Some (token_balance t)
  /\ num_ltb (token_balance t) (num_lit 0.01) = false.
Proof.
  unfold spl_token. destruct (uiAmount account) as [amount|]; [|discriminate].
  destruct (num_ltb amount (num_lit 0.01)) eqn:E; [discriminate|].
  intros [= <-]. simpl. repeat split. exact E.
Qed.

Lemma spl_tokens_listed (accounts : list (SolTokenAccount num)) :
  (length (spl_tokens accounts) <= 10)%nat
  /\ forall t, In t (spl_tokens accounts) ->
       exists account, In account accounts /\ spl_token account = Some t.
Proof.
  unfold spl_tokens. split.
  - rewrite length_take. lia.
  - intros t Ht. apply list_elem_of_In in Ht.
    apply elem_of_take in Ht as (i & Ht & _).
    apply list_elem_of_lookup_2 in Ht.
    apply list_elem_of_omap in Ht as (account & Hin & E).
    exists account. split; [now apply list_elem_of_In | exact E].
Qed.

(** X9. The tokens [fetchSolanaStats] returns are at most ten, and each
    is an entry named SPL on Solana without a price, whose mint and
    amount are those of one account of the answer and whose amount is not
    below 0.01: the native SOL is never among them, and no token carries
    its own symbol. *)
Theorem fetchSolanaStats_tokens env (address : string) g :
  exists s,
    fst (fetchSolanaStats env address g) = Returned s
    /\ (length (tokens s) <= 10)%nat
    /\ forall t, In t (tokens s) ->
         symbol t = "SPL" /\ token_chain t = SOL /\ priceUSD t = None
         /\ num_ltb (token_balance t) (num_lit 0.01) = false
         /\ exists tokenData accounts account,
              sol_tokens env = HttpOk (Some tokenData)
              /\ sol_token_accounts tokenData = Some accounts
              /\ In account accounts
              /\ mint account = contractAddress t
              /\ uiAmount account = Some (token_balance t).
Proof.
  apply (fetchSolanaStats_keeps
           (fun s => (length (tokens s) <= 10)%nat
              /\ forall t, In t (tokens s) ->
                   symbol t = "SPL" /\ token_chain t = SOL
                   /\ priceUSD t = None
                   /\ num_ltb (token_balance t) (num_lit 0.01) = false
                   /\ exists tokenData accounts account,
                        sol_tokens env = HttpOk (Some tokenData)
                        /\ sol_token_accounts tokenData = Some accounts
                        /\ In account accounts
                        /\ mint account = contractAddress t
                        /\ uiAmount account = Some (token_balance t))).
  { simpl. split; [lia | intros t []]. }
  unfold sol_body. cbv zeta.
  apply keeps_bind; [apply keeps_await_json | intros balRes].
  apply keeps_bind; [keep | intros _].
  apply keeps_bind; [apply keeps_in_global | intros prices].
  apply keeps_bind; [apply keeps_await_json | intros sigRes].
  apply keeps_bind; [keep | intros _].
  destruct (sol_tokens env) as [| |[tokenData|]] eqn:E;
    [keep | keep | | keep].
  apply keeps_bind_ret.
  destruct (sol_token_accounts tokenData) as [l|] eqn:E'; [|keep].
  apply keeps_update_stats. intros s _. simpl.
  destruct (spl_tokens_listed l) as [Hlen Hin].
  split; [exact Hlen|]. intros t Ht.
  destruct (Hin t Ht) as (account & Ha & Hs).
  destruct (spl_token_listed account t Hs)
    as (Hsym & Hchain & Hprice & Hmint & Hamount & Hmin).
  repeat split; try assumption.
  exists tokenData, l, account. auto.
Qed.

(** ** The latest Bitcoin transaction, when the address does not receive *)

Lemma find_none_pays address (outs : list (TxOut num)) :
  existsb (pays address) outs = false ->
  List.find (fun out => negb (pays address out)) outs = head outs.
Proof.
  destruct outs as [|out outs]; [reflexivity|]. simpl.
  destruct (pays address out); [discriminate | reflexivity].
Qed.

Lemma paid_by_prevouts address (prevouts : list (TxOut num)) :
  forall (ins : list (TxIn num)) acc,
    map (@prevout num) ins = map Some prevouts ->
    paid_by address ins acc
    = Some (fold_left (fun acc out => if pays address out
                                      then num_add acc (value out) else acc)
              prevouts acc).
Proof.
  induction prevouts as [|p ps IH]; intros [|inp ins] acc E;
    try discriminate E; [reflexivity|].
  injection E as Ep E. simpl. rewrite Ep. now apply IH.
Qed.

Lemma paid_by_missing address :
  forall (ins : list (TxIn num)) acc,
    (exists inp, In inp ins /\ prevout inp = None) ->
    paid_by address ins acc = None.
Proof.
  induction ins as [|i ins IH]; intros acc (inp & Hin & Hp); [destruct Hin|].
  simpl. destruct (prevout i) as [p|] eqn:E; [|reflexivity].
  apply IH. destruct Hin as [-> | Hin]; [congruence | now exists inp].
Qed.

(** What [btc_latest] leaves once the amount is computed: the
    transaction, and the date of the oldest loaded transaction unless
    that date is invalid. *)
Lemma btc_latest_recorded env address txData (lastTx : BtcTx num) f a :
  (if existsb (pays address) (vout lastTx)
   then Some (received address (vout lastTx))
   else paid_by address (vin lastTx) (num_of_Z 0)) = Some a ->
  exists t,
    stats (snd (btc_latest env address txData lastTx f))
    = match num_time (num_mul (num_of_opt
                                 (block_time (List.last txData lastTx)))
                              (num_of_Z 1000)) with
      | Some ms => set_firstTxDate (toISOString ms)
                     (set_latestTransaction t (stats f))
      | None => set_latestTransaction t (stats f)
      end
    /\ type t = (if existsb (pays address) (vout lastTx)
                 then receive else send)
    /\ amount t = num_div a satoshi
    /\ from t = (if existsb (pays address) (vout lastTx)
                 then opt_str_or ((head (vin lastTx) ≫= @prevout num)
                                    ≫= @scriptpubkey_address num) "Unknown"
                 else address)
    /\ to t = (if existsb (pays address) (vout lastTx) then address
               else opt_str_or
                      (List.find (fun out => negb (pays address out))
                         (vout lastTx) ≫= @scriptpubkey_address num)
                      "Multiple/Unknown").
Proof.
  intros Ha. unfold btc_latest. cbv zeta.
  match goal with
  | |- context [bind ?m _ f] =>
      assert (E : m = ret (num:=num) a)
  end.
  { destruct (existsb (pays address) (vout lastTx)).
    - now injection Ha as ->.
    - now rewrite Ha. }
  rewrite E, bind_ret, bind_in_global, bind_update_stats.
  eexists. split.
  - unfold bind, date_iso. destruct (num_time _); reflexivity.
  - split; [reflexivity|]. split; [reflexivity|].
    split; reflexivity.
Qed.

Lemma fetchBTCStats_loaded env address g (data : AddressJson num)
    (lastTx : BtcTx num) older :
  isValidAddress address BTC = true ->
  btc_address env = HttpOk (Some data) ->
  btc_txs env = HttpOk (Some (TxsArray (lastTx :: older))) ->
  fst (fetchBTCStats env address g)
  = Returned
      (stats (snd (btc_latest env address (lastTx :: older) lastTx
         {| stats := set_txCount (counted data)
                       (set_balance
                          (num_div (num_sub (funded data) (spent data))
                                   satoshi)
                          (fst (new_stats env g)));
            global := snd (new_stats env g) |}))).
Proof.
  intros Hvalid Haddr Htxs. unfold fetchBTCStats.
  destruct (new_stats env g) as [s0 g0].
  rewrite Hvalid. simpl negb. cbv iota.
  rewrite try_return_stats_returns. unfold btc_body. rewrite Haddr, Htxs.
  now rewrite bind_await_ok, !bind_update_stats, bind_await_ok.
Qed.

(** X10. When no output of the latest transaction fetched for a Bitcoin
    address pays the address and every input names the output it spends,
    [fetchBTCStats] reports a [send] from the address whose amount is the
    sum of the spent outputs that belonged to the address, in bitcoin,
    fee included, and whose recipient is the address of the first output,
    or Multiple/Unknown when there is none or it has no address. *)
Theorem fetchBTCStats_send env (address : string) g (data : AddressJson num)
    (lastTx : BtcTx num) (older : list (BtcTx num))
    (prevouts : list (TxOut num)) :
  isValidAddress address BTC = true ->
  btc_address env = HttpOk (Some data) ->
  btc_txs env = HttpOk (Some (TxsArray (lastTx :: older))) ->
  existsb (pays address) (vout lastTx) = false ->
  map (@prevout num) (vin lastTx) = map Some prevouts ->
  exists s t,
    fst (fetchBTCStats env address g) = Returned s
    /\ latestTransaction s = Some t
    /\ type t = send
    /\ from t = address
    /\ amount t
       = num_div (total (map (@value num)
                          (List.filter (pays address) prevouts)))
                 satoshi
    /\ to t = opt_str_or (head (vout lastTx) ≫= @scriptpubkey_address num)
                "Multiple/Unknown".
Proof.
  intros Hvalid Haddr Htxs Hsend Hprev.
  rewrite (fetchBTCStats_loaded env address g data lastTx older)
    by assumption.
  match goal with
  | |- context [btc_latest ?e ?a ?l ?x ?f] =>
      destruct (btc_latest_recorded e a l x f
                  (received address prevouts))
        as (t & -> & Htype & Hamount & Hfrom & Hto)
  end.
  { rewrite Hsend. now apply paid_by_prevouts. }
  rewrite Hsend in Htype, Hfrom, Hto.
  rewrite find_none_pays in Hto by exact Hsend.
  rewrite received_total in Hamount.
  eexists _, t. split; [reflexivity|].
  split; [now destruct (num_time _)|]. auto.
Qed.

(** X11. When no output of the latest transaction pays the address and
    one of its inputs names no spent output, reading that input throws
    inside the [try] block: [fetchBTCStats] returns the balance and the
    transaction count of the address summary, no latest transaction and
    the default first-transaction date, and has sent no price request. *)
Theorem fetchBTCStats_input_without_prevout env (address : string) g
    (data : AddressJson num) (lastTx : BtcTx num) (older : list (BtcTx num))
    (inp : TxIn num) :
  isValidAddress address BTC = true ->
  btc_address env = HttpOk (Some data) ->
  btc_txs env = HttpOk (Some (TxsArray (lastTx :: older))) ->
  existsb (pays address) (vout lastTx) = false ->
  In inp (vin lastTx) -> prevout inp = None ->
  exists s,
    fst (fetchBTCStats env address g) = Returned s
    /\ latestTransaction s = None
    /\ balance s = num_div (num_sub (funded data) (spent data)) satoshi
    /\ txCount s = counted data
    /\ firstTxDate s = toISOString (clock env (ticks g))
    /\ sent (snd (fetchBTCStats env address g)) = sent g.
Proof.
  intros Hvalid Haddr Htxs Hsend Hin Hnone.
  assert (Hpaid : paid_by address (vin lastTx) (num_of_Z 0) = None).
  { apply paid_by_missing. now exists inp. }
  rewrite (fetchBTCStats_loaded env address g data lastTx older)
    by assumption.
  unfold fetchBTCStats. rewrite new_stats_fresh, Hvalid.
  simpl negb. cbv iota.
  unfold try_return_stats, btc_body. rewrite Haddr, Htxs.
  rewrite bind_await_ok, !bind_update_stats, bind_await_ok.
  unfold btc_latest. cbv zeta. rewrite Hsend, Hpaid.
  eexists. split; [reflexivity|]. simpl. auto 10.
Qed.

(** X12. Once the latest Bitcoin transaction is recorded, the
    first-transaction date is the block time of the last transaction of
    the loaded page, the oldest one loaded, in ISO form; when that time is
    no valid date, as for an unconfirmed transaction, the default date
    stays and the latest transaction is still reported. *)
Theorem fetchBTCStats_first_date env (address : string) g
    (data : AddressJson num) (lastTx : BtcTx num) (older : list (BtcTx num)) :
  isValidAddress address BTC = true ->
  btc_address env = HttpOk (Some data) ->
  btc_txs env = HttpOk (Some (TxsArray (lastTx :: older))) ->
  existsb (pays address) (vout lastTx) = true
  \/ paid_by address (vin lastTx) (num_of_Z 0) <> None ->
  exists s,
    fst (fetchBTCStats env address g) = Returned s
    /\ latestTransaction s <> None
    /\ firstTxDate s
       = match num_time (num_mul (num_of_opt
                                    (block_time (List.last older lastTx)))
                                 (num_of_Z 1000)) with
         | Some ms => toISOString ms
         | None => toISOString (clock env (ticks g))
         end.
Proof.
  intros Hvalid Haddr Htxs Hrec.
  rewrite (fetchBTCStats_loaded env address g data lastTx older)
    by assumption.
  assert (Ha : exists a,
    (if existsb (pays address) (vout lastTx)
     then Some (received address (vout lastTx))
     else paid_by address (vin lastTx) (num_of_Z 0)) = Some a).
  { destruct Hrec as [-> | Hp]; [now eexists|].
    destruct (existsb _ _); [now eexists|].
    destruct (paid_by _ _ _) as [a|]; [now exists a | congruence]. }
  destruct Ha as [a Ha].
  match goal with
  | |- context [btc_latest ?e ?a' ?l ?x ?f] =>
      destruct (btc_latest_recorded e a' l x f a Ha) as (t & -> & _)
  end.
  replace (List.last (lastTx :: older) lastTx)
    with (List.last older lastTx)
    by (destruct older; reflexivity).
  eexists. split; [reflexivity|].
  destruct (num_time _); simpl; split; congruence.
Qed.

(** ** Prices are asked for only with a transaction *)

Lemma fetchBTCStats_without_transactions env address g :
  no_transactions (btc_txs env) = true ->
  snd (fetchBTCStats env address g) = later g (S (S (ticks g))) (draws g)
  /\ exists s, fst (fetchBTCStats env address g) = Returned s
                /\ latestTransaction s = None.
Proof.
  intros Hno. unfold fetchBTCStats. rewrite new_stats_fresh.
  destruct (isValidAddress address BTC); simpl;
    [|split; [reflexivity | now eexists]].
  unfold try_return_stats, btc_body.
  destruct (btc_address env) as [| |[data|]];
    [simpl; split; [reflexivity | now eexists]..| |
     simpl; split; [reflexivity | now eexists]].
  rewrite bind_await_ok, !bind_update_stats.
  destruct (btc_txs env) as [| |[[|[|tx txs]]|]]; try discriminate Hno;
    simpl; (split; [reflexivity | now eexists]).
Qed.

Lemma fetchWalletStats_priceCache env address chain g :
  priceCache (snd (fetchWalletStats env address chain g))
  = priceCache (snd (fetcher env address chain g)).
Proof.
  unfold fetchWalletStats. fold (fetcher env address chain g).
  destruct (fetcher env address chain g) as [[s0|e] g0]; [|reflexivity].
  cbv iota.
  set (current := num_mul (balance s0) _).
  pose proof (simulate_priceCache env days 0 current [] g0) as Hc.
  destruct (simulate env days 0 current [] g0) as [h g1].
  now destruct (set_last_value h current).
Qed.

(** X13. [fetchBTCStats] asks for the bitcoin price only after it has
    found a latest transaction. When the transaction list shows none (the
    request failed, the body is no array, or the array is empty) no price
    request is sent and the call leaves the cache as it was. So a call of
    [fetchWalletStats] that runs alone, no other call writing the cache
    while it is under way, values the balance it reports at the price
    cached before the call: at 0 when there was none. *)
Theorem fetchBTCStats_prices_only_with_transaction env (address : string) g :
  no_transactions (btc_txs env) = true ->
  sent (snd (fetchBTCStats env address g)) = sent g
  /\ priceCache (snd (fetchBTCStats env address g)) = priceCache g
  /\ exists s p,
       fst (fetchWalletStats env address BTC g) = Returned s
       /\ history s !! 364%nat = Some p
       /\ point_value p
          = num_mul (balance s) (cached_price (priceCache g) "bitcoin")
       /\ (priceCache g !! "bitcoin" = None ->
           point_value p = num_mul (balance s) (num_of_Z 0)).
Proof.
  intros Hno.
  destruct (fetchBTCStats_without_transactions env address g Hno)
    as [Hg _].
  rewrite Hg. split; [reflexivity|]. split; [reflexivity|].
  destruct (fetchWalletStats_history env address BTC g)
    as (s & Es & _ & _ & (p & Hp & Hv) & _).
  exists s, p. split; [exact Es|]. split; [exact Hp|].
  assert (Hc : priceCache (snd (fetchWalletStats env address BTC g))
               = priceCache g).
  { rewrite fetchWalletStats_priceCache. unfold fetcher. now rewrite Hg. }
  unfold getExchangeRate in Hv. rewrite Hc in Hv. split; [exact Hv|].
  intros Hnone. rewrite Hv. unfold cached_price.
  change (getCoingeckoId BTC) with "bitcoin". now rewrite Hnone.
Qed.

(** ** The latest EVM transaction *)

(** X14. When the balance request does not throw and the explorer lists
    a latest transaction with status 1, [fetchEVMStats] reports the nonce
    of that transaction plus one as the transaction count and the
    transaction as the latest one: a [receive] exactly when its
    recipient is the address, letter case ignored (a transfer to oneself
    included), a [send] otherwise; whatever the explorer answers to the
    request for the first transaction. *)
Theorem fetchEVMStats_latest env (address : string) (chain : Blockchain) g
    (txData : EvmTxListJson) (tx : EvmTx) (older : list EvmTx) :
  isValidAddress address chain = true ->
  rejects (evm_balance env) = false ->
  evm_latest env = HttpOk (Some txData) ->
  txlist_status txData = "1" ->
  txlist_result txData = tx :: older ->
  exists s t,
    fst (fetchEVMStats env address chain g) = Returned s
    /\ txCount s = num_add (num_parseInt (nonce tx)) (num_of_Z 1)
    /\ latestTransaction s = Some t
    /\ hash t = evm_hash tx
    /\ (type t = receive
        <-> toLowerCase (evm_to tx) = toLowerCase address)
    /\ (type t = send
        <-> toLowerCase (evm_to tx) <> toLowerCase address)
    /\ from t = evm_from tx /\ to t = evm_to tx
    /\ amount t = num_div (num_parseFloat (evm_value tx)) wei.
Proof.
  intros Hvalid Hbal Hlatest Hstatus Hresult.
  unfold fetchEVMStats. destruct (new_stats env g) as [s0 g0].
  rewrite Hvalid. simpl negb. cbv iota.
  rewrite try_return_stats_returns. unfold evm_body. cbv zeta.
  set (P := fun s : WalletStats num =>
    txCount s = num_add (num_parseInt (nonce tx)) (num_of_Z 1)
    /\ exists t, latestTransaction s = Some t
         /\ hash t = evm_hash tx
         /\ (type t = receive
             <-> toLowerCase (evm_to tx) = toLowerCase address)
         /\ (type t = send
             <-> toLowerCase (evm_to tx) <> toLowerCase address)
         /\ from t = evm_from tx /\ to t = evm_to tx
         /\ amount t = num_div (num_parseFloat (evm_value tx)) wei).
  match goal with
  | |- context [Returned (stats ?x)] => enough (HP : P (stats x))
  end.
  { destruct HP as (Hcount & t & Ht). eexists _, t.
    split; [reflexivity|]. split; [exact Hcount | exact Ht]. }
  match goal with
  | |- context [bind (in_global ?step) ?K] =>
      assert (Hrest : forall f,
                P (stats (snd (bind (in_global step) K f))))
  end.
  { intros f. rewrite bind_in_global, Hlatest, bind_await_ok.
    rewrite Hstatus, Hresult.
    change (String.eqb "1" "1") with true. cbv iota.
    apply keeps_after.
    - rewrite bind_update_stats. simpl. split; [reflexivity|].
      eexists. split; [reflexivity|]. simpl.
      destruct (String.eqb_spec (toLowerCase (evm_to tx))
                  (toLowerCase address)) as [E|E];
        repeat split; intros; solve [assumption | reflexivity
                                    | discriminate | contradiction].
    - intros _. unfold P. keep.
      all: apply keeps_update_stats; intros s Hs; exact Hs. }
  destruct (evm_balance env) as [| |[balData|]]; try discriminate Hbal.
  - apply (Hrest {| stats := s0; global := g0 |}).
  - rewrite bind_await_ok.
    destruct (String.eqb (balance_status balData) "1").
    + rewrite bind_update_stats. apply Hrest.
    + rewrite bind_ret. apply Hrest.
Qed.

(** ** The latest Solana transaction *)

(** X15. A latest transaction reported by [fetchSolanaStats] is always a
    [send] of 0 SOL from the address to the fixed recipient, whatever the
    signature belongs to: the transaction itself is never looked up. *)
Theorem fetchSolanaStats_latest_is_send env (address : string) g
    (s : WalletStats num) (t : LatestTransaction num) :
  fst (fetchSolanaStats env address g) = Returned s ->
  latestTransaction s = Some t ->
  type t = send /\ amount t = num_of_Z 0 /\ amountUSD t = num_of_Z 0
  /\ from t = address /\ to t = "Solana Program/Wallet"
  /\ symbol (token t) = "SOL".
Proof.
  intros Es Ht.
  destruct (fetchSolanaStats_keeps
              (fun s => forall t, latestTransaction s = Some t ->
                 type t = send /\ amount t = num_of_Z 0
                 /\ amountUSD t = num_of_Z 0
                 /\ from t = address /\ to t = "Solana Program/Wallet"
                 /\ symbol (token t) = "SOL")
              env address g) as (s' & Es' & Hs').
  - intros t' E. discriminate E.
  - unfold sol_body. cbv zeta.
    apply keeps_bind; [apply keeps_await_json | intros balRes].
    apply keeps_bind; [keep | intros _].
    apply keeps_bind; [apply keeps_in_global | intros prices].
    apply keeps_bind; [apply keeps_await_json | intros sigRes].
    apply keeps_bind; [|intros _; keep].
    destruct sigRes as [sigData|]; [|keep].
    destruct (sol_signatures sigData) as [[|tx rest]|]; [keep| |keep].
    apply keeps_bind; [keep | intros _].
    apply keeps_bind; [keep | intros time].
    apply keeps_update_stats. intros s1 _ t1 [= <-]. simpl.
    repeat split.
  - rewrite Es in Es'. injection Es' as <-. now apply Hs'.
Qed.

(** ** What the router adds *)

Lemma fetcher_no_history env address chain g :
  exists s, fst (fetcher env address chain g) = Returned s
            /\ history s = [] /\ isSimulatedHistory s = None.
Proof.
  unfold fetcher. destruct chain.
  - apply (fetchBTCStats_keeps
             (fun s => history s = [] /\ isSimulatedHistory s = None));
      [now split|].
    unfold btc_body, btc_latest. cbv zeta. keep.
  - apply (fetchEVMStats_keeps
             (fun s => history s = [] /\ isSimulatedHistory s = None));
      [now split|].
    unfold evm_body. cbv zeta. keep.
  - apply (fetchSolanaStats_keeps
             (fun s => history s = [] /\ isSimulatedHistory s = None));
      [now split|].
    unfold sol_body. cbv zeta. keep.
  - apply (fetchEVMStats_keeps
             (fun s => history s = [] /\ isSimulatedHistory s = None));
      [now split|].
    unfold evm_body. cbv zeta. keep.
Qed.

(** X16. [fetchWalletStats] returns what the fetcher of the chain
    returns, with the history and its flag added and nothing else
    changed; no fetcher provides a history of its own, so every history
    a caller sees is the simulated one. *)
Theorem fetchWalletStats_adds_history env (address : string)
    (chain : Blockchain) g :
  exists fetched s,
    fst (fetcher env address chain g) = Returned fetched
    /\ fst (fetchWalletStats env address chain g) = Returned s
    /\ history fetched = [] /\ isSimulatedHistory fetched = None
    /\ isSimulatedHistory s = Some true
    /\ balance s = balance fetched /\ txCount s = txCount fetched
    /\ firstTxDate s = firstTxDate fetched
    /\ lastUpdated s = lastUpdated fetched
    /\ tokens s = tokens fetched
    /\ latestTransaction s = latestTransaction fetched.
Proof.
  destruct (fetcher_no_history env address chain g) as (s0 & E0 & Hh & Hf).
  unfold fetchWalletStats. fold (fetcher env address chain g).
  destruct (fetcher env address chain g) as [c g0]. simpl in E0. subst c.
  set (current := num_mul (balance s0) _).
  pose proof (simulate_length env days 0 current [] g0) as Hlen.
  destruct (simulate env days 0 current [] g0) as [h g1].
  destruct (set_last_value_some h current) as (p & _ & E).
  { intros ->. discriminate Hlen. }
  rewrite E. exists s0. eexists. split; [reflexivity|].
  split; [reflexivity|]. simpl. auto 12.
Qed.

(** ** The clock readings of a call *)

Lemma advances_ret {A} (a : A) : advances (ret (num:=num) a).
Proof. intros f. apply Nat.le_refl. Qed.

Lemma advances_throw {A} : advances (@throw num A).
Proof. intros f. apply Nat.le_refl. Qed.

Lemma advances_bind {A B} (m : Try num A) (k : A -> Try num B) :
  advances m -> (forall a, advances (k a)) -> advances (bind m k).
Proof.
  intros Hm Hk f. unfold bind. specialize (Hm f).
  destruct (m f) as [[a|] f']; simpl in *; [|exact Hm].
  specialize (Hk a f'). lia.
Qed.

Lemma advances_in_global {A} (step : Global num -> A * Global num) :
  (forall g, (ticks g <= ticks (snd (step g)))%nat) ->
  advances (in_global step).
Proof.
  intros Hstep f. unfold in_global. specialize (Hstep (global f)).
  now destruct (step (global f)).
Qed.

Lemma advances_await_json {B} (r : Response B) :
  advances (await_json (num:=num) r).
Proof. destruct r as [| |[b|]]; intros f; apply Nat.le_refl. Qed.

Lemma advances_date_iso x : advances (date_iso x).
Proof. unfold date_iso. destruct (num_time x); intros f; apply Nat.le_refl. Qed.

Lemma advances_update_stats (change : WalletStats num -> WalletStats num) :
  advances (update_stats change).
Proof. intros f. apply Nat.le_refl. Qed.

Lemma fetchTokenPrices_ticks env ids g :
  ticks (snd (fetchTokenPrices env ids g)) = S (ticks g).
Proof.
  unfold fetchTokenPrices, date_now. simpl.
  destruct (List.filter _ ids); reflexivity.
Qed.

Ltac advance :=
  repeat first
    [ apply advances_ret | apply advances_throw | apply advances_await_json
    | apply advances_date_iso | apply advances_update_stats
    | apply advances_in_global; intros ?;
      first [rewrite fetchTokenPrices_ticks; lia | simpl; lia]
    | apply advances_bind; [|intros ?]
    | match goal with
      | |- ?goal (match ?x with _ => _ end) => destruct x
      end ].

Lemma try_return_stats_global (body : Try num unit) f :
  snd (try_return_stats body f) = global (snd (body f)).
Proof. unfold try_return_stats. now destruct (body f). Qed.

Lemma fetcher_ticks env address chain g :
  (ticks g <= ticks (snd (fetcher env address chain g)))%nat.
Proof.
  assert (Hbody : forall (body : Try num unit) (valid : bool),
    advances body ->
    (ticks g
     <= ticks (snd (let '(stats, g0) := new_stats env g in
                    if negb valid then (Returned stats, g0)
                    else try_return_stats body
                           {| stats := stats; global := g0 |})))%nat).
  { intros body valid Hb. rewrite new_stats_fresh.
    destruct valid; simpl negb; cbv iota; [|simpl; lia].
    rewrite try_return_stats_global.
    match goal with |- context [body ?f] => specialize (Hb f) end.
    simpl in Hb. lia. }
  unfold fetcher. destruct chain.
  - apply Hbody. unfold btc_body, btc_latest. cbv zeta. advance.
  - apply Hbody. unfold evm_body. cbv zeta. advance.
  - apply Hbody. unfold sol_body. cbv zeta. advance.
  - apply Hbody. unfold evm_body. cbv zeta. advance.
Qed.

Lemma simulate_ticks env n : forall i v (h : list (HistoryPoint num)) g,
  ticks (snd (simulate env n i v h g)) = (ticks g + n)%nat.
Proof.
  induction n as [|n IH]; intros i v h g; simpl; [lia|].
  rewrite IH. simpl. lia.
Qed.

(** The call reads the clock in the fetcher first and then once in each
    of the 365 iterations of the loop. *)
Lemma fetchWalletStats_ticks env address chain g :
  ticks (snd (fetchWalletStats env address chain g))
  = (ticks (snd (fetcher env address chain g)) + 365)%nat.
Proof.
  destruct (fetcher_no_history env address chain g) as (s0 & E0 & _).
  unfold fetchWalletStats. fold (fetcher env address chain g).
  destruct (fetcher env address chain g) as [c g0].
  cbn [fst snd] in *. subst c. cbv iota.
  set (current := num_mul (balance s0) _).
  pose proof (simulate_ticks env days 0 current [] g0) as Ht.
  destruct (simulate env days 0 current [] g0) as [h g1].
  cbn [snd] in Ht. now destruct (set_last_value h current).
Qed.

(** X17. The clock readings of the history loop are the last 365
    readings of a [fetchWalletStats] call, the earlier ones being those
    of the fetcher. When these 365 readings fall on the same UTC day, as
    they do when every reading during the call does, the 365 history
    points are dated day by day without gap or repetition, oldest first,
    the last one today. *)
Theorem fetchWalletStats_dates_same_day env (address : string)
    (chain : Blockchain) g (today : Z) :
  let finish := ticks (snd (fetchWalletStats env address chain g)) in
  (ticks g <= finish - 365)%nat /\ (365 <= finish)%nat
  /\ ((forall n, (finish - 365 <= n < finish)%nat ->
         clock env n / ms_per_day = today) ->
      exists s,
        fst (fetchWalletStats env address chain g) = Returned s
        /\ forall k, (k < 365)%nat ->
             @date num <$> history s !! k
             = Some (string_of_list_ascii
                       (iso_date (today - 364 + Z.of_nat k)))).
Proof.
  intros finish. unfold finish. rewrite fetchWalletStats_ticks.
  pose proof (fetcher_ticks env address chain g) as Hstart.
  split; [lia|]. split; [lia|]. intros Hclock.
  destruct (fetcher_no_history env address chain g) as (s0 & E0 & _).
  unfold fetchWalletStats. fold (fetcher env address chain g).
  destruct (fetcher env address chain g) as [c g0].
  cbn [fst snd] in *. subst c. cbv iota.
  set (current := num_mul (balance s0) _).
  pose proof (simulate_length env days 0 current [] g0) as Hlen.
  pose proof (simulate_consecutive env today days 0 current [] g0 eq_refl)
    as Hdates.
  destruct (simulate env days 0 current [] g0) as [h g1].
  cbn [fst] in Hlen, Hdates. simpl length in Hlen.
  destruct (set_last_value_some h current) as (p & _ & E).
  { intros ->. discriminate Hlen. }
  assert (Hcons : consecutive_days today
                    (<[(length h - 1)%nat :=
                         {| date := date p; point_value := current |}]> h)).
  { apply (set_last_value_consecutive today h _ current E).
    apply Hdates.
    - intros k q Hk. destruct k; discriminate Hk.
    - intros k Hk. apply Hclock. unfold days in Hk. lia. }
  rewrite E. eexists. split; [reflexivity|]. cbn [history set_history
    set_isSimulatedHistory]. intros k Hk.
  match goal with
  | |- _ <$> ?l !! k = _ =>
      destruct (lookup_lt_is_Some_2 l k) as [q Hq];
        [rewrite length_insert; unfold days in Hlen; lia|];
      rewrite Hq; simpl; f_equal;
      rewrite (Hcons k q Hq), length_insert, Hlen
  end.
  do 2 f_equal.
Qed.

End FetcherMore.

Section FetcherMoreInstances.
Import Chain Examples MoreExamples.

(** A wallet holding dust of one token and 25 of another lists the
    second only. *)
Lemma fetchSolanaStats_tokens_witness :
  exists s t,
    fst (fetchSolanaStats sol_holding sol_wallet start) = Returned s
    /\ tokens s = [t]
    /\ symbol t = "SPL"
    /\ num_ltb (token_balance t) (num_lit 0.01) = false.
Proof.
  destruct (fetchSolanaStats_tokens sol_holding sol_wallet start)
    as (s & E & _ & Hs).
  destruct (tokens s) as [|t [|t' rest]] eqn:Et;
    [apply (f_equal (fun c => length (tokens
              match c with Returned s => s | Threw _ => s end))) in E;
     rewrite Et in E; vm_compute in E; discriminate E
    | | apply (f_equal (fun c => length (tokens
              match c with Returned s => s | Threw _ => s end))) in E;
     rewrite Et in E; vm_compute in E; discriminate E].
  exists s, t. split; [exact E|]. split; [exact Et|].
  destruct (Hs t) as (Hsym & _ & _ & Hmin & _); [now left | now split].
Defined.

(** A spend of 5000 satoshi without change. *)
Lemma fetchBTCStats_send_witness :
  exists s t,
    fst (fetchBTCStats sending btc_wallet start) = Returned s
    /\ latestTransaction s = Some t
    /\ type t = send
    /\ from t = btc_wallet
    /\ amount t = num_div (num_of_Z 5000) satoshi
    /\ to t = other_wallet.
Proof.
  destruct (fetchBTCStats_send sending btc_wallet start one_bitcoin
              plain_spend []
              [{| scriptpubkey_address := Some btc_wallet;
                  value := num_of_Z 5000 |}])
    as (s & t & Es & Ht & Htype & Hfrom & Hamount & Hto); try reflexivity.
  exists s, t. split; [exact Es|]. split; [exact Ht|].
  split; [exact Htype|]. split; [exact Hfrom|].
  split; [exact Hamount | exact Hto].
Defined.

(** A newly mined block paying another wallet. *)
Lemma fetchBTCStats_input_without_prevout_witness :
  exists s,
    fst (fetchBTCStats mining btc_wallet start) = Returned s
    /\ latestTransaction s = None
    /\ balance s = num_of_Z 1
    /\ txCount s = num_of_Z 1
    /\ firstTxDate s = "1970-01-01T00:00:00.000Z"
    /\ sent (snd (fetchBTCStats mining btc_wallet start)) = [].
Proof.
  destruct (fetchBTCStats_input_without_prevout mining btc_wallet start
              one_bitcoin mined [] {| prevout := None |})
    as (s & Es & Ht & Hbalance & Hcount & Hdate & Hsent);
    try solve [reflexivity | now left].
  exists s. split; [exact Es|]. split; [exact Ht|].
  split; [exact Hbalance|]. split; [exact Hcount|].
  split; [exact Hdate | exact Hsent].
Defined.

(** The spend with change was mined on 14 November 2023. *)
Lemma fetchBTCStats_first_date_witness :
  exists s,
    fst (fetchBTCStats spending btc_wallet start) = Returned s
    /\ latestTransaction s <> None
    /\ firstTxDate s = "2023-11-14T22:13:20.000Z".
Proof.
  destruct (fetchBTCStats_first_date spending btc_wallet start one_bitcoin
              spend_with_change [])
    as (s & Es & Ht & Hdate); try solve [reflexivity | now left].
  exists s. split; [exact Es|]. split; [exact Ht | exact Hdate].
Defined.

(** One bitcoin and an empty transaction list: the balance is valued at
    0, although the price API would answer. *)
Lemma fetchBTCStats_prices_only_with_transaction_witness :
  sent (snd (fetchBTCStats frozen btc_wallet start)) = []
  /\ exists s p,
       fst (fetchWalletStats frozen btc_wallet BTC start) = Returned s
       /\ balance s = num_of_Z 1
       /\ history s !! 364%nat = Some p
       /\ point_value p = num_of_Z 0.
Proof.
  destruct (fetchBTCStats_prices_only_with_transaction frozen btc_wallet
              start eq_refl) as (Hsent & _ & s & p & Es & Hp & _ & Hzero).
  split; [exact Hsent|]. exists s, p. split; [exact Es|].
  assert (Hb : balance s = num_of_Z 1).
  { apply (f_equal (fun c => match c with
                             | Returned s => Some (balance s)
                             | Threw _ => None
                             end)) in Es.
    vm_compute in Es. injection Es as Hb. symmetry. exact Hb. }
  split; [exact Hb|]. split; [exact Hp|].
  rewrite Hzero by reflexivity. rewrite Hb. reflexivity.
Defined.

(** A payment to the account, the recipient written in lower case. *)
Lemma fetchEVMStats_latest_witness :
  exists s t,
    fst (fetchEVMStats evm_active claimed ETH start) = Returned s
    /\ txCount s = num_of_Z 42
    /\ latestTransaction s = Some t
    /\ type t = receive.
Proof.
  destruct (fetchEVMStats_latest evm_active claimed ETH start
              {| txlist_status := "1"; txlist_result := [incoming] |}
              incoming [])
    as (s & t & Es & Hcount & Ht & _ & Hreceive & _);
    try reflexivity.
  exists s, t. split; [exact Es|]. split; [exact Hcount|].
  split; [exact Ht|]. apply Hreceive. reflexivity.
Defined.

(** The wallet with one signature on record. *)
Lemma fetchSolanaStats_latest_is_send_witness :
  exists s t,
    fst (fetchSolanaStats sol_active sol_wallet start) = Returned s
    /\ latestTransaction s = Some t
    /\ type t = send /\ amount t = num_of_Z 0 /\ from t = sol_wallet.
Proof.
  destruct (fst (fetchSolanaStats sol_active sol_wallet start))
    as [s|] eqn:E; [|vm_compute in E; discriminate E].
  destruct (latestTransaction s) as [t|] eqn:Et.
  - exists s, t. split; [reflexivity|]. split; [exact Et|].
    destruct (fetchSolanaStats_latest_is_send sol_active sol_wallet start
                s t E Et) as (Htype & Hamount & _ & Hfrom & _).
    auto.
  - exfalso.
    apply (f_equal (fun c => match c with
                             | Returned s => latestTransaction s
                             | Threw _ => None
                             end)) in E.
    rewrite Et in E. vm_compute in E. discriminate E.
Defined.

(** The fetcher reads the clock twice before midnight and the loop reads
    it on 2 November 2025: the history runs from 3 November 2024 to that
    day. *)
Lemma fetchWalletStats_dates_same_day_witness :
  clock turning 0 / ms_per_day = 20393
  /\ exists s,
       fst (fetchWalletStats turning btc_wallet BTC start) = Returned s
       /\ @date qnum <$> history s !! 0%nat = Some "2024-11-03"
       /\ @date qnum <$> history s !! 364%nat = Some "2025-11-02".
Proof.
  split; [reflexivity|].
  destruct (fetchWalletStats_dates_same_day turning btc_wallet BTC start
              20394) as (_ & _ & Hsame).
  destruct Hsame as (s & Es & Hdates).
  { replace (ticks (snd (fetchWalletStats turning btc_wallet BTC start)))
      with 367%nat by (vm_compute; reflexivity).
    intros n Hn. unfold turning, clock.
    destruct (n <? 2)%nat eqn:E; [apply Nat.ltb_lt in E; lia | reflexivity]. }
  exists s. split; [exact Es|].
  split; [exact (Hdates 0%nat ltac:(lia)) | exact (Hdates 364%nat ltac:(lia))].
Defined.

End FetcherMoreInstances.

(* ===================================================================== *)
(** * More on the profile store *)
(* ===================================================================== *)

Section StorageMore.
Import Storage.
Context {num : Type} `{JsNumber num}.
Implicit Types (db : Supabase num) (profile : ProfileFields num).

(** X18. With a store that returns the row it inserts, [createProfile]
    gives back the fields it was given and logs nothing: the username and
    the address as they are, the chain by its code, the reading of the
    clock as [createdAt], no cached stats, [null] for a missing or empty
    logo and the empty object for missing socials. *)
Theorem createProfile_round_trip db (random36 : string) (now : Z) profile :
  echoes db ->
  exists r,
    createProfile db random36 now profile = (Returned r, [])
    /\ username r = JsStr (new_username profile)
    /\ address r = JsStr (new_address profile)
    /\ chain r = JsStr (Chain.chain_code (new_chain profile))
    /\ createdAt r = JsNum (num_of_Z now)
    /\ cachedStats r = JsUndefined
    /\ (new_logoUrl profile = None \/ new_logoUrl profile = Some "" ->
        logoUrl r = JsNull)
    /\ (forall url, new_logoUrl profile = Some url -> url <> "" ->
        logoUrl r = JsStr url)
    /\ (new_socials profile = None -> socials r = JsObject []).
Proof.
  intros Hecho. unfold createProfile. rewrite Hecho.
  eexists. split; [reflexivity|]. simpl.
  repeat (split; [reflexivity|]). split; [|split].
  - intros [-> | ->]; reflexivity.
  - intros url -> Hurl. destruct url; [contradiction | reflexivity].
  - intros ->. reflexivity.
Qed.

(** X19. When the query for all profiles succeeds, [getAllProfiles]
    returns one profile per row, in the order of the rows, and logs
    nothing; each profile carries the columns of its row, a number as
    [createdAt], whatever the column held, and no cached stats. *)
Theorem getAllProfiles_maps_rows db (rows : list (Row num)) :
  select_all db = Resolves (Some rows) None ->
  exists profiles,
    getAllProfiles db = (Returned profiles, [])
    /\ length profiles = length rows
    /\ forall i row, rows !! i = Some row ->
         exists p,
           profiles !! i = Some p
           /\ id p = row_id row /\ username p = row_username row
           /\ address p = row_address row /\ chain p = row_chain row
           /\ typeof (createdAt p) = "number"
           /\ cachedStats p = JsUndefined.
Proof.
  intros E. unfold getAllProfiles. rewrite E. simpl.
  eexists. split; [reflexivity|]. split; [apply length_map|].
  intros i row Hrow. exists (profile_of_row row).
  split; [|repeat split].
  rewrite list_lookup_fmap. now rewrite Hrow.
Qed.

(** X20. On a query error [getProfileByUsername] returns no profile,
    also when a row came with the error; it logs one line, except for
    the code PGRST116 of a query without result row, which it passes
    over in silence. *)
Theorem getProfileByUsername_not_found_is_silent db (name : string)
    (data : option (Row num)) (error : PostgrestError) :
  select_by_username db name = Resolves data (Some error) ->
  fst (getProfileByUsername db name) = Returned None
  /\ (code error = "PGRST116" -> snd (getProfileByUsername db name) = [])
  /\ (code error <> "PGRST116" ->
      snd (getProfileByUsername db name)
      = [["Supabase Error (getProfile):"; message error]]).
Proof.
  intros E. unfold getProfileByUsername. rewrite E.
  split; [now destruct data|]. split.
  - intros ->. now destruct data.
  - intros Hcode. apply String.eqb_neq in Hcode. rewrite Hcode.
    now destruct data.
Qed.

End StorageMore.

Section StorageMoreInstances.
Import Storage Examples MoreExamples.

Lemma createProfile_round_trip_witness :
  exists r,
    createProfile accepting "0.4fzyo82mvyr" 1700000000000 alice
      = (Returned r, [])
    /\ username r = JsStr "alice_1"
    /\ chain r = JsStr "ETH"
    /\ logoUrl r = JsNull
    /\ socials r = JsObject [].
Proof.
  destruct (createProfile_round_trip accepting "0.4fzyo82mvyr"
              1700000000000 alice)
    as (r & Er & Hname & _ & Hchain & _ & _ & Hlogo & _ & Hsocials).
  { intros row. reflexivity. }
  exists r. split; [exact Er|]. split; [exact Hname|].
  split; [exact Hchain|]. split; [apply Hlogo; now left|].
  apply Hsocials. reflexivity.
Defined.

(** The second row holds its creation time as text. *)
Lemma getAllProfiles_maps_rows_witness :
  exists profiles p,
    getAllProfiles stocked = (Returned profiles, [])
    /\ length profiles = 2%nat
    /\ profiles !! 1%nat = Some p
    /\ username p = JsStr "satoshi"
    /\ typeof (createdAt p) = "number".
Proof.
  destruct (getAllProfiles_maps_rows stocked _ eq_refl)
    as (profiles & Ep & Hlen & Hrows).
  destruct (Hrows 1%nat _ eq_refl) as (p & Hp & _ & Hname & _ & _ & Htype & _).
  exists profiles, p. split; [exact Ep|]. split; [exact Hlen|].
  split; [exact Hp|]. split; [exact Hname | exact Htype].
Defined.

Lemma getProfileByUsername_not_found_is_silent_witness :
  getProfileByUsername accepting "nobody" = (Returned None, [])
  /\ snd (getProfileByUsername failing "nobody")
     = [["Supabase Error (getProfile):"; ""]].
Proof.
  destruct (getProfileByUsername_not_found_is_silent accepting "nobody"
              None no_rows eq_refl) as (Hfst & Hsilent & _).
  destruct (getProfileByUsername_not_found_is_silent failing "nobody"
              None empty_error eq_refl) as (_ & _ & Hlogged).
  split.
  - rewrite (surjective_pairing (getProfileByUsername accepting "nobody")).
    rewrite Hfst, Hsilent by reflexivity. reflexivity.
  - apply Hlogged. discriminate.
Defined.

End StorageMoreInstances.

(* ===================================================================== *)
(** * More on the wallet bridge *)
(* ===================================================================== *)

Section WalletMore.
Import Chain Wallet Connect.
Context {num : Type} `{JsNumber num}.
Implicit Types (window : Window num).

Lemma signEVM_try_true verifyMessage (eth : Ethereum)
    (address message : string) :
  fst (signEVM_try verifyMessage eth address message) = Some true ->
  exists signer signerAddress signature recovered,
    getSigner eth = Resolved signer
    /\ getAddress signer = Resolved signerAddress
    /\ toLowerCase signerAddress = toLowerCase address
    /\ signer_signMessage signer message = Resolved signature
    /\ verifyMessage message signature = Some recovered
    /\ toLowerCase recovered = toLowerCase address.
Proof.
  unfold signEVM_try.
  destruct (getSigner eth) as [signer|]; [|discriminate].
  destruct (getAddress signer) as [signerAddress|] eqn:Ha; [|discriminate].
  destruct (String.eqb_spec (toLowerCase signerAddress) (toLowerCase address))
    as [Hsame|]; [|discriminate]. simpl.
  destruct (signer_signMessage signer message) as [signature|] eqn:Hsig;
    [|discriminate].
  destruct (verifyMessage message signature) as [recovered|] eqn:Hv;
    [|discriminate]. simpl.
  intros [= Heq]. apply String.eqb_eq in Heq.
  now exists signer, signerAddress, signature, recovered.
Qed.

(** X21. [signEVM] returns true only when the wallet's current account is
    the address, letter case ignored, the wallet has signed the very
    message it was given, and the address recovered from that signature
    is the address again. *)
Theorem signEVM_true_is_verified
    (verifyMessage : string -> string -> option string) window
    (address message : string) :
  fst (signEVM verifyMessage window address message) = Returned true ->
  exists eth signer signerAddress signature recovered,
    ethereum window = Some eth
    /\ getSigner eth = Resolved signer
    /\ getAddress signer = Resolved signerAddress
    /\ toLowerCase signerAddress = toLowerCase address
    /\ signer_signMessage signer message = Resolved signature
    /\ snd (signEVM verifyMessage window address message)
       = [Signed message signature]
    /\ verifyMessage message signature = Some recovered
    /\ toLowerCase recovered = toLowerCase address.
Proof.
  unfold signEVM. destruct (ethereum window) as [eth|]; [|discriminate].
  destruct (signEVM_try verifyMessage eth address message)
    as [[verified|] events] eqn:E; [|discriminate].
  simpl. intros [= ->].
  destruct (signEVM_try_true verifyMessage eth address message)
    as (signer & signerAddress & signature & recovered
        & Hs & Ha & Hsame & Hsig & Hv & Hrec).
  { now rewrite E. }
  exists eth, signer, signerAddress, signature, recovered.
  repeat (split; [assumption || reflexivity|]). split; [|now split].
  apply (f_equal snd) in E. simpl in E. rewrite <- E.
  unfold signEVM_try. rewrite Hs, Ha.
  apply String.eqb_eq in Hsame. rewrite Hsame. simpl. now rewrite Hsig.
Qed.

(** X22. When the wallet's current account is not the address,
    [signEVM] asks for no signature: it throws its fixed message, in
    which the reason is lost. *)
Theorem signEVM_other_account_signs_nothing
    (verifyMessage : string -> string -> option string) window
    (eth : Ethereum) (signer : Signer)
    (signerAddress address message : string) :
  ethereum window = Some eth ->
  getSigner eth = Resolved signer ->
  getAddress signer = Resolved signerAddress ->
  toLowerCase signerAddress <> toLowerCase address ->
  signEVM verifyMessage window address message
  = (Threw "Signature rejected or failed.", []).
Proof.
  intros He Hs Ha Hdiffer. unfold signEVM, signEVM_try.
  rewrite He, Hs, Ha. apply String.eqb_neq in Hdiffer.
  now rewrite Hdiffer.
Qed.

(** X23. What [signEVM] and [signSolana] throw is one of their fixed
    messages, whatever the wallet rejected with: Wallet disconnected
    exactly when no provider is injected, and one message for every
    failure after that. *)
Theorem sign_throws_fixed_messages
    (verifyMessage : string -> string -> option string) window
    (address message e : string) :
  (fst (signEVM verifyMessage window address message) = Threw e ->
   (e = "Wallet disconnected." /\ ethereum window = None)
   \/ (e = "Signature rejected or failed." /\ ethereum window <> None))
  /\ (signSolana window address message = Threw e ->
      (e = "Wallet disconnected." /\ solana_provider window = None)
      \/ (e = "Signature rejected." /\ solana_provider window <> None)).
Proof.
  split.
  - unfold signEVM. destruct (ethereum window) as [eth|].
    + destruct (signEVM_try verifyMessage eth address message)
        as [[verified|] events]; simpl; [discriminate|].
      intros [= <-]. right. now split.
    + simpl. intros [= <-]. now left.
  - unfold signSolana. destruct (solana_provider window) as [provider|].
    + destruct (signMessage provider _ _) as [signedMessage|reason].
      * destruct (property signedMessage "signature"); [discriminate|].
        intros [= <-]. right. now split.
      * intros [= <-]. right. now split.
    + intros [= <-]. now left.
Qed.

(** X24. A wallet [connectEVM] returns is the first account the provider
    shares, on BNB Chain exactly when the network id is 56 and on
    Ethereum for every other network, mainnet or not; it is labelled
    metamask whichever wallet answered, and is never a Bitcoin or a
    Solana wallet. *)
Theorem connectEVM_wallet window (answers : EvmAnswers)
    (wallet : ConnectedWallet) :
  connectEVM window answers = Returned wallet ->
  exists accounts chainId,
    ethereum window <> None
    /\ eth_requestAccounts answers
       = Resolved (Some (wallet_address wallet :: accounts))
    /\ network_chainId answers = Resolved chainId
    /\ (chainId = 56 -> wallet_chain wallet = BNB)
    /\ (chainId <> 56 -> wallet_chain wallet = ETH)
    /\ wallet_provider wallet = metamask.
Proof.
  unfold connectEVM. destruct (ethereum window) as [eth|]; [|discriminate].
  destruct (eth_requestAccounts answers) as [[[|account accounts]|]|];
    try discriminate.
  destruct (network_chainId answers) as [chainId|]; [|discriminate].
  intros [= <-]. exists accounts, chainId. simpl.
  split; [discriminate|]. split; [reflexivity|]. split; [reflexivity|].
  split; [|split; [|reflexivity]].
  - intros ->. reflexivity.
  - intros Hne. apply Z.eqb_neq in Hne. now rewrite Hne.
Qed.

(** X25. [connectSolana] returns the address the provider gives, as a
    Solana wallet labelled phantom; when it throws, the message is one of
    its two fixed ones, while [connectEVM] passes on what the provider
    rejects with. *)
Theorem connectSolana_wallet window (connected : Promise (option string))
    (answers : EvmAnswers) :
  (forall wallet, connectSolana window connected = Returned wallet ->
     connected = Resolved (Some (wallet_address wallet))
     /\ wallet_chain wallet = SOL /\ wallet_provider wallet = phantom)
  /\ (forall e, connectSolana window connected = Threw e ->
        e = "Solana wallet not detected. Please install Phantom or Backpack."
        \/ e = "User rejected Solana connection.")
  /\ (forall reason, ethereum window <> None ->
        eth_requestAccounts answers = Rejected reason ->
        connectEVM window answers = Threw reason).
Proof.
  split; [|split].
  - intros wallet. unfold connectSolana.
    destruct (solana_provider window); [|discriminate].
    destruct connected as [[a|]|]; try discriminate.
    intros [= <-]. now split.
  - intros e. unfold connectSolana.
    destruct (solana_provider window); [|intros [= <-]; now left].
    destruct connected as [[a|]|]; try discriminate;
      intros [= <-]; now right.
  - intros reason He Hr. unfold connectEVM.
    destruct (ethereum window); [|contradiction]. now rewrite Hr.
Qed.

(** X26. [checkInstalled] tells what the connect and sign functions will
    find: when it reports no EVM wallet, [connectEVM] throws that none is
    detected, and [signEVM] throws that the wallet is disconnected
    exactly then; it reports no Solana wallet exactly when
    [connectSolana] throws that none is detected and [signSolana] that
    the wallet is disconnected. *)
Theorem checkInstalled_agrees
    (verifyMessage : string -> string -> option string) window
    (answers : EvmAnswers) (connected : Promise (option string))
    (address message : string) :
  (evm (checkInstalled window) = false ->
   connectEVM window answers
   = Threw "No EVM wallet detected. Please install MetaMask, Rabby, or Trust Wallet.")
  /\ (evm (checkInstalled window) = false
      <-> signEVM verifyMessage window address message
          = (Threw "Wallet disconnected.", []))
  /\ (solana_installed (checkInstalled window) = false
      <-> connectSolana window connected
          = Threw "Solana wallet not detected. Please install Phantom or Backpack.")
  /\ (solana_installed (checkInstalled window) = false
      <-> signSolana window address message = Threw "Wallet disconnected.").
Proof.
  unfold checkInstalled, connectEVM, signEVM, connectSolana, signSolana,
    solana_provider. simpl.
  split; [|split; [|split]].
  - destruct (ethereum window); [discriminate | reflexivity].
  - destruct (ethereum window) as [eth|]; simpl; [|tauto].
    split; [discriminate|].
    destruct (signEVM_try verifyMessage eth address message) as [[b|] events];
      discriminate.
  - destruct (solana window), (phantom_solana window); simpl;
      try tauto; (split; [discriminate|]);
      destruct connected as [[a|]|]; discriminate.
  - destruct (solana window) as [p|], (phantom_solana window) as [q|]; simpl;
      try tauto; (split; [discriminate|]).
    + destruct (signMessage p _ _) as [v|];
        [destruct (property v "signature")|]; discriminate.
    + destruct (signMessage p _ _) as [v|];
        [destruct (property v "signature")|]; discriminate.
    + destruct (signMessage q _ _) as [v|];
        [destruct (property v "signature")|]; discriminate.
Qed.

End WalletMore.

Section WalletMoreInstances.
Import Chain Wallet Connect Examples MoreExamples.

(** The claimed account signs, and the signature recovers to it in lower
    case. *)
Lemma signEVM_true_is_verified_witness :
  exists signature recovered,
    snd (signEVM recovers_claimed honest_window claimed "hello")
      = [Signed "hello" signature]
    /\ recovers_claimed "hello" signature = Some recovered
    /\ toLowerCase recovered = toLowerCase claimed.
Proof.
  destruct (signEVM_true_is_verified recovers_claimed honest_window claimed
              "hello" eq_refl)
    as (eth & signer & signerAddress & signature & recovered
        & _ & _ & _ & _ & _ & Hevents & Hv & Hrec).
  now exists signature, recovered.
Defined.

Lemma signEVM_other_account_signs_nothing_witness :
  signEVM recovers_claimed other_account_window claimed "hello"
  = (Threw "Signature rejected or failed.", []).
Proof.
  eapply signEVM_other_account_signs_nothing; try reflexivity.
  vm_compute. discriminate.
Defined.

(** Wallets that reject the signature with reasons of their own, and a
    window without wallet. *)
Lemma sign_throws_fixed_messages_witness :
  fst (signEVM recovers_claimed denying_window claimed "hello")
    = Threw "Signature rejected or failed."
  /\ signSolana denying_window sol_wallet "hello"
     = Threw "Signature rejected."
  /\ fst (signEVM recovers_claimed bare_window claimed "hello")
     = Threw "Wallet disconnected."
  /\ signSolana bare_window sol_wallet "hello"
     = Threw "Wallet disconnected.".
Proof.
  split; [|split; [|split]].
  - destruct (fst (signEVM recovers_claimed denying_window claimed "hello"))
      as [b|e] eqn:E; [vm_compute in E; discriminate E|].
    destruct (proj1 (sign_throws_fixed_messages recovers_claimed
                       denying_window claimed "hello" e) E)
      as [[_ Hnone] | [-> _]];
      [vm_compute in Hnone; discriminate Hnone | reflexivity].
  - destruct (signSolana denying_window sol_wallet "hello")
      as [b|e] eqn:E; [vm_compute in E; discriminate E|].
    destruct (proj2 (sign_throws_fixed_messages recovers_claimed
                       denying_window sol_wallet "hello" e) E)
      as [[_ Hnone] | [-> _]];
      [vm_compute in Hnone; discriminate Hnone | reflexivity].
  - destruct (fst (signEVM recovers_claimed bare_window claimed "hello"))
      as [b|e] eqn:E; [vm_compute in E; discriminate E|].
    destruct (proj1 (sign_throws_fixed_messages recovers_claimed
                       bare_window claimed "hello" e) E)
      as [[-> _] | [_ Hsome]];
      [reflexivity | exfalso; apply Hsome; reflexivity].
  - destruct (signSolana bare_window sol_wallet "hello")
      as [b|e] eqn:E; [vm_compute in E; discriminate E|].
    destruct (proj2 (sign_throws_fixed_messages recovers_claimed
                       bare_window sol_wallet "hello" e) E)
      as [[-> _] | [_ Hsome]];
      [reflexivity | exfalso; apply Hsome; reflexivity].
Defined.

(** The wallet is on BNB Chain. *)
Lemma connectEVM_wallet_witness :
  exists wallet,
    connectEVM honest_window on_bnb = Returned wallet
    /\ wallet_address wallet = claimed
    /\ wallet_chain wallet = BNB.
Proof.
  eexists. split; [reflexivity|].
  destruct (connectEVM_wallet honest_window on_bnb _ eq_refl)
    as (accounts & chainId & _ & Haccounts & Hid & Hbnb & _).
  split; [reflexivity|]. apply Hbnb.
  injection Hid as <-. reflexivity.
Defined.

Lemma connectSolana_wallet_witness :
  exists wallet,
    connectSolana careless_window (Resolved (Some sol_wallet))
      = Returned wallet
    /\ wallet_chain wallet = SOL.
Proof.
  eexists. split; [reflexivity|].
  destruct (connectSolana_wallet careless_window
              (Resolved (Some sol_wallet)) on_bnb) as [Hwallet _].
  destruct (Hwallet _ eq_refl) as (_ & Hchain & _). exact Hchain.
Defined.

Lemma checkInstalled_agrees_witness :
  connectEVM bare_window on_bnb
  = Threw "No EVM wallet detected. Please install MetaMask, Rabby, or Trust Wallet."
  /\ signSolana bare_window sol_wallet "hello" = Threw "Wallet disconnected.".
Proof.
  destruct (checkInstalled_agrees recovers_claimed bare_window on_bnb
              (Resolved (Some sol_wallet)) sol_wallet "hello")
    as (Hconnect & _ & _ & Hsign).
  split; [apply Hconnect; reflexivity | apply Hsign; reflexivity].
Defined.

End WalletMoreInstances.

(* ===================================================================== *)
(** * The dashboard *)
(* ===================================================================== *)

Section DashboardFacts.
Import Chain Dashboard.
Context {num : Type} `{JsNumber num}.
Implicit Types (row : DashboardRow num).

Lemma range_days_positive (range : TimeRange) (h : list (HistoryPoint num)) :
  0 <= range_days range h.
Proof. destruct range; simpl; lia. Qed.

(** X27. The growth of a dashboard row is computed without reading
    outside the history, whatever the history and the range: the start
    index stays within it. On a history of at most 366 points, as every
    history of [fetchWalletStats] is, the ranges 1Y and ALL give the same
    growth. *)
Theorem growth_stays_in_bounds row (range : TimeRange) :
  (exists v, growth row range = Returned v)
  /\ (forall stats, row_stats row = Some stats ->
        (length (history stats) <= 366)%nat ->
        growth row Range1Y = growth row RangeALL).
Proof.
  split.
  - unfold growth. destruct (row_stats row) as [stats|]; [|now eexists].
    destruct (0 <? length (history stats))%nat eqn:E; [|now eexists].
    apply Nat.ltb_lt in E. cbv zeta.
    pose proof (range_days_positive range (history stats)) as Hd.
    destruct (lookup_lt_is_Some_2 (history stats)
                (Z.to_nat (Z.max 0 (Z.of_nat (length (history stats)) - 1
                                    - range_days range (history stats)))))
      as [start ->]; [lia|].
    destruct (lookup_lt_is_Some_2 (history stats)
                (length (history stats) - 1)) as [last ->]; [lia|].
    now eexists.
  - intros stats Hs Hlen. unfold growth. rewrite Hs. cbv zeta.
    destruct (0 <? length (history stats))%nat; [|reflexivity].
    replace (Z.max 0 (Z.of_nat (length (history stats)) - 1
                      - range_days Range1Y (history stats)))
      with (Z.max 0 (Z.of_nat (length (history stats)) - 1
                     - range_days RangeALL (history stats)))
      by (simpl; lia).
    reflexivity.
Qed.

End DashboardFacts.

Section DashboardInstances.
Import Chain Dashboard Examples MoreExamples.

(** A row whose history has 365 points. *)
Lemma growth_stays_in_bounds_witness :
  exists stats,
    fst (fetchWalletStats frozen btc_wallet BTC start) = Returned stats
    /\ growth {| row_username := "satoshi"; row_address := btc_wallet;
                 row_stats := Some stats |} Range1Y
       = growth {| row_username := "satoshi"; row_address := btc_wallet;
                   row_stats := Some stats |} RangeALL.
Proof.
  destruct (fetchWalletStats_history frozen btc_wallet BTC start)
    as (stats & Es & Hlen & _).
  exists stats. split; [exact Es|].
  apply (proj2 (growth_stays_in_bounds
                  {| row_username := "satoshi"; row_address := btc_wallet;
                     row_stats := Some stats |} Range1Y) stats eq_refl).
  rewrite Hlen. lia.
Defined.

End DashboardInstances.

(* ===================================================================== *)
(** * The onboarding wizard *)
(* ===================================================================== *)

Section SubmitFormFacts.
Import Regex Chain Wallet Connect SubmitForm.
Context {num : Type} `{JsNumber num}.
Implicit Types (w : Wizard).

Ltac each_char c := destruct c as [[] [] [] [] [] [] [] []]; reflexivity.

Lemma word_class c :
  in_class [("a", "z"); ("A", "Z"); ("0", "9"); ("_", "_")]%char c
  = member username_alphabet c.
Proof. each_char c. Qed.

Lemma username_regex_pattern (s : string) :
  test username_regex s
  = between 3 20 (length (chars s))
    && forallb (member username_alphabet) (chars s).
Proof.
  unfold test, username_regex.
  change (run (Rep ?c ?lo ?hi) ?l at_end) with (rep (run c) lo hi l at_end).
  rewrite rep_class_at_end. f_equal.
  apply forallb_same, word_class.
Qed.

(** X28. The username test of the form accepts exactly the words of 3 to
    20 characters over the letters, the digits and the underscore: no
    other character passes, at the end of the word either. *)
Theorem username_pattern (s : string) :
  test username_regex s = true
  <-> (3 <= String.length s <= 20)%nat
      /\ forall c, In c (chars s) -> member username_alphabet c = true.
Proof.
  rewrite username_regex_pattern, andb_true_iff, forallb_forall.
  unfold between. rewrite andb_true_iff, !Nat.leb_le.
  replace (length (chars s)) with (String.length s); [tauto|].
  induction s as [|c s IH]; simpl; [reflexivity | now rewrite IH].
Qed.

Lemma str_or_nonempty (e fallback : string) :
  fallback <> "" -> str_or e fallback <> "".
Proof. intros Hf. unfold str_or. now destruct e. Qed.

(** X29. [handleSubmit] navigates only after the username has passed the
    test and [createProfile] has returned a profile, and then to the page
    of that username, leaving the form loading; in every other case it
    stays, stops loading and shows a message that is never empty. With a
    username that fails the test the store is not consulted: the outcome
    is the same for every store. *)
Theorem handleSubmit_outcome (db : Storage.Supabase num) (random36 : string)
    (now : Z) w :
  (forall route, snd (handleSubmit db random36 now w) = Some route ->
     route = String.append "/u/" (username (formData w))
     /\ test username_regex (username (formData w)) = true
     /\ (exists created,
           fst (Storage.createProfile db random36 now
                  (profile_fields num (formData w))) = Returned created)
     /\ isLoading (fst (handleSubmit db random36 now w)) = true
     /\ error (fst (handleSubmit db random36 now w)) = None)
  /\ (snd (handleSubmit db random36 now w) = None ->
      isLoading (fst (handleSubmit db random36 now w)) = false
      /\ exists e, error (fst (handleSubmit db random36 now w)) = Some e
                   /\ e <> "")
  /\ (test username_regex (username (formData w)) = false ->
      forall db' random36' now',
        handleSubmit db' random36' now' w = handleSubmit db random36 now w)
  /\ formData (fst (handleSubmit db random36 now w)) = formData w.
Proof.
  unfold handleSubmit. cbv zeta.
  change (formData (with_isLoading true (with_error None w)))
    with (formData w).
  destruct (test username_regex (username (formData w))) eqn:Et; simpl.
  - destruct (fst (Storage.createProfile db random36 now _))
      as [created|e] eqn:Ec; simpl.
    + split; [|split; [discriminate|split; [discriminate | reflexivity]]].
      intros route [= <-]. repeat split. now exists created.
    + split; [discriminate|]. split; [|split; [discriminate | reflexivity]].
      intros _. split; [reflexivity|]. eexists. split; [reflexivity|].
      apply str_or_nonempty. discriminate.
  - split; [discriminate|]. split; [|split; reflexivity].
    intros _. split; [reflexivity|]. eexists. split; [reflexivity|].
    discriminate.
Qed.

(** ** The steps of the wizard *)

Section Steps.
Variable verifyMessage : string -> string -> option string.

Lemma is_step_true s w : is_step s w = true -> step w = s.
Proof. unfold is_step. destruct s, (step w); (reflexivity || discriminate). Qed.

Lemma present_true {A} (o : option A) :
  present o = true -> exists a, o = Some a.
Proof. destruct o as [a|]; [now exists a | discriminate]. Qed.

Lemma handleConnect_grounded (connected : Completion ConnectedWallet) w :
  step w = connect -> grounded verifyMessage (handleConnect connected w).
Proof.
  intros Hstep. unfold handleConnect, SubmitForm.grounded.
  destruct connected as [wallet|e]; simpl; [auto|].
  now rewrite Hstep.
Qed.

Lemma handleManualNext_grounded w :
  step w = connect -> grounded verifyMessage (handleManualNext w).
Proof.
  intros Hstep. unfold handleManualNext, SubmitForm.grounded. cbv zeta.
  change (formData (with_error None w)) with (formData w).
  destruct (isValidAddress (address (formData w)) (chain (formData w)))
    eqn:E; simpl; [exact E | now rewrite Hstep].
Qed.

Lemma handleVerifyOwnership_grounded (window : Window num) (now nonce : Z) w :
  step w = verify -> grounded verifyMessage w ->
  grounded verifyMessage
    (handleVerifyOwnership verifyMessage window now nonce w).
Proof.
  intros Hstep Hw. unfold handleVerifyOwnership.
  unfold grounded in Hw. rewrite Hstep in Hw.
  destruct (connectedWallet w) as [wallet|] eqn:Hwallet;
    [|unfold grounded; now rewrite Hstep, Hwallet].
  destruct Hw as [Haddress Hchain]. cbv zeta.
  set (message := createVerificationMessage now nonce (wallet_address wallet)).
  destruct (Blockchain_eqb (wallet_chain wallet) SOL) eqn:Esol.
  - assert (wallet_chain wallet = SOL) as Hsol
      by (destruct (wallet_chain wallet); (reflexivity || discriminate)).
    destruct (signSolana window (wallet_address wallet) message) as [[|]|e];
      unfold grounded; simpl; rewrite ?Hstep, ?Hwallet; auto.
    split; [exact Haddress|]. split; [exact Hchain|]. congruence.
  - destruct (fst (signEVM verifyMessage window (wallet_address wallet)
                     message)) as [[|]|e] eqn:Esign;
      unfold grounded; simpl; rewrite ?Hstep, ?Hwallet; auto.
    split; [exact Haddress|]. split; [exact Hchain|]. intros _.
    unfold signEVM in Esign.
    destruct (ethereum window) as [eth|]; [|discriminate Esign].
    destruct (signEVM_try verifyMessage eth (wallet_address wallet) message)
      as [[verified|] events] eqn:Etry; [|discriminate Esign].
    simpl in Esign. injection Esign as ->.
    destruct (signEVM_try_true verifyMessage eth (wallet_address wallet)
                message)
      as (signer & signerAddress & signature & recovered
          & _ & _ & _ & _ & Hv & Hrec).
    { now rewrite Etry. }
    now exists now, nonce, signature, recovered.
Qed.

Lemma handle_grounded (e : PageEvent num) w :
  offered e w = true -> grounded verifyMessage w ->
  grounded verifyMessage (handle verifyMessage e w).
Proof.
  intros Ho Hw. destruct e; unfold offered in Ho; unfold handle;
    cbv iota in Ho |- *;
    repeat match type of Ho with
           | (_ && _)%bool = true =>
               apply andb_true_iff in Ho as [Ho ?]
           end;
    apply is_step_true in Ho.
  - unfold grounded. simpl. now rewrite Ho.
  - now apply handleConnect_grounded.
  - now apply handleConnect_grounded.
  - unfold grounded. simpl. now rewrite Ho.
  - unfold grounded. simpl. now rewrite Ho.
  - now apply handleManualNext_grounded.
  - now apply handleVerifyOwnership_grounded.
  - unfold grounded. reflexivity.
  - unfold grounded in *. simpl. rewrite Ho in *. exact Hw.
  - unfold grounded in *. simpl. rewrite Ho in *.
    destruct social; exact Hw.
  - unfold handleImageUpload. destruct file as [[size dataUrl]|]; [|exact Hw].
    destruct (200 * 1024 <? size); unfold grounded in *; simpl;
      rewrite Ho in *; exact Hw.
  - unfold handleSubmit. cbv zeta.
    change (formData (with_isLoading true (with_error None w)))
      with (formData w).
    destruct (test username_regex (username (formData w)));
      [destruct (fst (Storage.createProfile _ _ _ _))|];
      unfold grounded in *; simpl; rewrite Ho in *; exact Hw.
Qed.

(** X30. With the events of the page handled one after the other, each
    handler run to its end before the next event, the wizard shows the
    profile step only on one of two grounds. With a connected wallet, the
    linked address and chain are the wallet's, and for an Ethereum or BNB
    wallet a signature of a verification message for that address has
    recovered to it; for a Solana wallet no such check stands behind the
    step. Without a wallet, the linked address has the format of the
    selected chain. The verify step shows the address of the wallet that
    was connected. *)
Theorem wizard_grounded (events : list (PageEvent num)) :
  grounded verifyMessage (after verifyMessage events).
Proof.
  unfold after.
  assert (Hrun : forall w, grounded verifyMessage w ->
    grounded verifyMessage
      (fold_left (fun w e => if offered e w then handle verifyMessage e w
                             else w)
                events w)).
  { induction events as [|e events IH]; intros w Hw; [exact Hw|].
    simpl. apply IH. destruct (offered e w) eqn:Ho; [|exact Hw].
    now apply handle_grounded. }
  apply Hrun. exact I.
Qed.

End Steps.

End SubmitFormFacts.

Section SubmitFormInstances.
Import Regex Chain Wallet Connect SubmitForm Examples MoreExamples.

Lemma username_pattern_witness :
  (3 <= String.length "alice_1" <= 20)%nat
  /\ test username_regex "alice 1" = false.
Proof.
  split.
  - exact (proj1 (proj1 (username_pattern "alice_1") eq_refl)).
  - destruct (test username_regex "alice 1") eqn:E; [|reflexivity].
    apply username_pattern in E as [_ Hall].
    specialize (Hall " "%char). simpl in Hall.
    discriminate Hall. auto 10.
Defined.

(** A valid username and a store that accepts the row; a username with a
    blank. *)
Lemma handleSubmit_outcome_witness :
  snd (handleSubmit accepting "0.4fzyo82mvyr" 1700000000000
         (with_formData (with_username "alice_1" (formData initial)) initial))
  = Some "/u/alice_1"
  /\ error (fst (handleSubmit accepting "0.4fzyo82mvyr" 1700000000000
                   (with_formData (with_username "alice 1" (formData initial))
                      initial)))
     = Some "Username must be 3-20 alphanumeric characters.".
Proof.
  split.
  - destruct (handleSubmit_outcome accepting "0.4fzyo82mvyr" 1700000000000
                (with_formData (with_username "alice_1" (formData initial))
                   initial)) as [Hroute _].
    destruct (snd (handleSubmit accepting "0.4fzyo82mvyr" 1700000000000 _))
      as [route|] eqn:E; [|discriminate E].
    destruct (Hroute route eq_refl) as [-> _]. reflexivity.
  - destruct (handleSubmit_outcome accepting "0.4fzyo82mvyr" 1700000000000
                (with_formData (with_username "alice 1" (formData initial))
                   initial)) as (_ & _ & Hsame & _).
    rewrite <- (Hsame eq_refl failing "0" 0). reflexivity.
Defined.

(** Connecting the wallet of the claimed account and signing leads to the
    profile step. *)
Lemma wizard_grounded_witness :
  step (after recovers_claimed
          [ClickConnectEvm honest_window on_bnb;
           ClickSign honest_window 1700000000000 424242]) = profile
  /\ recoverable recovers_claimed claimed.
Proof.
  split; [reflexivity|].
  pose proof (wizard_grounded recovers_claimed
                [ClickConnectEvm honest_window on_bnb;
                 ClickSign honest_window 1700000000000 424242]) as Hg.
  apply Hg. discriminate.
Defined.

End SubmitFormInstances.
